(* ===== verification/_CoqProject ===== *)
-Q . S2P
Prelude.v
Exceptions.v
Builtins.v
Dom.v
Pager.v
Availability.v
Book.v
Page.v
Transport.v
Stamina.v
Sink.v
Crawl.v
Gather.v
Interleave.v
Main.v
