(* ===== verification/Prelude.v ===== *)
(** * A verification development for the [soup] book-catalogue scraper

    ** The program

    The repository crawls the paginated catalogue of books.toscrape.com:
    - [src/transport.py]: [get_page] issues [GET .../catalogue/page-N.html]
      through an [httpx.AsyncClient], turns a 404 into [NotFoundError],
      any other non-2xx status into [httpx.HTTPStatusError], and is wrapped
      in [stamina.retry(on=httpx.HTTPError, attempts=3)];
    - [src/scraper.py]: [parse_pages_count] reads the total page count out
      of the "Page X of Y" pager text; [gauge_availability] maps the class
      list of the [p.availability] marker to a boolean; [parse_book]
      extracts one [Book] (title, price, availability) from one product
      fragment; [parse_page] finds every [article.product_pod] of a page and
      keeps the books that parse, logging the per-record failures;
    - [src/exceptions.py]: the exception classes;
    - [src/mongo.py]: [book_to_model] and [insert_books], the sink;
    - [src/main.py]: [main] connects to MongoDB ([AsyncIOMotorClient],
      [init_beanie]), fetches page 1, parses and inserts it, reads the
      pager, then runs [asyncio.gather] of [scrape_page] over
      [range(1, cunt)], each task fetching, parsing and inserting page
      [page + 1]; a [MissingCriticalElementError] is caught and logged.

    The components call one another leaf first: [main] calls [get_page],
    [parse_page], [insert_books] and [parse_pages_count]; [parse_page] calls
    [parse_book], which calls [gauge_availability]. Errors travel as Python
    exceptions; the model writes them as values of [exn + A] (the left side
    is the raised exception, of class [exn_class] and message [exn_msg]).

    ** The library (files in dependency order)

    - [Prelude] (this file): Python strings as lists of code points
      ([pystr]), the whitespace set of [str.isspace], [str.strip] as
      [rstrip] after [lstrip], greedy spans, the result notations of
      [soup_scope] ([raise e], [x <- c ;; k]), the [soup] hint databases,
      the tactic [decide_by_eval], and the lemmas on stripping shared by
      the parsers ([strip_idem], [strip_pad], [strip_nil_blank]).
    - [Exceptions]: the classes of [src/exceptions.py] and of the runtime
      [httpx] and pymongo that the code raises or catches, their [base] hierarchy,
      [isinstance] and [handles], the test of [except (A, B, ...)].
    - [Builtins]: CPython's [int(str)] ([py_int]: whitespace, sign,
      underscores, the 4300-digit limit and the exact messages), [str(int)]
      ([str_N], [str_Z]), [repr] of strings and lists. [str_N] uses the
      fuel [N.size n + 1], larger than the number of decimal digits.
    - [Dom]: the BeautifulSoup tree the code queries (the library, modelled
      as the four queries the code uses): elements with their ancestor
      path, compound CSS selectors with the descendant combinator,
      [select_one] (first match in document order), [find_all], [.get],
      [.text] (concatenated descendant text); the four queries are the
      interface [TreeQuery] with its law [TreeQueryLaws] (the tree-query
      capability of the design notes), which [el] implements.
    - [Pager]: [parse_pages_count]; the regular expression is a greedy
      matcher [pager_match], proved equal to the language [pager_lang] of
      the pattern (greedy matching loses nothing because the character
      classes of adjacent parts are disjoint).
    - [Availability]: [gauge_availability], refined against its contract
      [availability_spec]. This file, [Book] and [Page] are sections over
      any [TreeQuery] implementation.
    - [Book]: the record [Book] (from [entities.py], which the repository
      does not contain: modelled from the specification) and [parse_book].
    - [Page]: [parse_page], its loop [parse_books] with the accumulator and
      the list of logged events; the HTML parser is a section variable.
    - [Transport]: one attempt of [get_page] on a network oracle
      [nat -> client_outcome] (what [client.get] does at attempt [k]), the
      retry loop [retry] of the decorator with its contract [retry_spec],
      the interface [RetryCombinator] (a retry combinator keeping the
      contract, implemented by [retry]) and [get_page], whose theorems are
      proved against the interface.
    - [Stamina]: the same decorator with its clock: stamina's defaults
      (back-off from 0.1 s doubling to 5 s plus a jitter of up to 1 s, a
      45 s timeout), in milliseconds, with the attempt durations and the
      jitters as oracles ([timed_retry], [get_page_timed]); on a quick
      network it is a second implementation of [RetryCombinator]
      ([stamina_combinator]).
    - [Sink]: [BookModel], [book_to_model] and [insert_books] over a
      collection held as a list; [insert_many] raises [TypeError] on an
      empty list, as pymongo does.
    - [Crawl]: [scrape_page] and [main]. The collaborators of a crawl (the
      HTML parser, the network oracle indexed by URL page, the clock of
      [datetime.now], and the database connection [db_open] on the
      database [db_name]: the exception it raises or the documents the
      collection holds) form the record
      [crawl_env], the context of the section [Crawl]. Phase 1
      ([main_start], with its [try] block [main_try]) is a function; phase 2 (the
      gather, the propagation of the first failure and the cancellation of
      pending tasks by [asyncio.run]) is the step relation [step] on
      [crawl_state] (pending tasks, collection, log, status), with a task's
      body as one atomic step. [Prelude] gives the generic simulation
      lemma [simulation_rtc] that later files use to relate step relations.
    - [Gather]: the theorems on [step]: the invariant [crawl_inv], the
      measure [crawl_measure], and a round-robin scheduler [sched] that
      runs concrete crawls.
    - [Interleave]: the gather as asyncio runs it. A page task is a
      coroutine resumed between awaits: its [phase] ([Start], [Fetch n k]
      before attempt [k] with [n] retries left, [Inserting] before the
      insert) and [task_step], the code from one await to the next. The
      event loop [fstep] resumes any suspended task, so the tasks interleave
      at every await and write one shared log tagged by page ([fevent]);
      [fhandle] is [asyncio.run]'s cancellation with main's except clause.
      A task has at most five segments (start, three attempts, insert),
      so [run_task] with fuel 5 runs it to its end.
    - [Main]: the composition: phase 1 hands its pending pages, collection,
      log and status to the interleaved gather ([fstart]).

    ** What is proved

    - Main: when the database answers, every page downloads and parses to
      books and the pager gives the page count, every finished run of
      [main] returns with exactly the books of every page appended to the
      documents the collection held ([crawl_stores_all_books]), and its log
      is main's phase-1 lines followed by an interleaving of every task's
      complete sequential log ([crawl_log_complete]); a crawl that reached
      its gather returns normally only if every page succeeded
      ([crawl_returns_only_complete]); and the crawl logs at most three
      request lines per page under every interleaving ([crawl_http_bound]).
    - Interleave: running a task's segments one after the other is
      [scrape_page] ([task_equiv]); every interleaved run is
      matched by a run of [step] with the same collection and status
      ([interleave_refines], a simulation whose relation [matches] keeps each
      suspended task on track with its sequential run); hence the
      collection is safe under every interleaving, all batches are stored
      when all tasks succeed, and the gather terminates (measure
      [fmeasure]); each task's lines in the shared log are a prefix of its
      sequential run's lines, in order (the invariant [log_inv]), and the
      whole of them once the gather has finished with every task
      succeeding ([interleave_log_complete]).
    - Gather: the collection equals the initial one plus the batches of
      distinct successful tasks under every schedule ([gather_store_safe],
      by rule induction with [crawl_inv]); every finished run returns with
      all batches when all tasks succeed ([gather_all_succeed]); a normal
      return means every task succeeded ([gather_returned_complete]); a
      failing page can lose all others ([gather_failure_loses_pages]); the
      gather terminates ([gather_terminates]).
    - Crawl: phase 1 in each of its branches ([main_start_*]), from an
      unreachable database ([main_start_db_fails]) to the gather; the tasks
      fetch pages 2..N once each ([gather_pages]).
    - Pager: matcher equals language ([pager_match_sound],
      [pager_match_complete]), the functional
      specification ([parse_pages_count_spec]), the round trip with [str()]
      ([parse_pages_count_roundtrip]), padding, the error branches, the
      comma and digit-limit behaviour of [int()].
    - Book and Availability: [parse_book] succeeds exactly when every
      field validates ([parse_book_ok]), every book is well formed, one
      theorem per error branch; the classifier refines its contract and is
      total when the marker exists.
    - Page: the books and log of a page without fatal fragments
      ([parse_page_ok]), the abort on an empty price or unknown class, the
      string-layout [AttributeError].
    - Transport: [retry] meets its contract [retry_spec]
      ([retry_meets_spec]); [get_page]
      makes one to three attempts, never retries a 404, and raises the last
      [HTTPError] when the budget is exhausted.
    - Stamina: with attempts of at most 11.6 s, stamina's 45 s timeout
      never fires and the timed decorator is the untimed [get_page]
      ([timed_retry_fast]),
      so the theorems of [Transport], [Crawl], [Gather], [Interleave] and
      [Main] hold of it on such a network; a call ends within [3 D + 2.3 s]
      ([get_page_timed_bounds]); a first attempt slower than 45 s is not
      retried ([get_page_timed_slow]).
    - Sink: a batch is appended whole; an empty one raises [TypeError].
    Each theorem with hypotheses has a witness ([..._witness], ending in
    [Defined]) that applies it to a concrete document, network or crawl
    (the three-page shop of [Crawl], run by [sched] and [fsched]); the
    tests of [scraper_test.py] are [Example]s checked by evaluation.

    ** What the modelling showed

    Against the specification: thousands separators make [int()] raise;
    an unknown availability class or an empty price aborts the whole page;
    a whitespace-only title yields an empty title; a missing pager ends
    the crawl normally; one failing page of the gather aborts the crawl; a
    page without books makes the sink raise [TypeError]; [layout is str] is
    never true; the exhausted retry re-raises the last [HTTPError], not a
    [TransportError]; stamina's default timeout cuts the retries of an
    attempt slower than 45 s; a second crawl stores every book again, the
    indexes of [BookModel] not being unique; [client.db_name] selects the
    database literally named [db_name].

    ** What is not modelled

    - HTML parsing itself ([BeautifulSoup(txt, "html.parser")]), a library
      the code only calls: a field of [crawl_env]; the model starts from
      the parsed tree, and every theorem holds for every parser.
    - Logging configuration: the repository sets none; every logging call
      is an event of the model.
    - Inside the MongoDB connection: what [init_beanie] does besides
      raising or opening the collection (creating the indexes, which do not
      change the documents), and [config.MONGODB_URI], whose module the
      repository does not contain.
    - Inside the gather, the network is untimed: [Crawl] and [Interleave]
      call [get_page], which [Stamina] proves equal to the timed decorator
      when attempts take under 11.6 s; slower attempts are covered by
      [Stamina] alone. Wall-clock time does not order the tasks: [fstep]
      allows every interleaving, which includes the ones the timings give.
    - An [insert_many] that pymongo's driver has already sent when
      [asyncio.run] cancels its task: the model lets a cancelled task
      insert nothing after the cancellation.
*)

From Stdlib Require String Ascii.
From Stdlib Require Import ZArith Lia.
From stdpp Require Export base list relations.
Export (notations) Stdlib.Strings.String.

Declare Scope soup_scope.
Delimit Scope soup_scope with soup.
Open Scope soup_scope.

Create HintDb soup discriminated.
Create Rewrite HintDb soup_rw.

(** ** Python strings *)

(** A Python [str] is a sequence of Unicode code points. *)
Abbreviation pystr := (list N).

(** An ASCII literal as a Python string, for the literals of the code. *)
Definition lit (s : String.string) : pystr :=
  map Ascii.N_of_ascii (String.list_ascii_of_string s).
Arguments lit _%_string_scope.

(** [str.isspace] on one code point (CPython's [Py_UNICODE_ISSPACE]): the
    ASCII whitespace, the separators U+001C..U+001F, U+0085, U+00A0 and the
    Unicode space separators. [re]'s [\s] on [str] patterns uses the same
    predicate. *)
Definition is_space (c : N) : bool :=
  (((9 <=? c) && (c <=? 13)) || ((28 <=? c) && (c <=? 32)) ||
  (c =? 133) || (c =? 160) || (c =? 5760) ||
  ((8192 <=? c) && (c <=? 8202)) || (c =? 8232) || (c =? 8233) ||
  (c =? 8239) || (c =? 8287) || (c =? 12288))%N.

(** The ASCII digits of the character class [[0-9]]. *)
Definition is_digit (c : N) : bool := ((48 <=? c) && (c <=? 57))%N.

Arguments is_space : simpl never.
Arguments is_digit : simpl never.

(** [str.lstrip()], [str.rstrip()] and [str.strip()] with no argument. *)
Fixpoint lstrip (s : pystr) : pystr :=
  match s with
  | [] => []
  | c :: t => if is_space c then lstrip t else s
  end.

Definition rstrip (s : pystr) : pystr := rev (lstrip (rev s)).

Definition strip (s : pystr) : pystr := rstrip (lstrip s).

(** A string made of whitespace only. *)
Definition blank (w : pystr) : bool := forallb is_space w.

(** ** Greedy spans *)

(** The longest prefix whose characters satisfy [p], and the rest: what a
    greedy quantifier over a character class consumes. *)
Fixpoint span (p : N -> bool) (s : pystr) : pystr * pystr :=
  match s with
  | [] => ([], [])
  | c :: t => if p c then let '(a, b) := span p t in (c :: a, b) else ([], s)
  end.

(** The rest of a span does not start with a character of [p]. *)
Definition stops (p : N -> bool) (s : pystr) : bool :=
  match s with
  | [] => true
  | c :: _ => negb (p c)
  end.

(** ** Results

    A Python call either returns a value or raises; [E + A] is the result
    of a call raising [E], [inl] the raise and [inr] the return. *)

Notation "'raise' e" := (inl e) (at level 10, e at level 9) : soup_scope.
Notation "x <- c ;; k" :=
  (match c with inr x => k | inl err => inl err end)
  (at level 100, c at next level, right associativity) : soup_scope.

(** ** Lemmas on strings *)

Lemma lit_app (s1 s2 : String.string) : lit (String.append s1 s2) = lit s1 ++ lit s2.
Proof.
  induction s1 as [|a s1 IH]; [done|]. cbn. unfold lit in IH. by rewrite IH.
Qed.

Lemma blank_app w1 w2 : blank (w1 ++ w2) = blank w1 && blank w2.
Proof. apply forallb_app. Qed.

Lemma blank_cons c w : blank (c :: w) = is_space c && blank w.
Proof. done. Qed.

Lemma blank_rev w : blank (rev w) = blank w.
Proof.
  induction w as [|c w IH]; [done|].
  rewrite blank_cons, <- IH. cbn. rewrite blank_app. cbn.
  by rewrite andb_true_r, andb_comm.
Qed.

#[export] Hint Rewrite blank_app blank_cons blank_rev : soup_rw.

Lemma lstrip_blank_app w s : blank w = true -> lstrip (w ++ s) = lstrip s.
Proof.
  induction w as [|c w IH]; [done|].
  rewrite blank_cons. intros [Hc Hw]%andb_prop. cbn. rewrite Hc. auto.
Qed.

Lemma lstrip_stops s : stops is_space s = true -> lstrip s = s.
Proof. destruct s as [|c s]; [done|]. cbn. by destruct (is_space c). Qed.

Lemma lstrip_spec s : exists w, s = w ++ lstrip s /\ blank w = true /\
  stops is_space (lstrip s) = true.
Proof.
  induction s as [|c s IH]; [by exists []|]. cbn.
  destruct (is_space c) eqn:Hc.
  - destruct IH as (w & Hs & Hw & Hst). exists (c :: w).
    rewrite blank_cons, Hc, Hw. cbn. by rewrite <- Hs.
  - exists []. cbn. by rewrite Hc.
Qed.

Lemma lstrip_idem s : lstrip (lstrip s) = lstrip s.
Proof. destruct (lstrip_spec s) as (w & _ & _ & H). by apply lstrip_stops. Qed.

Lemma lstrip_nil_blank s : lstrip s = [] <-> blank s = true.
Proof.
  induction s as [|c s IH]; [done|]. cbn.
  destruct (is_space c); cbn; [done|]. split; discriminate.
Qed.

Lemma rstrip_blank_app s w : blank w = true -> rstrip (s ++ w) = rstrip s.
Proof.
  intros Hw. unfold rstrip. rewrite rev_app_distr, lstrip_blank_app; [done|].
  by rewrite blank_rev.
Qed.

Lemma lstrip_app s t :
  lstrip (s ++ t) = if blank s then lstrip t else lstrip s ++ t.
Proof.
  induction s as [|c s IH]; [done|]. cbn.
  destruct (is_space c); cbn; [done|]. done.
Qed.

Lemma rstrip_app s t :
  rstrip (s ++ t) = if blank t then rstrip s else s ++ rstrip t.
Proof.
  unfold rstrip. rewrite rev_app_distr, lstrip_app, blank_rev.
  destruct (blank t); [done|]. by rewrite rev_app_distr, rev_involutive.
Qed.

Lemma rstrip_idem s : rstrip (rstrip s) = rstrip s.
Proof. unfold rstrip. by rewrite rev_involutive, lstrip_idem. Qed.

Lemma lstrip_rstrip_stops s :
  stops is_space s = true -> lstrip (rstrip s) = rstrip s.
Proof.
  destruct s as [|c t]; [done|]. intros Hc. cbn in Hc.
  apply negb_true_iff in Hc.
  change (c :: t) with ([c] ++ t). rewrite (rstrip_app [c] t).
  destruct (blank t).
  - unfold rstrip. cbn. by rewrite Hc; cbn; rewrite Hc.
  - cbn. by rewrite Hc.
Qed.

Lemma strip_idem s : strip (strip s) = strip s.
Proof.
  unfold strip. destruct (lstrip_spec s) as (_ & _ & _ & Hst).
  by rewrite lstrip_rstrip_stops, rstrip_idem.
Qed.

(** Whitespace added around a string does not change what [strip] returns. *)
Lemma strip_pad a s b :
  blank a = true -> blank b = true -> strip (a ++ s ++ b) = strip s.
Proof.
  intros Ha Hb. unfold strip. rewrite lstrip_blank_app, lstrip_app by done.
  destruct (blank s) eqn:Hs.
  - rewrite (proj2 (lstrip_nil_blank s) Hs).
    rewrite (proj2 (lstrip_nil_blank b) Hb). done.
  - by rewrite rstrip_app, Hb.
Qed.

Lemma strip_nil_blank s : strip s = [] <-> blank s = true.
Proof.
  unfold strip, rstrip. rewrite <- lstrip_nil_blank. split.
  - intros H. apply (f_equal (@rev N)) in H. rewrite rev_involutive in H.
    cbn in H. apply lstrip_nil_blank in H. rewrite blank_rev in H.
    apply lstrip_nil_blank in H. by rewrite lstrip_idem in H.
  - intros ->. done.
Qed.

(** A string that starts and ends with a non-space is its own [strip]. *)
Lemma strip_trimmed s :
  stops is_space s = true -> stops is_space (rev s) = true -> strip s = s.
Proof.
  intros H1 H2. unfold strip, rstrip.
  rewrite (lstrip_stops s H1), (lstrip_stops _ H2). apply rev_involutive.
Qed.

Lemma span_spec p s :
  s = (span p s).1 ++ (span p s).2 /\ forallb p (span p s).1 = true /\
  stops p (span p s).2 = true.
Proof.
  induction s as [|c s IH]; [done|]. cbn.
  destruct (p c) eqn:Hc; cbn; [|by rewrite Hc].
  destruct (span p s) as [a b]. cbn in *. rewrite Hc. naive_solver.
Qed.

(** A greedy span cuts exactly where the class stops. *)
Lemma span_app p a b :
  forallb p a = true -> stops p b = true -> span p (a ++ b) = (a, b).
Proof.
  intros Ha Hb. induction a as [|c a IH].
  - destruct b as [|d b]; [done|]. cbn in *. apply negb_true_iff in Hb. by rewrite Hb.
  - cbn in Ha. apply andb_prop in Ha as [Hc Ha]. cbn. rewrite Hc, IH; done.
Qed.

Lemma stops_app p a b :
  a <> [] -> stops p (a ++ b) = stops p a.
Proof. destruct a; [done|]. done. Qed.

(** Closes a decidable goal on concrete data by evaluation. *)
Ltac decide_by_eval :=
  match goal with |- ?P => apply (bool_decide_unpack P); vm_compute; exact I end.

(** ** Simulation diagrams

    A step of a detailed transition system is matched by zero or more steps
    of an abstract one, preserving a relation between their states; runs of
    the detailed system are then matched by runs of the abstract one. *)
Section Simulation.

Context {A B : Type} (stepA : relation A) (stepB : relation B) (R : A -> B -> Prop).

Hypothesis simulation :
  forall a a' b, stepA a a' -> R a b -> exists b', rtc stepB b b' /\ R a' b'.

Lemma simulation_rtc a a' b :
  rtc stepA a a' -> R a b -> exists b', rtc stepB b b' /\ R a' b'.
Proof.
  intros Hs. revert b. induction Hs as [a|a1 a2 a3 Hstep Hs IH]; intros b HR.
  - by exists b.
  - destruct (simulation a1 a2 b Hstep HR) as (b2 & Hb2 & HR2).
    destruct (IH b2 HR2) as (b3 & Hb3 & HR3).
    exists b3. split; [by etrans|done].
Qed.

End Simulation.
