(* ===== verification/Exceptions.v ===== *)
(** * Exceptions: the exception classes the program raises and catches

    [src/exceptions.py] declares the scraper's exception classes; the code
    also raises and catches classes of the Python runtime ([ValueError],
    [AttributeError]) and of [httpx] ([httpx.HTTPError] and its subclasses).
    A raised exception is its class and its message ([str(e)]); [isinstance]
    follows the single-inheritance hierarchy, and [handles] is the test of an
    [except (A, B, ...)] clause. *)

From S2P Require Import Prelude.

(** ** The classes *)

Inductive pyclass :=
  (* Python builtins *)
  | BaseException | Exception | ValueError | AttributeError | TypeError
  (* src/exceptions.py *)
  | NotFoundError | MissingCriticalElementError | FuckedUpMarkupError
  | InvalidPagerTextError | InvalidAvailabilityClassError
  | MissingAvailabilityError | MissingPriceError | InvalidPriceError
  | MissingTitleError
  (* httpx *)
  | HTTPError | RequestError | TransportError | TimeoutException
  | NetworkError | ConnectError | HTTPStatusError
  (* pymongo, raised by the connection of [main] *)
  | PyMongoError | ConnectionFailure | AutoReconnect | ServerSelectionTimeoutError.

#[export] Instance pyclass_eq_dec : EqDecision pyclass.
Proof. solve_decision. Defined.

(** The base class of each class: the [class X(Base)] lines of
    [src/exceptions.py], the builtin hierarchy and [httpx]'s
    ([HTTPError] > [RequestError] > [TransportError] > [TimeoutException],
    [NetworkError] > [ConnectError]; [HTTPError] > [HTTPStatusError])
    and pymongo's ([PyMongoError] > [ConnectionFailure] > [AutoReconnect] >
    [ServerSelectionTimeoutError]). *)
Definition base (c : pyclass) : option pyclass :=
  match c with
  | BaseException => None
  | Exception => Some BaseException
  | ValueError | AttributeError | TypeError => Some Exception
  | NotFoundError | MissingCriticalElementError | FuckedUpMarkupError => Some Exception
  | InvalidPagerTextError | InvalidAvailabilityClassError
  | MissingAvailabilityError | MissingPriceError | InvalidPriceError
  | MissingTitleError => Some ValueError
  | HTTPError => Some Exception
  | RequestError | HTTPStatusError => Some HTTPError
  | TransportError => Some RequestError
  | TimeoutException | NetworkError => Some TransportError
  | ConnectError => Some NetworkError
  | PyMongoError => Some Exception
  | ConnectionFailure => Some PyMongoError
  | AutoReconnect => Some ConnectionFailure
  | ServerSelectionTimeoutError => Some AutoReconnect
  end.

(** The method resolution order, walked up [base] with a fuel larger than
    the depth of the hierarchy (6). *)
Fixpoint mro_fuel (fuel : nat) (c : pyclass) : list pyclass :=
  match fuel with
  | O => [c]
  | S f => c :: match base c with Some b => mro_fuel f b | None => [] end
  end.

Definition mro (c : pyclass) : list pyclass := mro_fuel 8 c.

Definition issubclass (c d : pyclass) : bool := bool_decide (d ∈ mro c).

(** ** Raised exceptions *)

Record exn := Exn { exn_class : pyclass; exn_msg : pystr }.

#[export] Instance exn_eq_dec : EqDecision exn.
Proof. solve_decision. Defined.

Definition isinstance (e : exn) (c : pyclass) : bool := issubclass (exn_class e) c.

(** [except (C1, C2, ...)] catches [e] when [e] is an instance of one of
    the classes. *)
Definition handles (clauses : list pyclass) (e : exn) : bool :=
  existsb (isinstance e) clauses.

Arguments isinstance : simpl never.
Arguments handles : simpl never.

(** ** Lemmas *)

(** The fuel of [mro] reaches the root of every class. *)
Lemma mro_root c : last (mro c) = Some BaseException.
Proof. destruct c; reflexivity. Qed.

Lemma issubclass_refl c : issubclass c c = true.
Proof. apply bool_decide_eq_true. destruct c; cbn; left. Qed.

Lemma isinstance_own c m : isinstance (Exn c m) c = true.
Proof. apply issubclass_refl. Qed.

Lemma handles_cons c cs e :
  handles (c :: cs) e = isinstance e c || handles cs e.
Proof. done. Qed.

#[export] Hint Resolve issubclass_refl isinstance_own : soup.
#[export] Hint Rewrite isinstance_own : soup_rw.
