(* ===== verification/Builtins.v ===== *)
(** * Builtins: the Python builtins the program calls on strings and ints

    [int(s)] for a [str] (CPython's [PyLong_FromUnicodeObject] with base 10,
    including the 4300-digit limit of [sys.get_int_max_str_digits()]),
    [str(n)] for an [int], and [repr] of a [str] and of a list of [str] (as
    an f-string renders a list). *)

From Stdlib Require Import ZArith Lia.
From S2P Require Import Prelude Exceptions.

(** ** [str(n)] *)

(** The decimal digits of [n], most significant first, prepended to [acc];
    the fuel bounds the number of digits. *)
Fixpoint dec_digits (fuel : nat) (n : N) (acc : pystr) : pystr :=
  match fuel with
  | O => acc
  | S f =>
      let acc' := (48 + n mod 10)%N :: acc in
      if (n <? 10)%N then acc' else dec_digits f (n / 10)%N acc'
  end.

(** The [N.size n] binary digits of [n] bound its decimal ones. *)
Definition str_N (n : N) : pystr := dec_digits (S (N.to_nat (N.size n))) n [].

(** [str(z)] for a Python [int]. *)
Definition str_Z (z : Z) : pystr :=
  match z with
  | Zneg p => 45%N :: str_N (Npos p)
  | _ => str_N (Z.to_N z)
  end.

(** ** [int(s)] *)

(** CPython's default [sys.get_int_max_str_digits()]. *)
Definition int_max_str_digits : nat := 4300.

(** [int] first maps every non-ASCII whitespace to a space, then skips the
    ASCII whitespace [Py_ISSPACE] around the number. *)
Definition int_space (c : N) : bool :=
  if (c <? 127)%N then (c =? 32)%N || ((9 <=? c) && (c <=? 13))%N else is_space c.

Definition digit_value (c : N) : Z := Z.of_N (c - 48).

(** The scan loop of [long_from_non_binary_base]: digits with single
    underscores between them. It returns the value, the number of digits,
    whether an underscore was doubled or trailing, and the rest. [prev_us]
    says that the previous character was an underscore. *)
Fixpoint scan_digits (s : pystr) (prev_us : bool) (acc : Z) (nd : nat)
  : Z * nat * bool * pystr :=
  match s with
  | c :: t =>
      if is_digit c then scan_digits t false (acc * 10 + digit_value c) (S nd)
      else if (c =? 95)%N then
        (if prev_us then (acc, nd, true, s) else scan_digits t true acc nd)
      else (acc, nd, prev_us, s)
  | [] => (acc, nd, prev_us, [])
  end.

Fixpoint lstrip_int (s : pystr) : pystr :=
  match s with
  | c :: t => if int_space c then lstrip_int t else s
  | [] => []
  end.

(** The messages of [int]'s two [ValueError]s. *)
Definition invalid_literal_msg (repr_s : pystr) : pystr :=
  lit "invalid literal for int() with base 10: " ++ take 200 repr_s.

Definition digits_limit_msg (nd : nat) : pystr :=
  lit "Exceeds the limit (4300 digits) for integer string conversion: value has "
  ++ str_N (N.of_nat nd) ++ lit " digits; use sys.set_int_max_str_digits() to increase the limit".

(** The optional sign of [PyLong_FromString]. *)
Definition int_sign (t : pystr) : Z * pystr :=
  match t with
  | c :: u => if (c =? 43)%N then (1%Z, u) else if (c =? 45)%N then ((-1)%Z, u) else (1%Z, t)
  | [] => (1%Z, [])
  end.

Definition starts_with (c : N) (s : pystr) : bool :=
  match s with
  | d :: _ => (d =? c)%N
  | [] => false
  end.

(** [int(s)], given [repr(s)] for the message: whitespace, a sign, no
    leading underscore, the digit scan, the digit limit, at least one
    digit, and nothing but whitespace after. *)
Definition py_int_with (repr_s : pystr) (s : pystr) : exn + Z :=
  let bad := raise (Exn ValueError (invalid_literal_msg repr_s)) in
  let '(sign, u) := int_sign (lstrip_int s) in
  if starts_with 95 u then bad
  else
    let '(v, nd, us_err, rest) := scan_digits u false 0 0 in
    if us_err then bad
    else if Nat.ltb int_max_str_digits nd then
      raise (Exn ValueError (digits_limit_msg nd))
    else if Nat.eqb nd 0 then bad
    else match lstrip_int rest with
         | [] => inr (sign * v)%Z
         | _ :: _ => bad
         end.

(** ** [repr] *)

Definition hex_digit (n : N) : N := if (n <? 10)%N then (48 + n)%N else (87 + n)%N.

(** [width] lowercase hexadecimal digits of [n]. *)
Fixpoint hex_width (width : nat) (n : N) (acc : pystr) : pystr :=
  match width with
  | O => acc
  | S w => hex_width w (n / 16)%N (hex_digit (n mod 16)%N :: acc)
  end.

(** [str.isprintable] on a non-ASCII code point: false for the C1 controls
    and U+00A0, the soft hyphen, the Unicode space and line separators, the
    format characters of General Punctuation, the BOM, surrogates and
    private use. Other unassigned code points, which would need the Unicode
    database, count as printable. *)
Definition printable_nonascii (c : N) : bool :=
  negb (((128 <=? c) && (c <=? 160)) || (c =? 173) || is_space c ||
        ((8203 <=? c) && (c <=? 8207)) || ((8234 <=? c) && (c <=? 8238)) ||
        ((8288 <=? c) && (c <=? 8292)) || (c =? 65279) ||
        ((55296 <=? c) && (c <=? 63743)))%N.

(** One character of [unicode_repr], with the chosen quote. *)
Definition repr_char (quote c : N) : pystr :=
  if (c =? quote)%N || (c =? 92)%N then [92%N; c]
  else if (c =? 9)%N then lit "\t"
  else if (c =? 10)%N then lit "\n"
  else if (c =? 13)%N then lit "\r"
  else if (c <? 32)%N || (c =? 127)%N then lit "\x" ++ hex_width 2 c []
  else if (c <? 127)%N then [c]
  else if printable_nonascii c then [c]
  else if (c <=? 255)%N then lit "\x" ++ hex_width 2 c []
  else if (c <=? 65535)%N then lit "\u" ++ hex_width 4 c []
  else lit "\U" ++ hex_width 8 c [].

(** [repr(s)]: single quotes unless [s] has a single quote and no double
    quote. *)
Definition repr_str (s : pystr) : pystr :=
  let quote := if bool_decide (39%N ∈ s) && negb (bool_decide (34%N ∈ s))
               then 34%N else 39%N in
  quote :: flat_map (repr_char quote) s ++ [quote].

(** [int(s)] with its message. *)
Definition py_int (s : pystr) : exn + Z := py_int_with (repr_str s) s.

Fixpoint join (sep : pystr) (l : list pystr) : pystr :=
  match l with
  | [] => []
  | [x] => x
  | x :: t => x ++ sep ++ join sep t
  end.

(** [repr(l)] of a list of strings, as [str] and f-strings render it. *)
Definition repr_list (l : list pystr) : pystr :=
  lit "[" ++ join (lit ", ") (map repr_str l) ++ lit "]".

(** ** Lemmas on [int] *)

(** The value of a string of ASCII digits. *)
Definition digits_value (s : pystr) : Z :=
  fold_left (fun acc c => acc * 10 + digit_value c)%Z s 0%Z.

(** [scan_digits] over a run of digits followed by neither a digit nor an
    underscore. *)
Lemma scan_digits_run a r acc nd :
  forallb is_digit a = true -> stops (fun c => is_digit c || (c =? 95)%N) r = true ->
  scan_digits (a ++ r) false acc nd =
  (fold_left (fun acc c => acc * 10 + digit_value c)%Z a acc, (nd + length a)%nat, false, r).
Proof.
  revert acc nd. induction a as [|c a IH]; intros acc nd Ha Hr; cbn.
  - rewrite Nat.add_0_r. destruct r as [|c r]; [done|]. cbn in Hr.
    apply negb_true_iff, orb_false_iff in Hr as [H1 H2]. cbn. by rewrite H1, H2.
  - apply andb_prop in Ha as [-> Ha]. rewrite IH by done. do 3 f_equal. lia.
Qed.

Lemma digit_not_int_space c : is_digit c = true -> int_space c = false.
Proof.
  unfold is_digit, int_space. intros [H1 H2]%andb_prop.
  apply N.leb_le in H1, H2.
  destruct (N.ltb_spec c 127); [|lia].
  apply orb_false_iff. split; [apply N.eqb_neq; lia|].
  apply andb_false_iff. right. apply N.leb_gt. lia.
Qed.

Lemma lstrip_int_digit c s : is_digit c = true -> lstrip_int (c :: s) = c :: s.
Proof. intros H. cbn. by rewrite digit_not_int_space. Qed.

(** Every failure of [int] is a [ValueError]. *)
Lemma py_int_with_error rs s e : py_int_with rs s = inl e -> exn_class e = ValueError.
Proof.
  unfold py_int_with. destruct (int_sign (lstrip_int s)) as [sign u].
  destruct (starts_with 95 u); [by intros [= <-]|].
  destruct (scan_digits u false 0 0) as [[[v nd] us] rest].
  repeat case_match; intros; simplify_eq; done.
Qed.

Lemma digit_neq c k : is_digit c = true -> (k < 48 \/ 57 < k)%N -> (c =? k)%N = false.
Proof.
  unfold is_digit. intros [H1 H2]%andb_prop Hk. apply N.leb_le in H1, H2.
  apply N.eqb_neq. lia.
Qed.

(** [int] on a run of digits, alone or followed by a comma. *)
Lemma py_int_digit_run rs a r :
  a <> [] -> forallb is_digit a = true -> (r = [] \/ starts_with 44 r = true) ->
  py_int_with rs (a ++ r) =
  if Nat.ltb int_max_str_digits (length a)
  then raise (Exn ValueError (digits_limit_msg (length a)))
  else match r with
       | [] => inr (digits_value a)
       | _ :: _ => raise (Exn ValueError (invalid_literal_msg rs))
       end.
Proof.
  intros Ha Hd Hr. destruct a as [|c a']; [done|].
  assert (Hc : is_digit c = true) by (by apply andb_prop in Hd as [? _]).
  unfold py_int_with. cbn [app]. rewrite lstrip_int_digit by done. cbn [int_sign].
  rewrite !digit_neq by (done || lia). cbn [starts_with].
  rewrite digit_neq by (done || lia).
  rewrite (scan_digits_run (c :: a') r) by
    (done || (destruct Hr as [->|Hr]; [done|]; destruct r as [|d r]; [done|];
              cbn in Hr |- *; apply N.eqb_eq in Hr; by subst)).
  cbn [length]. destruct (Nat.ltb _ _); [done|]. cbn [Nat.eqb Nat.add].
  destruct Hr as [->|Hr]; [by rewrite Z.mul_1_l|].
  destruct r as [|d r]; [done|]. cbn in Hr. apply N.eqb_eq in Hr as ->. done.
Qed.

(** [int] on a string that starts with a comma. *)
Lemma py_int_comma rs r :
  py_int_with rs (44%N :: r) = raise (Exn ValueError (invalid_literal_msg rs)).
Proof. done. Qed.

(** [int(s)] on a non-empty string of at most 4300 ASCII digits is its
    decimal value. *)
Lemma py_int_digits s :
  s <> [] -> forallb is_digit s = true -> length s <= int_max_str_digits ->
  py_int s = inr (digits_value s).
Proof.
  intros Hne Hd Hlen. unfold py_int. rewrite <- (app_nil_r s), py_int_digit_run by auto.
  rewrite app_nil_r. by destruct (Nat.ltb_spec int_max_str_digits (length s)); [lia|].
Qed.

(** [int(s)] on more than 4300 ASCII digits raises the digit-limit
    [ValueError]. *)
Lemma py_int_too_long s :
  forallb is_digit s = true -> int_max_str_digits < length s ->
  py_int s = raise (Exn ValueError (digits_limit_msg (length s))).
Proof.
  intros Hd Hlen. unfold py_int. rewrite <- (app_nil_r s), py_int_digit_run; auto.
  - rewrite app_nil_r. by destruct (Nat.ltb_spec int_max_str_digits (length s)); [|lia].
  - intros ->. cbn in Hlen. unfold int_max_str_digits in Hlen. lia.
Qed.

(** ** [str(n)] and [int] *)

Lemma digit_value_dec n : digit_value (48 + n mod 10)%N = Z.of_N (n mod 10).
Proof. unfold digit_value. f_equal. by rewrite N.add_comm, N.add_sub. Qed.

Lemma is_digit_dec n : is_digit (48 + n mod 10)%N = true.
Proof.
  unfold is_digit. generalize (N.mod_lt n 10 ltac:(lia)).
  generalize (n mod 10)%N. intros m Hm.
  apply andb_true_intro. split; apply N.leb_le; lia.
Qed.

Lemma dec_digits_digits f n acc :
  forallb is_digit (dec_digits f n acc) = forallb is_digit acc.
Proof.
  revert n acc. induction f as [|f IH]; intros n acc; [done|]. cbn.
  destruct (n <? 10)%N; [|rewrite IH]; cbn; by rewrite is_digit_dec.
Qed.

Lemma dec_digits_nonempty f n acc : f <> O -> dec_digits f n acc <> [].
Proof.
  revert n acc. induction f as [|[|f] IH]; intros n acc Hf; [done|..]; cbn.
  - by destruct (n <? 10)%N.
  - destruct (n <? 10)%N; [done|]. by apply IH.
Qed.

Lemma dec_digits_value f n acc :
  (n < 10 ^ N.of_nat f)%N ->
  fold_left (fun acc c => acc * 10 + digit_value c)%Z (dec_digits f n acc) 0%Z =
  fold_left (fun acc c => acc * 10 + digit_value c)%Z acc (Z.of_N n).
Proof.
  revert n acc. induction f as [|f IH]; intros n acc Hn.
  { cbn in Hn. assert (n = 0%N) as -> by lia. done. }
  cbn [dec_digits]. destruct (N.ltb_spec n 10).
  - cbn. rewrite digit_value_dec, N.mod_small by done. done.
  - rewrite IH.
    + cbn. rewrite digit_value_dec. f_equal.
      rewrite N2Z.inj_div, N2Z.inj_mod. change (Z.of_N 10) with 10%Z.
      rewrite Z.mul_comm. symmetry. apply Z.div_mod. lia.
    + rewrite Nat2N.inj_succ, N.pow_succ_r' in Hn.
      apply N.Div0.div_lt_upper_bound; lia.
Qed.

Lemma dec_digits_length f n acc k :
  (n < 10 ^ N.of_nat k)%N -> k <> O -> length (dec_digits f n acc) <= k + length acc.
Proof.
  revert n acc k. induction f as [|f IH]; intros n acc k Hn Hk; cbn [dec_digits]; [lia|].
  destruct (N.ltb_spec n 10); [cbn; lia|].
  destruct k as [|[|k]]; [done| cbn in Hn; lia|].
  etrans; [apply (IH _ _ (S k))|]; cbn [length].
  - rewrite Nat2N.inj_succ, N.pow_succ_r' in Hn. apply N.Div0.div_lt_upper_bound; lia.
  - done.
  - lia.
Qed.

Lemma str_N_bound n : (n < 10 ^ N.of_nat (S (N.to_nat (N.size n))))%N.
Proof.
  rewrite Nat2N.inj_succ, N2Nat.id. pose proof (N.size_gt n).
  assert (2 ^ N.size n <= 10 ^ N.size n)%N by (apply N.pow_le_mono_l; lia).
  rewrite N.pow_succ_r'. lia.
Qed.

Lemma str_N_digits n : forallb is_digit (str_N n) = true.
Proof. unfold str_N. by rewrite dec_digits_digits. Qed.

Lemma str_N_nonempty n : str_N n <> [].
Proof. by apply dec_digits_nonempty. Qed.

Lemma str_N_value n : digits_value (str_N n) = Z.of_N n.
Proof. unfold digits_value, str_N. by rewrite dec_digits_value by apply str_N_bound. Qed.

Lemma str_N_length n k : (n < 10 ^ N.of_nat k)%N -> k <> O -> length (str_N n) <= k.
Proof. intros. unfold str_N. rewrite <- (Nat.add_0_r k). by apply dec_digits_length. Qed.

#[export] Hint Resolve str_N_digits str_N_nonempty : soup.

(** [int(str(n))] is [n] for every [n] of at most 4300 digits. *)
Lemma py_int_str_N n : (n < 10 ^ 4300)%N -> py_int (str_N n) = inr (Z.of_N n).
Proof.
  intros Hn. rewrite py_int_digits; auto with soup.
  - by rewrite str_N_value.
  - apply str_N_length; [exact Hn|done].
Qed.

#[local] Arguments str_N : simpl never.

Lemma str_N_inj a b : str_N a = str_N b -> a = b.
Proof. intros H. apply N2Z.inj. by rewrite <- !str_N_value, H. Qed.

Lemma str_N_head n : exists c t, str_N n = c :: t /\ is_digit c = true.
Proof.
  pose proof (str_N_digits n) as Hd. pose proof (str_N_nonempty n) as Hne.
  destruct (str_N n) as [|c t]; [done|]. exists c, t. split; [done|].
  by apply andb_prop in Hd as [? _].
Qed.

(** [str()] is injective on [int]: distinct numbers print differently. *)
Lemma str_Z_inj a b : str_Z a = str_Z b -> a = b.
Proof.
  assert (Hneg : forall p n, 45%N :: str_N (Npos p) <> str_N n).
  { intros p n H. destruct (str_N_head n) as (c & t & Hn & Hc). rewrite Hn in H.
    injection H as <- _. by vm_compute in Hc. }
  destruct a as [|p|p], b as [|q|q]; cbn; intros H.
  - done.
  - apply str_N_inj in H. discriminate.
  - exfalso. eapply Hneg. symmetry. exact H.
  - apply str_N_inj in H. discriminate.
  - apply str_N_inj in H. by simplify_eq.
  - exfalso. eapply Hneg. symmetry. exact H.
  - exfalso. eapply Hneg. exact H.
  - exfalso. eapply Hneg. exact H.
  - injection H as H. apply str_N_inj in H. by simplify_eq.
Qed.
