(* ===== verification/Dom.v ===== *)
(** * Dom: the parsed BeautifulSoup tree and the queries the code makes on it

    The scraper only reads the tree that [BeautifulSoup(txt, "html.parser")]
    builds: [select_one(css)] and [find_all(name, class_=...)] to find
    elements, [.get(key)] to read an attribute and [.text] to read the
    concatenated text. A bs4 [Tag] is an element together with its parent
    chain, which a CSS descendant combinator may look at even outside the
    element a query starts from; [el] below is such a located element. The
    [BeautifulSoup] object itself is the element named ["[document]"].

    bs4 stores [class] as a list of strings (a multi-valued attribute);
    the other attributes the code reads are single strings.

    The four queries form the interface [TreeQuery] (with the law
    [TreeQueryLaws] its clients rely on), the tree-query capability of the
    design notes; [el] implements it ([el_tree_query]), and the parsers of
    [Availability], [Book] and [Page] are proved against the interface. *)

From S2P Require Import Prelude.

(** ** The tree *)

Record tag := Tag {
  tag_name : pystr;
  tag_attrs : list (pystr * pystr);
  tag_class : option (list pystr)
}.

Scheme All for list.

Inductive node :=
  | NText (s : pystr)
  | NComment (s : pystr)
  | NElem (t : tag) (kids : list node).

(** A bs4 [Tag]: the element, its children and its ancestors, nearest
    first. *)
Record el := El { el_tag : tag; el_kids : list node; el_ancs : list tag }.

(** The [BeautifulSoup] object of a parsed page. *)
Definition document (kids : list node) : el :=
  El (Tag (lit "[document]") [] None) kids [].

(** ** Text *)

(** [.text] ([get_text()]): the strings of every descendant in document
    order; comments do not count. *)
Fixpoint node_text (n : node) : pystr :=
  match n with
  | NText s => s
  | NComment _ => []
  | NElem _ kids => flat_map node_text kids
  end.

Definition text (e : el) : pystr := flat_map node_text (el_kids e).

(** ** Attributes *)

(** [tag.get(key)] for a single-valued attribute. *)
Definition get_attr (t : tag) (k : pystr) : option pystr :=
  match find (fun kv => bool_decide (kv.1 = k)) (tag_attrs t) with
  | Some kv => Some kv.2
  | None => None
  end.

(** [tag.get("class")]. *)
Definition get_class (t : tag) : option (list pystr) := tag_class t.

Definition has_class (t : tag) (c : pystr) : bool :=
  match tag_class t with
  | Some l => bool_decide (c ∈ l)
  | None => false
  end.

(** ** Descendants in document order *)

(** The elements below [n] (itself included), each with its ancestors. *)
Fixpoint node_desc (ancs : list tag) (n : node) : list el :=
  match n with
  | NElem t kids => El t kids ancs :: flat_map (node_desc (t :: ancs)) kids
  | _ => []
  end.

(** [e.descendants], restricted to elements. *)
Definition descendants (e : el) : list el :=
  flat_map (node_desc (el_tag e :: el_ancs e)) (el_kids e).

(** ** CSS selectors *)

(** A compound selector [name.class1.class2] (name optional) and a chain
    of them joined by the descendant combinator, written left to right. *)
Record compound := Compound { sel_name : option pystr; sel_classes : list pystr }.

Definition selector := list compound.

Definition compound_matches (c : compound) (t : tag) : bool :=
  match sel_name c with
  | Some n => bool_decide (tag_name t = n)
  | None => true
  end && forallb (has_class t) (sel_classes c).

(** The compounds left of the last one, nearest first, match ancestors in
    order. *)
Fixpoint ancestors_match (cs : list compound) (ancs : list tag) : bool :=
  match cs, ancs with
  | [], _ => true
  | _ :: _, [] => false
  | c :: cs', a :: rest =>
      (compound_matches c a && ancestors_match cs' rest) || ancestors_match cs rest
  end.

Definition matches (sel : selector) (e : el) : bool :=
  match rev sel with
  | [] => false
  | c :: cs => compound_matches c (el_tag e) && ancestors_match cs (el_ancs e)
  end.

(** [e.select_one(css)]: the first matching descendant, or [None]. *)
Definition select_one (sel : selector) (e : el) : option el :=
  find (matches sel) (descendants e).

(** [e.find_all(name, class_=c)]: every descendant named [name] with [c]
    among its classes, in document order. *)
Definition find_all (name cls : pystr) (e : el) : list el :=
  filter (fun d => bool_decide (tag_name (el_tag d) = name) && has_class (el_tag d) cls)
    (descendants e).

(** The selectors of the code. *)
Definition sel_name_only (n : String.string) : compound := Compound (Some (lit n)) [].

(** ["h3 a"] *)
Definition sel_h3_a : selector := [sel_name_only "h3"; sel_name_only "a"].
(** [".price_color"] *)
Definition sel_price_color : selector := [Compound None [lit "price_color"]].
(** ["p.availability"] *)
Definition sel_p_availability : selector := [Compound (Some (lit "p")) [lit "availability"]].
(** [".pager li.current"] *)
Definition sel_pager_current : selector :=
  [Compound None [lit "pager"]; Compound (Some (lit "li")) [lit "current"]].

(** ** Lemmas *)

Lemma select_one_some sel e d :
  select_one sel e = Some d -> d ∈ descendants e /\ matches sel d = true.
Proof.
  unfold select_one. intros H. apply find_some in H as [Hin Hm].
  split; [by apply list_elem_of_In|done].
Qed.

Lemma select_one_none sel e :
  select_one sel e = None -> forall d, d ∈ descendants e -> matches sel d = false.
Proof.
  unfold select_one. intros H d Hd. eapply find_none; [done|].
  by apply list_elem_of_In.
Qed.

(** [select_one] returns the first match in document order. *)
Lemma select_one_first sel e pre d post :
  descendants e = pre ++ d :: post -> forallb (fun x => negb (matches sel x)) pre = true ->
  matches sel d = true -> select_one sel e = Some d.
Proof.
  unfold select_one. intros -> Hpre Hd. induction pre as [|x pre IH]; cbn in *.
  - by rewrite Hd.
  - apply andb_prop in Hpre as [Hx Hpre]. apply negb_true_iff in Hx.
    rewrite Hx. auto.
Qed.

(** ** Building trees

    Elements written the way the test pages of [scraper_test.py] are:
    tag name, attributes, class list ([None] when there is no [class]
    attribute) and children. *)
Definition elem (name : String.string) (attrs : list (String.string * String.string))
  (cls : option (list String.string)) (kids : list node) : node :=
  NElem (Tag (lit name) (map (fun kv => (lit kv.1, lit kv.2)) attrs) (fmap (map lit) cls)) kids.

Definition txt (s : String.string) : node := NText (lit s).

(** [e.find(name, class_=c)]: the first element [find_all] returns. *)
Definition find_first (name cls : pystr) (e : el) : option el :=
  head (find_all name cls e).

(** ** The tree-query capability

    The parsers use four queries of a bs4 [Tag]: [select_one(css)],
    [find_all(name, class_=c)], [.get(key)] (with [.get("class")] giving
    the class list) and [.text]. [TreeQuery T] is that capability on a
    type [T] of nodes; [TreeQueryLaws] is what the parsers assume of it: a
    node that [select_one] finds carries every class of the selector's last
    compound. The parsers of [Availability], [Book] and [Page] are written
    and proved against the interface; [el] above implements it. *)
Class TreeQuery (T : Type) := {
  q_select_one : selector -> T -> option T;
  q_find_all : pystr -> pystr -> T -> list T;
  q_get : T -> pystr -> option pystr;
  q_class : T -> option (list pystr);
  q_text : T -> pystr }.

Class TreeQueryLaws (T : Type) `{!TreeQuery T} := {
  q_select_one_classes sel e d c k :
    q_select_one sel e = Some d -> last sel = Some c -> k ∈ sel_classes c ->
    exists cls, q_class d = Some cls /\ k ∈ cls }.

#[export] Instance el_tree_query : TreeQuery el := {|
  q_select_one := select_one;
  q_find_all := find_all;
  q_get e k := get_attr (el_tag e) k;
  q_class e := get_class (el_tag e);
  q_text := text |}.

(** An element matched by a selector carries the classes of its last
    compound. *)
Lemma matches_classes sel d c k :
  matches sel d = true -> last sel = Some c -> k ∈ sel_classes c ->
  exists cls, get_class (el_tag d) = Some cls /\ k ∈ cls.
Proof.
  intros Hm (sel' & ->)%last_Some Hk. unfold matches in Hm. rewrite rev_unit in Hm.
  apply andb_prop in Hm as [Hm _]. unfold compound_matches in Hm.
  apply andb_prop in Hm as [_ Hm]. eapply forallb_forall in Hm; [|by apply list_elem_of_In].
  unfold has_class in Hm. unfold get_class. destruct (tag_class (el_tag d)) as [cls|]; [|done].
  exists cls. split; [done|]. by apply bool_decide_eq_true in Hm.
Qed.

#[export] Instance el_tree_query_laws : TreeQueryLaws el.
Proof.
  constructor. intros sel e d c k Hs. apply select_one_some in Hs as [_ Hm].
  by apply matches_classes.
Qed.
