(* ===== verification/Pager.v ===== *)
(** * Pager: [parse_pages_count] of [src/scraper.py]

    The pager text ["Page X of Y"] of the first page gives the page count:
    the text is stripped, an empty text raises [InvalidPagerTextError]
    ("Empty string provided"), the text must match
    [^Page\s+[0-9,]+\s+of\s+([0-9,]+)\s*\+?$] ([re.match]) or the same
    error is raised with the text in the message, and the group is passed
    to [int()].

    The regular expression is modelled as a greedy matcher
    ([pager_match]); [pager_match_sound] and [pager_match_complete] show
    that it returns exactly the group of the matches in the language of
    the pattern ([pager_lang]), so greedy matching loses nothing. *)

From Stdlib Require Import ZArith Lia.
From S2P Require Import Prelude Exceptions Builtins.

(** ** The pattern *)

(** The character class [[0-9,]]. *)
Definition is_digit_comma (c : N) : bool := is_digit c || (c =? 44)%N.

(** A literal prefix. *)
Fixpoint strip_prefix (p s : pystr) : option pystr :=
  match p, s with
  | [], _ => Some s
  | c :: p', d :: s' => if (c =? d)%N then strip_prefix p' s' else None
  | _ :: _, [] => None
  end.

(** [X+] for a character class [X], greedy. *)
Definition plus_class (p : N -> bool) (s : pystr) : option (pystr * pystr) :=
  match span p s with
  | ([], _) => None
  | (a, b) => Some (a, b)
  end.

(** [$] without [re.MULTILINE]: the end, or a final newline. *)
Definition at_end (s : pystr) : bool :=
  match s with
  | [] => true
  | [c] => (c =? 10)%N
  | _ => false
  end.

(** [\+?], greedy. *)
Definition opt_plus (s : pystr) : pystr :=
  match s with
  | c :: t => if (c =? 43)%N then t else s
  | [] => []
  end.

(** [re.match(r"^Page\s+[0-9,]+\s+of\s+([0-9,]+)\s*\+?$", txt)], returning
    [m.group(1)]. *)
Definition pager_match (txt : pystr) : option pystr :=
  r ← strip_prefix (lit "Page") txt;
  '(_, r) ← plus_class is_space r;
  '(_, r) ← plus_class is_digit_comma r;
  '(_, r) ← plus_class is_space r;
  r ← strip_prefix (lit "of") r;
  '(_, r) ← plus_class is_space r;
  '(g, r) ← plus_class is_digit_comma r;
  let r := (span is_space r).2 in
  if at_end (opt_plus r) then Some g else None.

(** The language of the pattern, with the text of its group. *)
Definition pager_lang (txt g : pystr) : Prop :=
  exists w1 d w2 w3 w4 p t,
    txt = lit "Page" ++ w1 ++ d ++ w2 ++ lit "of" ++ w3 ++ g ++ w4 ++ p ++ t /\
    w1 <> [] /\ blank w1 = true /\ d <> [] /\ forallb is_digit_comma d = true /\
    w2 <> [] /\ blank w2 = true /\ w3 <> [] /\ blank w3 = true /\
    g <> [] /\ forallb is_digit_comma g = true /\ blank w4 = true /\
    (p = [] \/ p = [43%N]) /\ (t = [] \/ t = [10%N]).

(** ** [parse_pages_count] *)

Definition empty_pager_msg : pystr := lit "Empty string provided".

Definition no_match_msg (txt : pystr) : pystr :=
  lit "Could not extract pages count from string: " ++ txt.

Definition parse_pages_count (src : pystr) : exn + Z :=
  let txt := strip src in
  match txt with
  | [] => raise (Exn InvalidPagerTextError empty_pager_msg)
  | _ :: _ =>
      match pager_match txt with
      | None => raise (Exn InvalidPagerTextError (no_match_msg txt))
      | Some g => py_int g
      end
  end.

(** ** Lemmas on the matcher *)

Lemma digit_cases c :
  is_digit c = true -> c ∈ [48; 49; 50; 51; 52; 53; 54; 55; 56; 57]%N.
Proof.
  unfold is_digit. intros H. apply andb_prop in H as [H1 H2].
  apply N.leb_le in H1, H2.
  assert (c = 48 \/ c = 49 \/ c = 50 \/ c = 51 \/ c = 52 \/ c = 53 \/ c = 54 \/
          c = 55 \/ c = 56 \/ c = 57)%N as Hc by lia.
  repeat destruct Hc as [Hc|Hc]; subst; apply list_elem_of_In; cbn; tauto.
Qed.

Lemma digit_comma_not_space c : is_digit_comma c = true -> is_space c = false.
Proof.
  unfold is_digit_comma. intros [H| ->%N.eqb_eq]%orb_prop; [|done].
  apply digit_cases in H. repeat (apply elem_of_cons in H as [->|H]; [done|]).
  by apply elem_of_nil in H.
Qed.

Lemma space_not_digit_comma c : is_space c = true -> is_digit_comma c = false.
Proof.
  intros H. destruct (is_digit_comma c) eqn:E; [|done].
  by rewrite (digit_comma_not_space c E) in H.
Qed.

Lemma strip_prefix_app p s : strip_prefix p (p ++ s) = Some s.
Proof. induction p as [|c p IH]; [done|]. cbn. by rewrite N.eqb_refl. Qed.

Lemma strip_prefix_some p s r : strip_prefix p s = Some r -> s = p ++ r.
Proof.
  revert s. induction p as [|c p IH]; intros [|d s]; cbn; try congruence.
  destruct (N.eqb_spec c d); [|done]. intros H. subst. f_equal. auto.
Qed.

Lemma plus_class_app p a b :
  a <> [] -> forallb p a = true -> stops p b = true -> plus_class p (a ++ b) = Some (a, b).
Proof.
  intros Ha Hp Hb. unfold plus_class. rewrite span_app by done.
  by destruct a.
Qed.

Lemma plus_class_some p s a b :
  plus_class p s = Some (a, b) ->
  s = a ++ b /\ a <> [] /\ forallb p a = true /\ stops p b = true.
Proof.
  unfold plus_class. destruct (span_spec p s) as (Hs & Ha & Hb).
  destruct (span p s) as [[|c a'] b']; [done|]. intros [= <- <-]. cbn in *. done.
Qed.

#[export] Hint Resolve digit_comma_not_space space_not_digit_comma : soup.

Lemma stops_app_head (p q : N -> bool) a b :
  a <> [] -> forallb q a = true -> (forall c, q c = true -> p c = false) ->
  stops p (a ++ b) = true.
Proof.
  destruct a as [|c a]; [done|]. cbn. intros _ [Hc _]%andb_prop Hqp.
  by rewrite (Hqp c Hc).
Qed.

Lemma at_end_cases s : at_end s = true -> s = [] \/ s = [10%N].
Proof.
  destruct s as [|c [|d s]]; cbn; [auto| |done].
  intros ->%N.eqb_eq. auto.
Qed.

#[local] Arguments strip_prefix : simpl never.
#[local] Arguments lit : simpl never.

(** The matcher only returns the group of a match of the pattern. *)
Lemma pager_match_sound txt g : pager_match txt = Some g -> pager_lang txt g.
Proof.
  unfold pager_match.
  destruct (strip_prefix (lit "Page") txt) as [r1|] eqn:E1; cbn; [|done].
  destruct (plus_class is_space r1) as [[w1 r2]|] eqn:E2; cbn; [|done].
  destruct (plus_class is_digit_comma r2) as [[d r3]|] eqn:E3; cbn; [|done].
  destruct (plus_class is_space r3) as [[w2 r4]|] eqn:E4; cbn; [|done].
  destruct (strip_prefix (lit "of") r4) as [r5|] eqn:E5; cbn; [|done].
  destruct (plus_class is_space r5) as [[w3 r6]|] eqn:E6; cbn; [|done].
  destruct (plus_class is_digit_comma r6) as [[g' r7]|] eqn:E7; cbn; [|done].
  destruct (span_spec is_space r7) as (Hr7 & Hw4 & _).
  apply strip_prefix_some in E1, E5.
  apply plus_class_some in E2 as (-> & ? & ? & _), E3 as (-> & ? & ? & _),
    E4 as (-> & ? & ? & _), E6 as (-> & ? & ? & _), E7 as (-> & ? & ? & _).
  destruct (span is_space r7) as [w4 r8]. cbn in *. subst.
  destruct r8 as [|c r8'] eqn:Hr8.
  - intros [= <-]. exists w1, d, w2, w3, w4, [], [].
    split; [by rewrite ?app_nil_r|]. unfold blank. intuition auto.
  - destruct (N.eqb_spec c 43) as [->|Hc].
    + cbn. destruct (at_end r8') eqn:He; [|done]. intros [= <-].
      exists w1, d, w2, w3, w4, [43%N], r8'.
      split; [done|]. unfold blank. apply at_end_cases in He. intuition auto.
    + cbn. destruct (N.eqb_spec c 43); [done|].
      destruct (at_end (c :: r8')) eqn:He; [|done]. intros [= <-].
      exists w1, d, w2, w3, w4, [], (c :: r8').
      split; [done|]. unfold blank. apply at_end_cases in He. intuition auto.
Qed.

Lemma span_blank_stops w s :
  blank w = true -> stops is_space s = true -> (span is_space (w ++ s)).2 = s.
Proof. intros Hw Hs. by rewrite span_app. Qed.

(** Every match of the pattern is found by the greedy matcher, with the
    same group: the classes next to each other are disjoint. *)
Lemma pager_match_complete txt g : pager_lang txt g -> pager_match txt = Some g.
Proof.
  intros (w1 & d & w2 & w3 & w4 & p & t & -> & Hw1 & Bw1 & Hd & Dd & Hw2 & Bw2 &
          Hw3 & Bw3 & Hg & Dg & Bw4 & Hp & Ht).
  unfold pager_match. rewrite strip_prefix_app. cbn.
  rewrite plus_class_app by eauto using stops_app_head with soup. cbn.
  rewrite plus_class_app by eauto using stops_app_head with soup. cbn.
  rewrite plus_class_app by (try done; by destruct w3). cbn.
  rewrite strip_prefix_app. cbn.
  rewrite plus_class_app by eauto using stops_app_head with soup. cbn.
  rewrite plus_class_app; [| done | done |].
  2:{ destruct w4 as [|c w4]; [|by eapply stops_app_head; eauto with soup].
      by destruct Hp as [-> | ->], Ht as [-> | ->]. }
  cbn. destruct Hp as [-> | ->].
  - rewrite app_nil_l. destruct Ht as [-> | ->].
    + rewrite span_blank_stops by done. done.
    + rewrite <- (app_nil_r (w4 ++ [10%N])), span_blank_stops; [done| |done].
      by rewrite blank_app, Bw4.
  - rewrite span_blank_stops by done. cbn. by destruct Ht as [-> | ->].
Qed.

(** ** [int] on the group *)

(** A string of the class [[0-9,]] is a run of digits, then nothing or a
    comma. *)
Lemma digit_comma_split g :
  forallb is_digit_comma g = true ->
  g = (span is_digit g).1 ++ (span is_digit g).2 /\
  forallb is_digit (span is_digit g).1 = true /\
  ((span is_digit g).2 = [] \/ starts_with 44 (span is_digit g).2 = true).
Proof.
  intros Hg. destruct (span_spec is_digit g) as (Hs & Ha & Hb). split; [done|]. split; [done|].
  destruct (span is_digit g) as [a [|c r]]; cbn in *; [by left|right].
  rewrite Hs in Hg. rewrite forallb_app in Hg. apply andb_prop in Hg as [_ Hg].
  cbn in Hg. apply andb_prop in Hg as [Hc _]. unfold is_digit_comma in Hc.
  apply negb_true_iff in Hb. rewrite Hb in Hc. exact Hc.
Qed.

(** [int(m.group(1))] returns exactly when the group is at most 4300
    digits and no comma, and then returns their decimal value. *)
Lemma py_int_group g n :
  forallb is_digit_comma g = true ->
  py_int g = inr n <->
  g <> [] /\ forallb is_digit g = true /\ length g <= int_max_str_digits /\ n = digits_value g.
Proof.
  intros Hg. destruct (digit_comma_split g Hg) as (Hs & Ha & Hr).
  destruct (span is_digit g) as [a r]. cbn in *. subst g.
  destruct a as [|c a'].
  - destruct Hr as [->|Hr]; [split; [done|naive_solver]|].
    destruct r as [|d r]; [done|]. cbn in Hr. apply N.eqb_eq in Hr as ->.
    unfold py_int. cbn [app]. rewrite py_int_comma. split; [done|]. intros (_ & Hd & _).
    apply andb_prop in Hd as [Hd _]. by vm_compute in Hd.
  - unfold py_int. rewrite py_int_digit_run by done.
    destruct (Nat.ltb_spec int_max_str_digits (length (c :: a'))).
    + split; [done|]. intros (_ & _ & Hl & _). rewrite length_app in Hl. lia.
    + destruct Hr as [->|Hr].
      * rewrite app_nil_r. split; [intros [= <-]; naive_solver|naive_solver].
      * destruct r as [|d r]; [done|]. cbn in Hr. apply N.eqb_eq in Hr as ->.
        split; [done|]. intros (_ & Hd & _). rewrite forallb_app in Hd.
        apply andb_prop in Hd as [_ Hd]. apply andb_prop in Hd as [Hd _].
        by vm_compute in Hd.
Qed.

(** ** [parse_pages_count] *)

Lemma pager_lang_group txt g : pager_lang txt g -> g <> [] /\ forallb is_digit_comma g = true.
Proof. intros (w1 & d & w2 & w3 & w4 & p & t & _ & _ & _ & _ & _ & _ & _ & _ & _ & ? & ? & _). done. Qed.

Lemma pager_lang_nil g : ~ pager_lang [] g.
Proof. intros (w1 & d & w2 & w3 & w4 & p & t & H & _). by apply (f_equal length) in H. Qed.

(** [parse_pages_count] raises only [InvalidPagerTextError] or, from
    [int()], [ValueError]: never what [main]'s handler catches. *)
Lemma parse_pages_count_error_class src e :
  parse_pages_count src = inl e -> isinstance e MissingCriticalElementError = false.
Proof.
  unfold parse_pages_count. destruct (strip src) as [|c t]; [by intros [= <-]|].
  destruct (pager_match (c :: t)) as [g|]; [|by intros [= <-]].
  intros H. apply py_int_with_error in H. destruct e as [cls m]. cbn in H. by subst.
Qed.

Lemma parse_pages_count_iff src n :
  parse_pages_count src = inr n <->
  exists g, pager_lang (strip src) g /\ forallb is_digit g = true /\
            length g <= int_max_str_digits /\ n = digits_value g.
Proof.
  unfold parse_pages_count. destruct (strip src) as [|c t] eqn:Hs.
  { split; [done|]. intros (g & Hl & _). by apply pager_lang_nil in Hl. }
  destruct (pager_match (c :: t)) as [g|] eqn:Hm.
  - pose proof (pager_match_sound _ _ Hm) as Hl.
    destruct (pager_lang_group _ _ Hl) as [Hne Hg].
    rewrite py_int_group by done. split.
    + intros (_ & ? & ? & ?). by exists g.
    + intros (g' & Hl' & ? & ? & ?). apply pager_match_complete in Hl'.
      rewrite Hm in Hl'. simplify_eq. done.
  - split; [done|]. intros (g & Hl & _). apply pager_match_complete in Hl. congruence.
Qed.

(** C14: Functional specification of [parse_pages_count]: it returns [n] exactly
    when the stripped text matches the pattern with a group of at most
    4300 digits and no comma, and [n] is the value of the group. *)
Theorem parse_pages_count_spec src n :
  parse_pages_count src = inr n <->
  exists g, pager_lang (strip src) g /\ forallb is_digit g = true /\
            length g <= int_max_str_digits /\ n = digits_value g.
Proof. exact (parse_pages_count_iff src n). Qed.

(** C33: Whitespace added before or after the pager text changes nothing. *)
Theorem parse_pages_count_pad a s b :
  blank a = true -> blank b = true -> parse_pages_count (a ++ s ++ b) = parse_pages_count s.
Proof. intros Ha Hb. unfold parse_pages_count. by rewrite strip_pad. Qed.

(** An empty or all-whitespace pager text raises [InvalidPagerTextError]
    with ["Empty string provided"], not the no-match message. *)
Theorem parse_pages_count_blank s :
  blank s = true -> parse_pages_count s = raise (Exn InvalidPagerTextError empty_pager_msg).
Proof. intros Hs. unfold parse_pages_count. by rewrite (proj2 (strip_nil_blank s) Hs). Qed.

(** C37: A non-blank text that does not match raises [InvalidPagerTextError]
    whose message ends with the stripped text verbatim. *)
Theorem parse_pages_count_no_match s :
  blank s = false -> (forall g, ~ pager_lang (strip s) g) ->
  parse_pages_count s = raise (Exn InvalidPagerTextError (no_match_msg (strip s))).
Proof.
  intros Hb Hn. unfold parse_pages_count.
  destruct (strip s) as [|c t] eqn:Hs.
  { apply strip_nil_blank in Hs. congruence. }
  destruct (pager_match (c :: t)) as [g|] eqn:Hm; [|done].
  exfalso. apply (Hn g). by apply pager_match_sound.
Qed.

(** C28: A total written with thousands separators matches the pattern but
    makes [int()] raise a [ValueError], which is not an
    [InvalidPagerTextError]. *)
Theorem parse_pages_count_comma s g :
  pager_lang (strip s) g -> 44%N ∈ g ->
  exists m, parse_pages_count s = raise (Exn ValueError m).
Proof.
  intros Hl Hc. unfold parse_pages_count.
  destruct (strip s) as [|c t] eqn:Hs; [by apply pager_lang_nil in Hl|].
  rewrite (pager_match_complete _ _ Hl).
  destruct (py_int g) as [e|n] eqn:Hi.
  - exists (exn_msg e). destruct e as [cls m]. f_equal. f_equal.
    by apply (py_int_with_error (repr_str g) g (Exn cls m)).
  - destruct (pager_lang_group _ _ Hl) as [_ Hg].
    apply (py_int_group g n Hg) in Hi as (_ & Hd & _).
    apply forallb_forall with (x := 44%N) in Hd; [by vm_compute in Hd|].
    by apply list_elem_of_In.
Qed.

(** C34: A total of more than 4300 digits raises CPython's digit-limit
    [ValueError]. *)
Theorem parse_pages_count_too_long s g :
  pager_lang (strip s) g -> forallb is_digit g = true -> int_max_str_digits < length g ->
  parse_pages_count s = raise (Exn ValueError (digits_limit_msg (length g))).
Proof.
  intros Hl Hd Hlen. unfold parse_pages_count.
  destruct (strip s) as [|c t] eqn:Hs; [by apply pager_lang_nil in Hl|].
  rewrite (pager_match_complete _ _ Hl). by apply py_int_too_long.
Qed.

Lemma stops_rev_app p a b : b <> [] -> stops p (rev (a ++ b)) = stops p (rev b).
Proof.
  intros Hb. rewrite rev_app_distr. apply stops_app.
  intros H. apply Hb. by apply (f_equal (@rev N)) in H; rewrite rev_involutive in H.
Qed.

Lemma stops_space_digits b : b <> [] -> forallb is_digit b = true -> stops is_space (rev b) = true.
Proof.
  intros Hb Hd. destruct (rev b) as [|c r] eqn:Hr.
  { exfalso. apply Hb. by apply (f_equal (@rev N)) in Hr; rewrite rev_involutive in Hr. }
  cbn. apply negb_true_iff, digit_comma_not_space. unfold is_digit_comma.
  apply orb_true_intro. left.
  rewrite <- (rev_involutive b), Hr in Hd. cbn [rev] in Hd. rewrite forallb_app in Hd.
  apply andb_prop in Hd as [_ Hd]. cbn in Hd. by apply andb_prop in Hd as [? _].
Qed.

Lemma digits_digit_comma s : forallb is_digit s = true -> forallb is_digit_comma s = true.
Proof.
  intros H. apply forallb_forall. intros c Hc. apply forallb_forall with (x := c) in H; [|done].
  unfold is_digit_comma. by rewrite H.
Qed.

(** C15: Round trip with [str()]: the pager text ["Page x of y"] that the site
    renders from two numbers gives back the second one, for every count of
    at most 4300 digits. *)
Theorem parse_pages_count_roundtrip x y :
  (y < 10 ^ 4300)%N ->
  parse_pages_count (lit "Page " ++ str_N x ++ lit " of " ++ str_N y) = inr (Z.of_N y).
Proof.
  intros Hy. apply parse_pages_count_iff. exists (str_N y).
  assert (Hl : pager_lang (lit "Page " ++ str_N x ++ lit " of " ++ str_N y) (str_N y)).
  { exists [32%N], (str_N x), [32%N], [32%N], [], [], [].
    rewrite !app_nil_r. split; [done|].
    repeat split; try reflexivity; auto using digits_digit_comma with soup; by left. }
  rewrite strip_trimmed; [|reflexivity|].
  - split; [done|]. split; [auto with soup|]. split.
    + apply str_N_length; [exact Hy|done].
    + by rewrite str_N_value.
  - rewrite !app_assoc, stops_rev_app by auto with soup.
    by apply stops_space_digits; auto with soup.
Qed.

(** ** The tests of [scraper_test.py], and witnesses *)

Example test_parse_pages_count_valid : parse_pages_count (lit "Page 3 of 10") = inr 10%Z.
Proof. reflexivity. Qed.

Example test_parse_pages_count_newlines :
  parse_pages_count (lit "Page  5 " ++ [10%N] ++ lit " of 20") = inr 20%Z.
Proof. reflexivity. Qed.

Example test_parse_pages_count_missing_page :
  parse_pages_count (lit "3 of 4") =
  raise (Exn InvalidPagerTextError (lit "Could not extract pages count from string: 3 of 4")).
Proof. reflexivity. Qed.

Example test_parse_pages_count_non_numeric :
  parse_pages_count (lit "Page 3 of x") =
  raise (Exn InvalidPagerTextError (lit "Could not extract pages count from string: Page 3 of x")).
Proof. reflexivity. Qed.

(** A pager reading "Page 1 of 0" yields a page count of 0. *)
Example test_parse_pages_count_single_page : parse_pages_count (lit "Page 1 of 1") = inr 1%Z.
Proof. vm_compute. reflexivity. Qed.

Example test_parse_pages_count_extra_whitespace :
  parse_pages_count (lit "Page  5  of  20 ") = inr 20%Z.
Proof. vm_compute. reflexivity. Qed.

Example test_parse_pages_count_empty_string :
  parse_pages_count [] = raise (Exn InvalidPagerTextError empty_pager_msg).
Proof. vm_compute. reflexivity. Qed.

Example test_parse_pages_count_string_of_whitespaces :
  parse_pages_count (lit "  ") = raise (Exn InvalidPagerTextError empty_pager_msg).
Proof. vm_compute. reflexivity. Qed.

Example parse_pages_count_zero : parse_pages_count (lit "Page 1 of 0") = inr 0%Z.
Proof. reflexivity. Qed.

Lemma parse_pages_count_pad_witness :
  parse_pages_count (lit "  " ++ lit "Page 2 of 50+" ++ [10%N]) =
  parse_pages_count (lit "Page 2 of 50+").
Proof. apply parse_pages_count_pad; reflexivity. Defined.

Lemma parse_pages_count_blank_witness :
  parse_pages_count (lit "   ") = raise (Exn InvalidPagerTextError empty_pager_msg).
Proof. apply parse_pages_count_blank. reflexivity. Defined.

Lemma parse_pages_count_no_match_witness :
  parse_pages_count (lit "3 of 4") =
  raise (Exn InvalidPagerTextError (no_match_msg (strip (lit "3 of 4")))).
Proof.
  apply parse_pages_count_no_match; [reflexivity|].
  intros g Hl. apply pager_match_complete in Hl. vm_compute in Hl. discriminate.
Defined.

Lemma parse_pages_count_comma_witness :
  exists m, parse_pages_count (lit "Page 1 of 1,000") = raise (Exn ValueError m).
Proof.
  apply (parse_pages_count_comma _ (lit "1,000")).
  - apply pager_match_sound. vm_compute. reflexivity.
  - apply list_elem_of_In. vm_compute. tauto.
Defined.

Lemma parse_pages_count_too_long_witness :
  parse_pages_count (lit "Page 1 of " ++ repeat 57%N 4301) =
  raise (Exn ValueError (digits_limit_msg (length (repeat 57%N 4301)))).
Proof.
  apply parse_pages_count_too_long.
  - apply pager_match_sound. vm_compute. reflexivity.
  - vm_compute. reflexivity.
  - vm_compute. lia.
Defined.

Lemma parse_pages_count_roundtrip_witness :
  parse_pages_count (lit "Page " ++ str_N 7 ++ lit " of " ++ str_N 1000) = inr 1000%Z.
Proof. apply (parse_pages_count_roundtrip 7 1000). vm_compute. reflexivity. Defined.

Lemma parse_pages_count_spec_witness :
  exists g, pager_lang (strip (lit " Page 1 of 50 ")) g /\ forallb is_digit g = true /\
            length g <= int_max_str_digits /\ 50%Z = digits_value g.
Proof. apply parse_pages_count_spec. vm_compute. reflexivity. Defined.
