(* ===== verification/Availability.v ===== *)
(** * Availability: [gauge_availability] of [src/scraper.py]

    The classifier finds the first [p.availability] element of the product
    fragment (raising [FuckedUpMarkupError] when there is none), reads its
    class list, raises [InvalidAvailabilityClassError] (with the class list
    in the message) when no class is a key of
    [states = {"instock": True, "outofstock": False}], and otherwise returns
    the state of the first class that is a key.

    The abstract contract ([availability_spec]) says which class decides:
    the first recognised one in the element's class order. The classifier
    is written against the tree-query interface [TreeQuery] of [Dom], and
    its theorems hold for every implementation that keeps [TreeQueryLaws]. *)

From S2P Require Import Prelude Exceptions Builtins Dom.

(** ** The classifier *)

(** [states.get(clazz)] *)
Definition states (c : pystr) : option bool :=
  if bool_decide (c = lit "instock") then Some true
  else if bool_decide (c = lit "outofstock") then Some false
  else None.

(** [clazz in states] *)
Definition in_states (c : pystr) : bool :=
  match states c with Some _ => true | None => false end.

Definition missing_root_msg : pystr :=
  lit "Missing the root .availability element in the provided document".

Definition unexpected_class_msg (cls : list pystr) : pystr :=
  lit "Unexpected availability class in element: " ++ repr_list cls ++
  lit ". Expected 'instock' or 'outofstock'".

(** The loop [for clazz in avail.get("class"): if clazz in states: return
    states.get(clazz)] and the final [return False]. *)
Fixpoint first_state (cls : list pystr) : bool :=
  match cls with
  | [] => false
  | c :: t => match states c with Some b => b | None => first_state t end
  end.

(** The classifier and its theorems hold of every implementation of the
    tree queries. *)
Section Classifier.
Context {T : Type} `{!TreeQuery T}.
Implicit Types bc avail : T.

Definition gauge_availability (book_container : T) : exn + bool :=
  match q_select_one sel_p_availability book_container with
  | None => raise (Exn FuckedUpMarkupError missing_root_msg)
  | Some avail =>
      match q_class avail with
      | None => raise (Exn TypeError (lit "'NoneType' object is not iterable"))
      | Some cls =>
          let has_class := map in_states cls in
          if negb (existsb id has_class)
          then raise (Exn InvalidAvailabilityClassError (unexpected_class_msg cls))
          else inr (first_state cls)
      end
  end.

(** ** The contract *)

(** The class list decides [b] when its first recognised class maps to [b]. *)
Definition decides (cls : list pystr) (b : bool) : Prop :=
  exists pre c post, cls = pre ++ c :: post /\ Forall (fun k => states k = None) pre /\
                     states c = Some b.

(** What [classify(fragment)] promises: with no marker it raises the
    structural error; with a marker it returns the state of the first
    recognised class, or raises [InvalidAvailabilityClassError] naming the
    class list when there is none. *)
Definition availability_spec (book_container : T) (r : exn + bool) : Prop :=
  match q_select_one sel_p_availability book_container with
  | None => r = raise (Exn FuckedUpMarkupError missing_root_msg)
  | Some avail =>
      exists cls, q_class avail = Some cls /\
      ((exists b, decides cls b /\ r = inr b) \/
       (Forall (fun k => states k = None) cls /\
        r = raise (Exn InvalidAvailabilityClassError (unexpected_class_msg cls))))
  end.

(** The outcome a class list allows: the state it decides, or the
    unexpected-class error naming it when no class is recognised. *)
Definition classify_outcome (cls : list pystr) (r : exn + bool) : Prop :=
  match r with
  | inr b => decides cls b
  | inl e => e = Exn InvalidAvailabilityClassError (unexpected_class_msg cls) /\
             Forall (fun k => states k = None) cls
  end.

(** ** Lemmas *)

Context `{!TreeQueryLaws T}.

Lemma in_states_spec c : in_states c = false <-> states c = None.
Proof. unfold in_states. destruct (states c); split; done. Qed.

Lemma existsb_in_states cls :
  existsb id (map in_states cls) = false <-> Forall (fun k => states k = None) cls.
Proof.
  induction cls as [|c cls IH]; cbn; [split; constructor|].
  rewrite orb_false_iff, Forall_cons, IH, <- in_states_spec. done.
Qed.

(** The loop returns the state of the first recognised class. *)
Lemma first_state_decides cls :
  existsb id (map in_states cls) = true -> decides cls (first_state cls).
Proof.
  induction cls as [|c cls IH]; cbn; [done|]. unfold in_states at 1.
  destruct (states c) as [b|] eqn:Hc; cbn.
  - intros _. by exists [], c, cls.
  - intros H. destruct (IH H) as (pre & d & post & -> & Hpre & Hd).
    exists (c :: pre), d, post. split; [done|]. split; [by constructor|done].
Qed.

(** Only one state is decided by a class list. *)
Lemma decides_unique cls b1 b2 : decides cls b1 -> decides cls b2 -> b1 = b2.
Proof.
  intros (pre1 & c1 & post1 & -> & Hp1 & Hc1) (pre2 & c2 & post2 & Heq & Hp2 & Hc2).
  revert pre2 Heq Hp2. induction pre1 as [|x pre1 IH]; intros [|y pre2] Heq Hp2;
    cbn in Heq; simplify_eq.
  - congruence.
  - apply Forall_cons in Hp2 as [Hy _]. congruence.
  - apply Forall_cons in Hp1 as [Hx _]. congruence.
  - apply Forall_cons in Hp1 as [_ Hp1]. apply Forall_cons in Hp2 as [_ Hp2].
    eapply IH; eauto.
Qed.

(** The marker found by [p.availability] always has a class list. *)
Lemma availability_marker_class bc avail :
  q_select_one sel_p_availability bc = Some avail ->
  exists cls, q_class avail = Some cls /\ lit "availability" ∈ cls.
Proof.
  intros H. eapply q_select_one_classes; [exact H|reflexivity|]. cbn. by apply list_elem_of_singleton.
Qed.

Lemma states_some c b :
  states c = Some b -> (c = lit "instock" /\ b = true) \/ (c = lit "outofstock" /\ b = false).
Proof.
  unfold states. case_bool_decide; [intros [= <-]; by left|].
  case_bool_decide; [intros [= <-]; by right|done].
Qed.

Lemma decides_in cls b : decides cls b -> exists c, c ∈ cls /\ states c = Some b.
Proof.
  intros (pre & c & post & -> & _ & Hc). exists c. split; [|done].
  apply elem_of_app. right. apply elem_of_cons. by left.
Qed.

Lemma decides_exists cls c b : c ∈ cls -> states c = Some b -> exists b', decides cls b'.
Proof.
  intros Hc Hs. exists (first_state cls). apply first_state_decides.
  destruct (existsb id (map in_states cls)) eqn:E; [done|].
  apply existsb_in_states, Forall_forall with (x := c) in E; [congruence|done].
Qed.

(** ** Theorems *)

Lemma gauge_availability_meets_spec bc :
  availability_spec bc (gauge_availability bc).
Proof.
  unfold availability_spec, gauge_availability.
  destruct (q_select_one sel_p_availability bc) as [avail|] eqn:Hs; [|done].
  destruct (availability_marker_class bc avail Hs) as (cls & Hcls & _).
  exists cls. rewrite Hcls. split; [done|].
  destruct (existsb id (map in_states cls)) eqn:E; cbn.
  - left. exists (first_state cls). split; [by apply first_state_decides|done].
  - right. split; [by apply existsb_in_states|done].
Qed.

(** C17: [gauge_availability] implements its contract on every fragment. *)
Theorem gauge_availability_refines bc :
  availability_spec bc (gauge_availability bc).
Proof. exact (gauge_availability_meets_spec bc). Qed.

(** The classifier returns [b] exactly when the marker exists and its first
    recognised class maps to [b]: the first recognised class wins. *)
Theorem gauge_availability_iff bc b :
  gauge_availability bc = inr b <->
  exists avail cls, q_select_one sel_p_availability bc = Some avail /\
    q_class avail = Some cls /\ decides cls b.
Proof.
  pose proof (gauge_availability_meets_spec bc) as Hr. unfold availability_spec in Hr.
  destruct (q_select_one sel_p_availability bc) as [avail|] eqn:Hs.
  - destruct Hr as (cls & Hcls & [(b' & Hd & Hb) | (Hn & He)]); rewrite ?Hb, ?He.
    + split; [intros [= <-]; by exists avail, cls|].
      intros (a & cls' & [= <-] & Hc & Hd'). rewrite Hcls in Hc. simplify_eq.
      f_equal. eapply decides_unique; eauto.
    + split; [done|]. intros (a & cls' & [= <-] & Hc & Hd'). rewrite Hcls in Hc.
      simplify_eq. destruct (decides_in _ _ Hd') as (c & Hc & Hsc).
      apply Forall_forall with (x := c) in Hn; [congruence|done].
  - rewrite Hr. split; [done|]. by intros (a & cls & ? & _).
Qed.

(** A marker whose classes include ["instock"] and not ["outofstock"] is
    in stock, and the other way round. *)
Theorem gauge_availability_instock bc avail cls :
  q_select_one sel_p_availability bc = Some avail -> q_class avail = Some cls ->
  lit "instock" ∈ cls -> lit "outofstock" ∉ cls -> gauge_availability bc = inr true.
Proof.
  intros Hs Hc Hin Hout. apply gauge_availability_iff. exists avail, cls.
  do 2 (split; [done|]).
  destruct (decides_exists cls (lit "instock") true Hin) as [b Hd]; [done|].
  destruct (decides_in _ _ Hd) as (c & Hc' & Hsc).
  destruct (states_some _ _ Hsc) as [[-> ->] | [-> ->]]; [done|contradiction].
Qed.

Theorem gauge_availability_outofstock bc avail cls :
  q_select_one sel_p_availability bc = Some avail -> q_class avail = Some cls ->
  lit "outofstock" ∈ cls -> lit "instock" ∉ cls -> gauge_availability bc = inr false.
Proof.
  intros Hs Hc Hin Hout. apply gauge_availability_iff. exists avail, cls.
  do 2 (split; [done|]).
  destruct (decides_exists cls (lit "outofstock") false Hin) as [b Hd]; [done|].
  destruct (decides_in _ _ Hd) as (c & Hc' & Hsc).
  destruct (states_some _ _ Hsc) as [[-> ->] | [-> ->]]; [contradiction|done].
Qed.

(** Without a [p.availability] element the structural error is raised. *)
Theorem gauge_availability_missing_root bc :
  q_select_one sel_p_availability bc = None ->
  gauge_availability bc = raise (Exn FuckedUpMarkupError missing_root_msg).
Proof. intros H. unfold gauge_availability. by rewrite H. Qed.

(** The classifier raises only its two errors. *)
Lemma gauge_availability_error_class bc e :
  gauge_availability bc = inl e ->
  exn_class e = FuckedUpMarkupError \/ exn_class e = InvalidAvailabilityClassError.
Proof.
  pose proof (gauge_availability_meets_spec bc) as Hr. unfold availability_spec in Hr.
  destruct (q_select_one sel_p_availability bc); [|rewrite Hr; intros [= <-]; by left].
  destruct Hr as (cls & _ & [(b & _ & ->) | (_ & ->)]); [done|]. intros [= <-]. by right.
Qed.

End Classifier.

(** ** The tests of [scraper_test.py], and witnesses *)

(** [<div><p class="...">In stock</p></div>] *)
Definition availability_page (cls : option (list String.string)) : el :=
  document [elem "div" [] None [elem "p" [] cls [txt "In stock"]]].

Example test_gauge_availability_instock :
  gauge_availability (availability_page (Some ["availability"; "instock"]%string)) = inr true.
Proof. vm_compute. reflexivity. Qed.

Example test_gauge_availability_unexpected_state :
  gauge_availability (availability_page (Some ["availability"; "unknown"]%string)) =
  raise (Exn InvalidAvailabilityClassError
    (lit "Unexpected availability class in element: ['availability', 'unknown']. Expected 'instock' or 'outofstock'")).
Proof. vm_compute. reflexivity. Qed.

Example test_gauge_availability_missing_state :
  gauge_availability (availability_page (Some ["availability"]%string)) =
  raise (Exn InvalidAvailabilityClassError
    (lit "Unexpected availability class in element: ['availability']. Expected 'instock' or 'outofstock'")).
Proof. vm_compute. reflexivity. Qed.

Example test_gauge_availability_no_availability_class :
  gauge_availability (availability_page (Some ["instock"]%string)) =
  raise (Exn FuckedUpMarkupError missing_root_msg).
Proof. vm_compute. reflexivity. Qed.

Example test_gauge_availability_no_classes :
  gauge_availability (availability_page None) = raise (Exn FuckedUpMarkupError missing_root_msg).
Proof. vm_compute. reflexivity. Qed.

Example test_gauge_availability_outofstock :
  gauge_availability (availability_page (Some ["availability"; "outofstock"]%string)) = inr false.
Proof. vm_compute. reflexivity. Qed.

Example test_gauge_availability_empty_container :
  gauge_availability (document [elem "div" [] None []]) = raise (Exn FuckedUpMarkupError missing_root_msg).
Proof. vm_compute. reflexivity. Qed.

(** Both recognised classes present: the first one in class order wins. *)
Example gauge_availability_both :
  gauge_availability (availability_page (Some ["availability"; "outofstock"; "instock"]%string)) =
  inr false.
Proof. vm_compute. reflexivity. Qed.

Lemma gauge_availability_instock_witness :
  gauge_availability (availability_page (Some ["instock"; "availability"]%string)) = inr true.
Proof.
  eapply (gauge_availability_instock _ _ (map lit ["instock"; "availability"]%string));
    [reflexivity|reflexivity|decide_by_eval|decide_by_eval].
Defined.

Lemma gauge_availability_outofstock_witness :
  gauge_availability (availability_page (Some ["availability"; "outofstock"]%string)) = inr false.
Proof.
  eapply (gauge_availability_outofstock _ _ (map lit ["availability"; "outofstock"]%string));
    [reflexivity|reflexivity|decide_by_eval|decide_by_eval].
Defined.

Lemma gauge_availability_missing_root_witness :
  gauge_availability (availability_page (Some ["instock"]%string)) =
  raise (Exn FuckedUpMarkupError missing_root_msg).
Proof. apply gauge_availability_missing_root. reflexivity. Defined.

Definition sold_page : el := availability_page (Some ["availability"; "sold"]%string).

Lemma gauge_availability_refines_witness :
  availability_spec sold_page (gauge_availability sold_page).
Proof. apply gauge_availability_refines. Defined.
