(* ===== verification/Book.v ===== *)
(** * Book: [parse_book] of [src/scraper.py], the record extractor

    [parse_book] validates one product fragment in a fixed order and stops
    at the first failure: the [h3 a] title element, its [title] attribute,
    the availability (through [gauge_availability], whose structural
    failure it wraps into [MissingAvailabilityError]), the [.price_color]
    element and its stripped text; it then builds the [Book] (the record of
    [entities.Book]: title, price, availability). Like the classifier, it
    is written and proved against the tree-query interface of [Dom]. *)

From S2P Require Import Prelude Exceptions Builtins Dom Availability.

(** ** The record *)

Record Book := mkBook { title : pystr; price : pystr; available : bool }.

#[export] Instance Book_eq_dec : EqDecision Book.
Proof. solve_decision. Defined.

(** ** The extractor *)

Definition missing_title_elem_msg : pystr :=
  lit "Missing 'h3 a' element for title in the provided document".
Definition missing_title_attr_msg : pystr :=
  lit "Missing 'title' attribute in 'h3 a' element for book title".
Definition missing_price_msg : pystr :=
  lit "Missing '.price_color' element for price in the provided document".
Definition invalid_price_msg : pystr :=
  lit "Empty or invalid price text found in '.price_color' element".

Definition availability_error_msg (title_str details : pystr) : pystr :=
  lit "Error determining availability for book: " ++ title_str ++ lit ". Details: " ++ details.

(** The extractor and its theorems hold of every implementation of the
    tree queries. *)
Section Extractor.
Context {T : Type} `{!TreeQuery T} `{!TreeQueryLaws T}.
Implicit Types bc title_el : T.

Definition parse_book (book_container : T) : exn + Book :=
  match q_select_one sel_h3_a book_container with
  | None => raise (Exn MissingTitleError missing_title_elem_msg)
  | Some title_el =>
      match q_get title_el (lit "title") with
      | None | Some [] => raise (Exn MissingTitleError missing_title_attr_msg)
      | Some title_str =>
          match gauge_availability book_container with
          | inl e =>
              if isinstance e FuckedUpMarkupError
              then raise (Exn MissingAvailabilityError (availability_error_msg title_str (exn_msg e)))
              else raise e
          | inr avail =>
              match q_select_one sel_price_color book_container with
              | None => raise (Exn MissingPriceError missing_price_msg)
              | Some price_el =>
                  match strip (q_text price_el) with
                  | [] => raise (Exn InvalidPriceError invalid_price_msg)
                  | price_text => inr (mkBook (strip title_str) price_text avail)
                  end
              end
          end
      end
  end.

(** ** The fields a fragment offers *)

(** The title attribute of the fragment's [h3 a] element, when both exist. *)
Definition title_of (bc : T) : option pystr :=
  title_el ← q_select_one sel_h3_a bc; q_get title_el (lit "title").

(** The stripped text of the fragment's [.price_color] element. *)
Definition price_of (bc : T) : option pystr :=
  price_el ← q_select_one sel_price_color bc; Some (strip (q_text price_el)).

(** A book as [parse_book] builds it: a non-empty price with no
    surrounding whitespace, and a stripped title. *)
Definition book_wf (b : Book) : Prop :=
  price b <> [] /\ strip (price b) = price b /\ strip (title b) = title b.

(** ** Lemmas *)

Lemma title_of_some bc ts :
  title_of bc = Some ts <->
  exists title_el, q_select_one sel_h3_a bc = Some title_el /\ q_get title_el (lit "title") = Some ts.
Proof.
  unfold title_of. destruct (q_select_one sel_h3_a bc) as [t|]; cbn; [|naive_solver].
  split; [by eauto|]. by intros (? & [= <-] & ?).
Qed.

Lemma price_of_some bc p :
  price_of bc = Some p <->
  exists price_el, q_select_one sel_price_color bc = Some price_el /\ strip (q_text price_el) = p.
Proof.
  unfold price_of. destruct (q_select_one sel_price_color bc) as [q|]; cbn; [|naive_solver].
  split; [intros [= <-]; by eauto|]. by intros (? & [= <-] & <-).
Qed.

(** [parse_book] once the title is known: the availability, then the
    price. *)
Lemma parse_book_titled bc ts :
  title_of bc = Some ts -> ts <> [] ->
  parse_book bc =
  match gauge_availability bc with
  | inl e =>
      if isinstance e FuckedUpMarkupError
      then raise (Exn MissingAvailabilityError (availability_error_msg ts (exn_msg e)))
      else raise e
  | inr avail =>
      match price_of bc with
      | None => raise (Exn MissingPriceError missing_price_msg)
      | Some [] => raise (Exn InvalidPriceError invalid_price_msg)
      | Some p => inr (mkBook (strip ts) p avail)
      end
  end.
Proof.
  intros (t & Ht & Hts)%title_of_some Hne. unfold parse_book, price_of.
  rewrite Ht, Hts. destruct ts as [|c ts]; [done|].
  destruct (gauge_availability bc); [done|].
  destruct (q_select_one sel_price_color bc) as [q|]; cbn; [|done].
  by destruct (strip (q_text q)).
Qed.

(** ** Theorems *)

Lemma parse_book_inr bc b :
  parse_book bc = inr b <->
  exists ts avail p, title_of bc = Some ts /\ ts <> [] /\ gauge_availability bc = inr avail /\
    price_of bc = Some p /\ p <> [] /\ b = mkBook (strip ts) p avail.
Proof.
  split.
  - unfold parse_book.
    destruct (q_select_one sel_h3_a bc) as [t|] eqn:Ht; [|done].
    destruct (q_get t (lit "title")) as [[|c ts]|] eqn:Hts; [done| |done].
    destruct (gauge_availability bc) as [e|avail] eqn:Hg.
    { by destruct (isinstance e FuckedUpMarkupError). }
    destruct (q_select_one sel_price_color bc) as [q|] eqn:Hq; [|done].
    destruct (strip (q_text q)) as [|d p] eqn:Hp; [done|]. intros [= <-].
    exists (c :: ts), avail, (d :: p). repeat split; try done.
    + apply title_of_some. by exists t.
    + apply price_of_some. by exists q.
  - intros (ts & avail & p & Hts & Hne & Hg & Hp & Hpne & ->).
    rewrite (parse_book_titled bc ts Hts Hne), Hg, Hp. by destruct p.
Qed.

(** C16: [parse_book] returns a book exactly when every field validates, and the
    book holds the stripped title, the stripped price text and the
    classified availability. *)
Theorem parse_book_ok bc b :
  parse_book bc = inr b <->
  exists ts avail p, title_of bc = Some ts /\ ts <> [] /\ gauge_availability bc = inr avail /\
    price_of bc = Some p /\ p <> [] /\ b = mkBook (strip ts) p avail.
Proof. exact (parse_book_inr bc b). Qed.

(** C32: Every book [parse_book] returns is well formed. *)
Theorem parse_book_wf bc b : parse_book bc = inr b -> book_wf b.
Proof.
  intros (ts & avail & p & _ & _ & _ & (q & _ & <-)%price_of_some & Hp & ->)%parse_book_inr.
  unfold book_wf. cbn. split; [done|]. split; apply strip_idem.
Qed.

(** The validation order, one error kind per field; the first failing
    check decides the error. A fragment without an [h3 a] element raises
    [MissingTitleError] for the missing element, whatever else it holds. *)
Theorem parse_book_missing_title_elem bc :
  q_select_one sel_h3_a bc = None ->
  parse_book bc = raise (Exn MissingTitleError missing_title_elem_msg).
Proof. intros H. unfold parse_book. by rewrite H. Qed.

(** An [h3 a] element without a [title] attribute, or with an empty
    one, raises [MissingTitleError] for the missing attribute. *)
Theorem parse_book_missing_title_attr bc title_el :
  q_select_one sel_h3_a bc = Some title_el ->
  (q_get title_el (lit "title") = None \/ q_get title_el (lit "title") = Some []) ->
  parse_book bc = raise (Exn MissingTitleError missing_title_attr_msg).
Proof. intros H [Ha|Ha]; unfold parse_book; by rewrite H, Ha. Qed.

(** A missing availability marker is reported as [MissingAvailabilityError]
    naming the title and carrying the classifier's message. *)
Theorem parse_book_missing_availability bc ts :
  title_of bc = Some ts -> ts <> [] -> q_select_one sel_p_availability bc = None ->
  parse_book bc =
  raise (Exn MissingAvailabilityError (availability_error_msg ts missing_root_msg)).
Proof.
  intros Ht Hne Ha. rewrite (parse_book_titled bc ts Ht Hne).
  by rewrite gauge_availability_missing_root.
Qed.

(** C27: A marker with no recognised class is not wrapped: the classifier's
    [InvalidAvailabilityClassError] leaves [parse_book] as it is, because
    only [FuckedUpMarkupError] is caught around [gauge_availability]. *)
Theorem parse_book_invalid_class_escapes bc ts avail cls :
  title_of bc = Some ts -> ts <> [] -> q_select_one sel_p_availability bc = Some avail ->
  q_class avail = Some cls -> Forall (fun k => states k = None) cls ->
  parse_book bc = raise (Exn InvalidAvailabilityClassError (unexpected_class_msg cls)).
Proof.
  intros Ht Hne Ha Hc Hn. rewrite (parse_book_titled bc ts Ht Hne).
  unfold gauge_availability. rewrite Ha, Hc.
  apply existsb_in_states in Hn. by rewrite Hn.
Qed.

(** With a title and an availability, a fragment without a
    [.price_color] element raises [MissingPriceError]. *)
Theorem parse_book_missing_price bc ts avail :
  title_of bc = Some ts -> ts <> [] -> gauge_availability bc = inr avail ->
  q_select_one sel_price_color bc = None ->
  parse_book bc = raise (Exn MissingPriceError missing_price_msg).
Proof.
  intros Ht Hne Ha Hp. rewrite (parse_book_titled bc ts Ht Hne), Ha.
  unfold price_of. by rewrite Hp.
Qed.

(** A price element whose text is empty after [strip()] raises
    [InvalidPriceError]. *)
Theorem parse_book_invalid_price bc ts avail :
  title_of bc = Some ts -> ts <> [] -> gauge_availability bc = inr avail ->
  price_of bc = Some [] ->
  parse_book bc = raise (Exn InvalidPriceError invalid_price_msg).
Proof. intros Ht Hne Ha Hp. by rewrite (parse_book_titled bc ts Ht Hne), Ha, Hp. Qed.

(** C35: A title attribute made of whitespace passes the emptiness check, which
    runs before [strip()], so the book is built with an empty title. *)
Theorem parse_book_blank_title bc ts avail p :
  title_of bc = Some ts -> ts <> [] -> blank ts = true ->
  gauge_availability bc = inr avail -> price_of bc = Some p -> p <> [] ->
  parse_book bc = inr (mkBook [] p avail).
Proof.
  intros Ht Hne Hb Ha Hp Hpne. apply parse_book_inr.
  exists ts, avail, p. repeat split; try done. by rewrite (proj2 (strip_nil_blank ts) Hb).
Qed.

(** The only exceptions [parse_book] raises are the five record-level ones. *)
Theorem parse_book_error_classes bc e :
  parse_book bc = inl e ->
  exn_class e ∈ [MissingTitleError; MissingAvailabilityError; InvalidAvailabilityClassError;
                 MissingPriceError; InvalidPriceError].
Proof.
  unfold parse_book.
  destruct (q_select_one sel_h3_a bc) as [t|]; [|intros [= <-]; by repeat constructor].
  destruct (q_get t (lit "title")) as [[|c ts]|];
    try (intros [= <-]; by repeat constructor).
  destruct (gauge_availability bc) as [e'|avail] eqn:Hg.
  - destruct (isinstance e' FuckedUpMarkupError) eqn:Hi; intros [= <-]; [by repeat constructor|].
    destruct (gauge_availability_error_class bc e' Hg) as [Hc|Hc].
    + unfold isinstance in Hi. rewrite Hc in Hi. by vm_compute in Hi.
    + rewrite Hc. by repeat constructor.
  - destruct (q_select_one sel_price_color bc) as [q|]; [|intros [= <-]; by repeat constructor].
    destruct (strip (q_text q)); [intros [= <-]; by repeat constructor|done].
Qed.

End Extractor.

(** ** The tests of [scraper_test.py], and witnesses *)

(** The pound sign U+00A3. *)
Definition pound : pystr := [163%N].

Definition title_h3 (t : option String.string) : node :=
  elem "h3" [] None
    [elem "a" (("href", "the-invention-of-wings_448/index.html")%string ::
               match t with Some t => [("title", t)%string] | None => [] end) None
       [txt "The Invention of Wings"]].

Definition price_p (kids : list node) : node := elem "p" [] (Some ["price_color"]%string) kids.

(** The [article.product_pod] of the test pages, with its title part, its
    price part and the classes of its availability paragraph. *)
Definition product_pod (title_part price_part : list node) (avail_cls : list String.string) : node :=
  elem "article" [] (Some ["product_pod"]%string)
    ([elem "div" [] (Some ["image_container"]%string)
        [elem "a" [("href", "the-invention-of-wings_448/index.html")%string] None
           [elem "img" [("src", "../media/cache/62/fa/62fa1e72f06f05762db5d9cedf654153.jpg");
                       ("alt", "The Invention of Wings")]%string (Some ["thumbnail"]%string) []]];
      elem "p" [] (Some ["star-rating"; "One"]%string)
        (repeat (elem "i" [] (Some ["icon-star"]%string) []) 5)] ++
     title_part ++
     [elem "div" [] (Some ["product_price"]%string)
        (price_part ++
         [elem "p" [] (Some avail_cls) [elem "i" [] (Some ["icon-ok"]%string) []; txt "In stock"];
          elem "form" [] None
            [elem "button" [("type", "submit")%string] (Some ["btn"; "btn-primary"; "btn-block"]%string)
               [txt "Add to basket"]]])]).

(** [parse_book(soup.find("article", class_="product_pod"))] *)
Definition parse_test_page (n : node) : option (exn + Book) :=
  parse_book <$> find_first (lit "article") (lit "product_pod") (document [n]).

Definition invention : pystr := lit "The Invention of Wings".

Example test_parse_book :
  parse_test_page (product_pod [title_h3 (Some "The Invention of Wings"%string)]
                     [price_p [NText (pound ++ lit "37.34")]] ["instock"; "availability"]%string) =
  Some (inr (mkBook invention (pound ++ lit "37.34") true)).
Proof. vm_compute. reflexivity. Qed.

(** [<p class="price_color">£37.<br/>34</p>]: the text of the nested markup
    is concatenated. *)
Example test_parse_book_bratty_price_element :
  parse_test_page (product_pod [title_h3 (Some "The Invention of Wings"%string)]
                     [price_p [NText (pound ++ lit "37."); elem "br" [] None []; txt "34"]]
                     ["instock"; "availability"]%string) =
  Some (inr (mkBook invention (pound ++ lit "37.34") true)).
Proof. vm_compute. reflexivity. Qed.

(** The fragment of [test_parse_book_long_title]: the link text is
    truncated, the [title] attribute is not. *)
Definition light_in_the_attic : node :=
  elem "article" [] (Some ["product_pod"]%string)
    [elem "div" [] (Some ["image_container"]%string)
       [elem "a" [("href", "catalogue/a-light-in-the-attic_1000/index.html")%string] None
          [elem "img" [("src", "media/cache/2c/da/2cdad67c44b002e7ead0cc35693c0e8b.jpg");
                       ("alt", "A Light in the Attic")]%string (Some ["thumbnail"]%string) []]];
     elem "p" [] (Some ["star-rating"; "Three"]%string)
       (repeat (elem "i" [] (Some ["icon-star"]%string) []) 5);
     elem "h3" [] None
       [elem "a" [("href", "catalogue/a-light-in-the-attic_1000/index.html");
                  ("title", "A Light in the Attic")]%string None [txt "A Light in the ..."]];
     elem "div" [] (Some ["product_price"]%string)
       [price_p [NText (pound ++ lit "51.77")];
        elem "p" [] (Some ["instock"; "availability"]%string) [elem "i" [] (Some ["icon-ok"]%string) []; txt "In stock"];
        elem "form" [] None
          [elem "button" [("type", "submit")%string] (Some ["btn"; "btn-primary"; "btn-block"]%string)
             [txt "Add to basket"]]]].

Example test_parse_book_long_title :
  parse_test_page light_in_the_attic =
  Some (inr (mkBook (lit "A Light in the Attic") (pound ++ lit "51.77") true)).
Proof. vm_compute. reflexivity. Qed.

Example test_parse_book_missing_title :
  parse_test_page (product_pod [] [price_p [NText (pound ++ lit "37.34")]] ["instock"; "availability"]%string) =
  Some (raise (Exn MissingTitleError missing_title_elem_msg)).
Proof. vm_compute. reflexivity. Qed.

Example test_parse_book_missing_price :
  parse_test_page (product_pod [title_h3 (Some "The Invention of Wings"%string)] [] ["instock"; "availability"]%string) =
  Some (raise (Exn MissingPriceError missing_price_msg)).
Proof. vm_compute. reflexivity. Qed.

Example test_parse_book_missing_title_attribute :
  parse_test_page (product_pod [title_h3 None] [price_p [NText (pound ++ lit "37.34")]] ["instock"; "availability"]%string) =
  Some (raise (Exn MissingTitleError missing_title_attr_msg)).
Proof. vm_compute. reflexivity. Qed.

Example test_parse_book_outofstock :
  parse_test_page (product_pod [title_h3 (Some "The Invention of Wings"%string)]
                     [price_p [NText (pound ++ lit "37.34")]] ["outofstock"; "availability"]%string) =
  Some (inr (mkBook invention (pound ++ lit "37.34") false)).
Proof. vm_compute. reflexivity. Qed.

(** [soup.find("article", class_="product_pod")] on a one-product page. *)
Definition fragment_of (n : node) : el :=
  default (document []) (find_first (lit "article") (lit "product_pod") (document [n])).

Definition good_price : list node := [price_p [NText (pound ++ lit "37.34")]].
Definition good_title : list node := [title_h3 (Some "The Invention of Wings"%string)].
Definition in_stock : list String.string := ["instock"; "availability"]%string.

Lemma parse_book_wf_witness :
  book_wf (mkBook invention (pound ++ lit "37.34") true).
Proof. apply (parse_book_wf (fragment_of (product_pod good_title good_price in_stock))). reflexivity. Defined.

Lemma parse_book_missing_title_elem_witness :
  parse_book (fragment_of (product_pod [] good_price in_stock)) =
  raise (Exn MissingTitleError missing_title_elem_msg).
Proof. apply parse_book_missing_title_elem. reflexivity. Defined.

Lemma parse_book_missing_title_attr_witness :
  parse_book (fragment_of (product_pod [title_h3 None] good_price in_stock)) =
  raise (Exn MissingTitleError missing_title_attr_msg).
Proof. eapply parse_book_missing_title_attr; [reflexivity|left; reflexivity]. Defined.

Lemma parse_book_missing_availability_witness :
  parse_book (fragment_of (product_pod good_title good_price ["instock"]%string)) =
  raise (Exn MissingAvailabilityError (availability_error_msg invention missing_root_msg)).
Proof.
  apply parse_book_missing_availability; [reflexivity|decide_by_eval|reflexivity].
Defined.

Lemma parse_book_invalid_class_escapes_witness :
  parse_book (fragment_of (product_pod good_title good_price ["availability"; "unknown"]%string)) =
  raise (Exn InvalidAvailabilityClassError (unexpected_class_msg (map lit ["availability"; "unknown"]%string))).
Proof.
  eapply parse_book_invalid_class_escapes;
    [reflexivity|decide_by_eval|reflexivity|reflexivity|decide_by_eval].
Defined.

Lemma parse_book_missing_price_witness :
  parse_book (fragment_of (product_pod good_title [] in_stock)) =
  raise (Exn MissingPriceError missing_price_msg).
Proof. eapply parse_book_missing_price; [reflexivity|decide_by_eval|reflexivity|reflexivity]. Defined.

Lemma parse_book_invalid_price_witness :
  parse_book (fragment_of (product_pod good_title [price_p [txt "  "]] in_stock)) =
  raise (Exn InvalidPriceError invalid_price_msg).
Proof. eapply parse_book_invalid_price; [reflexivity|decide_by_eval|reflexivity|reflexivity]. Defined.

Lemma parse_book_blank_title_witness :
  parse_book (fragment_of (product_pod [title_h3 (Some "   "%string)] good_price in_stock)) =
  inr (mkBook [] (pound ++ lit "37.34") true).
Proof.
  eapply parse_book_blank_title;
    [reflexivity|decide_by_eval|reflexivity|reflexivity|reflexivity|decide_by_eval].
Defined.

Lemma parse_book_error_classes_witness :
  exn_class (Exn MissingPriceError missing_price_msg) ∈
  [MissingTitleError; MissingAvailabilityError; InvalidAvailabilityClassError;
   MissingPriceError; InvalidPriceError].
Proof.
  apply (parse_book_error_classes (fragment_of (product_pod good_title [] in_stock))).
  reflexivity.
Defined.

(** The test fragment returns its book, so each field passed its check. *)
Lemma parse_book_ok_witness :
  exists ts avail p, title_of (fragment_of (product_pod good_title good_price in_stock)) = Some ts /\
    ts <> [] /\ gauge_availability (fragment_of (product_pod good_title good_price in_stock)) = inr avail /\
    price_of (fragment_of (product_pod good_title good_price in_stock)) = Some p /\ p <> [] /\
    mkBook invention (pound ++ lit "37.34") true = mkBook (strip ts) p avail.
Proof. apply parse_book_ok. vm_compute. reflexivity. Defined.
