(* ===== verification/Page.v ===== *)
(** * Page: [parse_page] of [src/scraper.py], the page parser

    [parse_page] takes a layout ([str] or a bs4 tag), finds every
    [article.product_pod], runs [parse_book] on each and keeps the books in
    document order. A fragment whose error is one of the [except] tuple
    ([MissingTitleError], [MissingAvailabilityError] twice,
    [MissingPriceError]) is logged with [log.error] and skipped; a
    [MissingCriticalElementError] is logged with [log.critical]; any other
    exception leaves [parse_page]. The log is part of the result: the list
    of events in emission order.

    [soup = layout is str and BeautifulSoup(layout, "html.parser") or layout]
    tests the identity of [layout] with the class [str], which no string
    is: a string layout is used as it is, and [.find_all] on a [str]
    raises [AttributeError]. The parser is generic in the tree type: it
    uses [find_all] of the tree-query interface of [Dom]. *)

From S2P Require Import Prelude Exceptions Builtins Dom Availability Book.

(** ** The parser *)

Inductive layout (T : Type) :=
  | LayoutStr (s : pystr)
  | LayoutTag (e : T).

Arguments LayoutStr {T} s.
Arguments LayoutTag {T} e.

Inductive log_event :=
  | LogError (e : exn)
  | LogCritical (e : exn).

#[export] Instance log_event_eq_dec : EqDecision log_event.
Proof. solve_decision. Defined.

(** [layout is str]: the identity test of a value with the class object
    [str], false for every string and every tag. *)
Definition is_str_class {T} (l : layout T) : bool := false.

(** The first [except] clause of the loop. *)
Definition skip_clauses : list pyclass :=
  [MissingTitleError; MissingAvailabilityError; MissingAvailabilityError; MissingPriceError].

Definition find_all_attr_error : pystr := lit "'str' object has no attribute 'find_all'".

(** The parser and its theorems hold of every implementation of the tree
    queries. *)
Section Parser.
Context {T : Type} `{!TreeQuery T} `{!TreeQueryLaws T}.

(** The [for p in prod] loop with its accumulator [out] and the log. *)
Fixpoint parse_books (prod : list T) (out : list Book) (log : list log_event)
  : (exn + list Book) * list log_event :=
  match prod with
  | [] => (inr out, log)
  | p :: rest =>
      match parse_book p with
      | inr b => parse_books rest (out ++ [b]) log
      | inl e =>
          if handles skip_clauses e then parse_books rest out (log ++ [LogError e])
          else if isinstance e MissingCriticalElementError
          then parse_books rest out (log ++ [LogCritical e])
          else (inl e, log)
      end
  end.

Section ParsePage.

(** [BeautifulSoup(markup, "html.parser")]: HTML parsing is not modelled;
    the parser is a parameter of the page parser. *)
Variable html_parser : pystr -> T.

Definition parse_page (lay : layout T) : (exn + list Book) * list log_event :=
  let soup :=
    if is_str_class lay
    then match lay with LayoutStr s => LayoutTag (html_parser s) | LayoutTag e => LayoutTag e end
    else lay in
  match soup with
  | LayoutStr _ => (raise (Exn AttributeError find_all_attr_error), [])
  | LayoutTag e => parse_books (q_find_all (lit "article") (lit "product_pod") e) [] []
  end.

End ParsePage.

(** ** What the loop keeps *)

(** A fragment is skipped or kept, never fatal. *)
Definition recoverable (p : T) : Prop :=
  match parse_book p with
  | inr _ => True
  | inl e => handles skip_clauses e = true
  end.

Definition recoverableb (p : T) : bool :=
  match parse_book p with
  | inr _ => true
  | inl e => handles skip_clauses e
  end.

Definition book_of (p : T) : option Book :=
  match parse_book p with inr b => Some b | inl _ => None end.

Definition skip_of (p : T) : option log_event :=
  match parse_book p with inr _ => None | inl e => Some (LogError e) end.

(** The product fragments of a page. *)
Definition fragments (e : T) : list T := q_find_all (lit "article") (lit "product_pod") e.

(** ** Lemmas *)

#[local] Arguments parse_book : simpl never.

Lemma parse_books_ok prod out log :
  Forall recoverable prod ->
  parse_books prod out log = (inr (out ++ omap book_of prod), log ++ omap skip_of prod).
Proof.
  revert out log. induction prod as [|p prod IH]; intros out log Hr; cbn.
  { by rewrite !app_nil_r. }
  apply Forall_cons in Hr as [Hp Hr]. unfold recoverable, book_of, skip_of in *.
  destruct (parse_book p) as [e|b].
  - rewrite Hp, IH by done. by rewrite <- app_assoc.
  - rewrite IH by done. by rewrite <- app_assoc.
Qed.

Lemma parse_books_abort pre p post out log e :
  Forall recoverable pre -> parse_book p = inl e -> handles skip_clauses e = false ->
  isinstance e MissingCriticalElementError = false ->
  parse_books (pre ++ p :: post) out log = (inl e, log ++ omap skip_of pre).
Proof.
  revert out log. induction pre as [|q pre IH]; intros out log Hr Hp Hs Hc; cbn.
  { rewrite Hp, Hs, Hc. by rewrite app_nil_r. }
  apply Forall_cons in Hr as [Hq Hr]. unfold recoverable, skip_of in *.
  destruct (parse_book q) as [e'|b].
  - rewrite Hq, IH by done. by rewrite <- app_assoc.
  - by rewrite IH.
Qed.

Lemma recoverableb_spec prod : forallb recoverableb prod = true -> Forall recoverable prod.
Proof.
  intros H. apply Forall_forall. intros p Hp. apply forallb_forall with (x := p) in H; [|by apply list_elem_of_In].
  unfold recoverableb, recoverable in *. by destruct (parse_book p).
Qed.

(** Which exceptions of [parse_book] the first clause catches: the missing
    title, availability and price, not the invalid price or class. *)
Lemma parse_book_skip p e :
  parse_book p = inl e ->
  handles skip_clauses e =
  bool_decide (exn_class e ∈ [MissingTitleError; MissingAvailabilityError; MissingPriceError]).
Proof.
  intros H. apply parse_book_error_classes in H. destruct e as [c m]. cbn in H.
  repeat (apply elem_of_cons in H as [->|H]; [vm_compute; reflexivity|]).
  by apply elem_of_nil in H.
Qed.

(** [parse_book] never raises [MissingCriticalElementError]: the
    [log.critical] clause of the loop is dead. *)
Lemma parse_book_not_critical p e :
  parse_book p = inl e -> isinstance e MissingCriticalElementError = false.
Proof.
  intros H. apply parse_book_error_classes in H. destruct e as [c m]. cbn in H.
  repeat (apply elem_of_cons in H as [->|H]; [vm_compute; reflexivity|]).
  by apply elem_of_nil in H.
Qed.

(** ** Theorems *)

(** C21: When no fragment raises a fatal error, [parse_page] returns the books of
    the fragments that parse, in document order, and logs one [log.error]
    per skipped fragment, in order. *)
Theorem parse_page_ok html e :
  Forall recoverable (fragments e) ->
  parse_page html (LayoutTag e) = (inr (omap book_of (fragments e)), omap skip_of (fragments e)).
Proof. intros H. unfold parse_page. cbn [is_str_class]. by rewrite parse_books_ok. Qed.

(** C22: A fragment with an empty price or an unrecognised availability class
    aborts the whole page: its exception leaves [parse_page], and the books
    of the earlier fragments are lost. *)
Theorem parse_page_abort html e pre p post err :
  fragments e = pre ++ p :: post -> Forall recoverable pre -> parse_book p = inl err ->
  exn_class err = InvalidPriceError \/ exn_class err = InvalidAvailabilityClassError ->
  parse_page html (LayoutTag e) = (inl err, omap skip_of pre).
Proof.
  intros Hf Hpre Hp Hc. unfold parse_page. cbn [is_str_class]. unfold fragments in Hf. rewrite Hf.
  rewrite parse_books_abort with (e := err); [done|done|done| |].
  - rewrite (parse_book_skip p err Hp). apply bool_decide_eq_false.
    destruct Hc as [-> | ->]; decide_by_eval.
  - by apply (parse_book_not_critical p).
Qed.

(** C36: A layout given as a string is never parsed: [find_all] is looked up on
    the [str] and raises [AttributeError]. *)
Theorem parse_page_str html s :
  parse_page html (LayoutStr s) = (raise (Exn AttributeError find_all_attr_error), []).
Proof. done. Qed.

(** [parse_page] never logs a critical event. *)
Theorem parse_page_no_critical html lay e :
  LogCritical e ∉ (parse_page html lay).2.
Proof.
  unfold parse_page. cbn [is_str_class]. destruct lay as [s|soup]; [by apply not_elem_of_nil|].
  assert (H : forall prod out log, LogCritical e ∉ log ->
            LogCritical e ∉ (parse_books prod out log).2).
  { induction prod as [|p prod IH]; intros out log Hlog; cbn; [done|].
    destruct (parse_book p) as [err|b] eqn:Hp; [|by apply IH].
    destruct (handles skip_clauses err).
    - apply IH. rewrite elem_of_app, list_elem_of_singleton. intros [?|?]; done.
    - by rewrite (parse_book_not_critical p err Hp). }
  apply H, not_elem_of_nil.
Qed.
(** What leaves [parse_page] is never a [MissingCriticalElementError]:
    the loop catches it. *)
Lemma parse_books_not_critical prod out log e l :
  parse_books prod out log = (inl e, l) -> isinstance e MissingCriticalElementError = false.
Proof.
  revert out log. induction prod as [|p prod IH]; intros out log; cbn; [done|].
  destruct (parse_book p) as [err|b]; [|apply IH].
  destruct (handles skip_clauses err); [apply IH|].
  destruct (isinstance err MissingCriticalElementError) eqn:Hc; [apply IH|]. by intros [= <- _].
Qed.

Lemma parse_page_not_critical html lay e l :
  parse_page html lay = (inl e, l) -> isinstance e MissingCriticalElementError = false.
Proof.
  unfold parse_page. cbn [is_str_class]. destruct lay as [s|soup].
  - intros [= <- _]. by vm_compute.
  - apply parse_books_not_critical.
Qed.

End Parser.


(** ** The end-to-end page of the specification, and witnesses *)

Definition pod (t : String.string) (price_part : list node) : node :=
  product_pod [title_h3 (Some t)] price_part in_stock.

(** A catalogue page: a list of products inside the page layout. *)
Definition catalogue_page (pods : list node) : el :=
  document [elem "html" [] None [elem "body" [] None
    [elem "ol" [] (Some ["row"]%string) (map (fun n => elem "li" [] None [n]) pods)]]].

Definition no_parser : pystr -> el := fun _ => document [].

Definition three_pods : el :=
  catalogue_page [pod "A" good_price; pod "B" []; pod "C" [price_p [txt " 12.00 "]]].

(** Three products, the second without a price: two books, in document
    order, and one [log.error] event. *)
Example parse_page_three :
  parse_page no_parser (LayoutTag three_pods) =
  (inr [mkBook (lit "A") (pound ++ lit "37.34") true; mkBook (lit "C") (lit "12.00") true],
   [LogError (Exn MissingPriceError missing_price_msg)]).
Proof. vm_compute. reflexivity. Qed.

Lemma parse_page_ok_witness :
  parse_page no_parser (LayoutTag three_pods) =
  (inr (omap book_of (fragments three_pods)), omap skip_of (fragments three_pods)).
Proof. apply parse_page_ok, recoverableb_spec. vm_compute. reflexivity. Defined.

Definition empty_price_page : el :=
  catalogue_page [pod "A" good_price; pod "B" [price_p []]; pod "C" good_price].

(** The same page with an empty price instead: nothing is returned. *)
Example parse_page_empty_price :
  parse_page no_parser (LayoutTag empty_price_page) =
  (raise (Exn InvalidPriceError invalid_price_msg), []).
Proof. vm_compute. reflexivity. Qed.

Lemma parse_page_abort_witness :
  parse_page no_parser (LayoutTag empty_price_page) =
  (inl (Exn InvalidPriceError invalid_price_msg),
   omap skip_of (take 1 (fragments empty_price_page))).
Proof.
  eapply parse_page_abort.
  - vm_compute. reflexivity.
  - apply recoverableb_spec. vm_compute. reflexivity.
  - vm_compute. reflexivity.
  - left. reflexivity.
Defined.
