(* ===== verification/Transport.v ===== *)
(** * Transport: [get_page] of [src/transport.py] and its retry decorator

    One attempt of [get_page] requests
    [https://books.toscrape.com/catalogue/page-{page}.html], emits a debug
    event with the response's URL and status, raises [NotFoundError] on a
    404, raises [httpx.HTTPStatusError] on any other status outside 2xx
    ([resp.raise_for_status()]) and returns the body otherwise; the client
    itself may raise ([httpx.ConnectError], [httpx.TimeoutException], ...).

    [@stamina.retry(on=httpx.HTTPError, attempts=3)] calls the attempt up to
    three times: it retries while the attempt raises an instance of
    [httpx.HTTPError] and attempts remain, re-raises the last exception when
    they are exhausted, and lets every other exception through at once.
    Stamina's back-off and its total timeout are modelled in [Stamina].

    The network is an oracle: [net k] is what [client.get] does on the
    [k]-th attempt (from 0) of this call. The contract of the decorator,
    [retry_spec], is the interface [RetryCombinator]; [retry] implements
    it, and the theorems on [get_page] are proved against it
    ([get_page_with_run]), so that [Stamina]'s timed decorator inherits
    them. *)

From Stdlib Require Import ZArith Lia.
From S2P Require Import Prelude Exceptions Builtins.

(** ** Responses and the client *)

Record response := Response { status_code : Z; resp_text : pystr }.

(** What [await client.get(url)] does: return a response or raise. *)
Definition client_outcome : Type := exn + response.

(** [log.debug("HTTP GET request called", url=resp.url, status_code=...)];
    the client does not follow redirects, so [resp.url] is the request URL. *)
Inductive debug_event := HttpGet (url : pystr) (status : Z).

#[export] Instance debug_event_eq_dec : EqDecision debug_event.
Proof. solve_decision. Defined.

Definition page_url (page : Z) : pystr :=
  lit "https://books.toscrape.com/catalogue/page-" ++ str_Z page ++ lit ".html".

(** [httpx.codes.NOT_FOUND] *)
Definition NOT_FOUND : Z := 404.

(** [Response.is_success]: a 2xx status. *)
Definition is_success (code : Z) : bool := (200 <=? code)%Z && (code <? 300)%Z.

(** [resp.raise_for_status()]; the message (error type, reason phrase,
    URL) is not modelled, the exception carries the status. *)
Definition raise_for_status (r : response) : exn + unit :=
  if is_success (status_code r) then inr tt
  else raise (Exn HTTPStatusError (str_Z (status_code r))).

Definition not_found_msg : pystr := lit "The server have responded with 404 error".

(** ** One attempt *)

(** The result of one call of the undecorated [get_page] and its debug
    events. *)
Record attempt := Attempt { att_result : exn + pystr; att_events : list debug_event }.

Definition get_page_attempt (page : Z) (out : client_outcome) : attempt :=
  match out with
  | inl e => Attempt (inl e) []
  | inr resp =>
      let ev := [HttpGet (page_url page) (status_code resp)] in
      if (status_code resp =? NOT_FOUND)%Z
      then Attempt (raise (Exn NotFoundError not_found_msg)) ev
      else match raise_for_status resp with
           | inl e => Attempt (inl e) ev
           | inr _ => Attempt (inr (resp_text resp)) ev
           end
  end.

(** ** The retry decorator *)

(** [stamina.retry(on=on, attempts=S n)] around [call]: [k] numbers the
    attempt. It returns the result, the events of all attempts, and the
    number of attempts made. *)
Fixpoint retry (on : exn -> bool) (n k : nat) (call : nat -> attempt)
  : (exn + pystr) * list debug_event * nat :=
  let a := call k in
  match att_result a with
  | inr v => (inr v, att_events a, S O)
  | inl e =>
      match n with
      | O => (inl e, att_events a, S O)
      | S n' =>
          if on e then
            let '(r, ev, used) := retry on n' (S k) call in
            (r, att_events a ++ ev, S used)
          else (inl e, att_events a, S O)
      end
  end.

(** [on=httpx.HTTPError] *)
Definition is_http_error (e : exn) : bool := isinstance e HTTPError.

(** [attempts=3] *)
Definition get_page_attempts : nat := 3.

(** The decorated [get_page(client, page)]. *)
Definition get_page (net : nat -> client_outcome) (page : Z)
  : (exn + pystr) * list debug_event * nat :=
  retry is_http_error (get_page_attempts - 1) 0 (fun k => get_page_attempt page (net k)).

(** ** The contract of the retry decorator *)

(** An attempt ends the call when it returns or raises an exception that
    is not retried. *)
Definition final (on : exn -> bool) (a : attempt) : bool :=
  match att_result a with
  | inr _ => true
  | inl e => negb (on e)
  end.

(** The events of the attempts [k .. k + i]. *)
Definition events_upto (call : nat -> attempt) (k i : nat) : list debug_event :=
  flat_map (fun j => att_events (call j)) (seq k (S i)).

(** What the decorator promises: the call is the attempt [i] (counted
    from [k]), the first that ends the call or the last allowed one; the
    attempts before it were all retried. *)
Definition retry_spec (on : exn -> bool) (n k : nat) (call : nat -> attempt)
  (res : (exn + pystr) * list debug_event * nat) : Prop :=
  exists i, i <= n /\ (forall j, j < i -> final on (call (k + j)) = false) /\
    (final on (call (k + i)) = true \/ i = n) /\
    res = (att_result (call (k + i)), events_upto call k i, S i).

Lemma events_upto_S call k i :
  events_upto call k (S i) = att_events (call k) ++ events_upto call (S k) i.
Proof. done. Qed.

Lemma retry_spec_now on n k call res :
  (final on (call k) = true \/ n = 0) ->
  res = (att_result (call k), att_events (call k), 1) -> retry_spec on n k call res.
Proof.
  intros Hf ->. exists 0. split; [lia|]. split; [intros j Hj; lia|].
  rewrite Nat.add_0_r. split; [destruct Hf; auto|].
  unfold events_upto. cbn. by rewrite app_nil_r.
Qed.

Lemma retry_meets_spec on n k call : retry_spec on n k call (retry on n k call).
Proof.
  revert k. induction n as [|n IH]; intros k; cbn.
  { apply retry_spec_now; [by right|]. by destruct (att_result (call k)). }
  destruct (att_result (call k)) as [e|v] eqn:Hk.
  2:{ apply retry_spec_now; [left; unfold final; by rewrite Hk|by rewrite Hk]. }
  destruct (on e) eqn:Ho.
  2:{ apply retry_spec_now; [left; unfold final; by rewrite Hk, Ho|by rewrite Hk]. }
  destruct (IH (S k)) as (i & Hi & Hbefore & Hend & Hres).
  destruct (retry on n (S k) call) as [[r ev] used]. simplify_eq.
  exists (S i). split; [lia|]. split.
  { intros [|j] Hj; [rewrite Nat.add_0_r; unfold final; by rewrite Hk, Ho|].
    rewrite <- Nat.add_succ_comm. apply Hbefore. lia. }
  rewrite <- Nat.add_succ_comm. split; [destruct Hend; [by left|right; lia]|].
  by rewrite events_upto_S.
Qed.

(** ** The retry combinator as an interface

    The decorator is a retry combinator parameterised by the retried
    predicate and the attempt budget. [RetryCombinator m] is what such a
    combinator promises to its client [get_page] for the budgets up to
    [m] retries: [retry_spec]. [retry] implements it for every budget
    ([retry_combinator]); [Stamina] implements it with the decorator's
    clock when attempts are quick. The theorems on [get_page] are proved
    against the interface, in the section [Client]. *)
Class RetryCombinator (max_retries : nat) := {
  rc_run : (exn -> bool) -> nat -> nat -> (nat -> attempt) -> (exn + pystr) * list debug_event * nat;
  rc_contract on n k call : n <= max_retries -> retry_spec on n k call (rc_run on n k call)
}.

#[export] Instance retry_combinator m : RetryCombinator m :=
  {| rc_run := retry; rc_contract on n k call _ := retry_meets_spec on n k call |}.

(** ** [get_page] *)

(** A client outcome that [get_page] retries: an [httpx.HTTPError] from
    the client, or a response that is neither 2xx nor 404. *)
Definition transient (o : client_outcome) : bool :=
  match o with
  | inl e => isinstance e HTTPError
  | inr r => negb (is_success (status_code r)) && negb (status_code r =? NOT_FOUND)%Z
  end.

Lemma final_attempt page o :
  final is_http_error (get_page_attempt page o) = negb (transient o).
Proof.
  destruct o as [e|r]; [done|]. unfold get_page_attempt, final, transient, raise_for_status. cbn.
  destruct (status_code r =? NOT_FOUND)%Z; cbn; [by rewrite andb_false_r|].
  rewrite andb_true_r. by destruct (is_success (status_code r)).
Qed.

Section Client.
Context `{RC : RetryCombinator (get_page_attempts - 1)}.

(** [get_page] over any combinator that keeps the contract. *)
Definition get_page_with (net : nat -> client_outcome) (page : Z)
  : (exn + pystr) * list debug_event * nat :=
  rc_run is_http_error (get_page_attempts - 1) 0 (fun k => get_page_attempt page (net k)).

Lemma get_page_with_run net page :
  exists i, i < get_page_attempts /\ (forall j, j < i -> transient (net j) = true) /\
    (transient (net i) = false \/ i = 2) /\
    get_page_with net page = (att_result (get_page_attempt page (net i)),
                              events_upto (fun k => get_page_attempt page (net k)) 0 i, S i).
Proof.
  destruct (rc_contract is_http_error _ 0 (fun k => get_page_attempt page (net k)) (le_n _))
    as (i & Hi & Hbefore & Hend & Hres).
  exists i. split; [unfold get_page_attempts in *; lia|]. split.
  - intros j Hj. specialize (Hbefore j Hj). cbn in Hbefore.
    rewrite final_attempt in Hbefore. by apply negb_false_iff.
  - split; [|exact Hres]. destruct Hend as [He|He]; [left|by right].
    cbn in He. rewrite final_attempt in He. by apply negb_true_iff.
Qed.

End Client.

(** The decorated [get_page] is the client over [retry]. *)
Lemma get_page_run net page :
  exists i, i < get_page_attempts /\ (forall j, j < i -> transient (net j) = true) /\
    (transient (net i) = false \/ i = 2) /\
    get_page net page = (att_result (get_page_attempt page (net i)),
                         events_upto (fun k => get_page_attempt page (net k)) 0 i, S i).
Proof. exact (get_page_with_run (RC := retry_combinator _) net page). Qed.

(** An attempt logs at most one request line. *)
Lemma get_page_attempt_events page o : length (att_events (get_page_attempt page o)) <= 1.
Proof.
  destruct o as [e|r]; cbn; [lia|]. destruct (status_code r =? NOT_FOUND)%Z; cbn; [lia|].
  destruct (raise_for_status r); cbn; lia.
Qed.

(** What an attempt raises: the client's exception, [NotFoundError] or
    [HTTPStatusError]. *)
Lemma get_page_attempt_error page o e :
  att_result (get_page_attempt page o) = inl e ->
  o = inl e \/ exn_class e = NotFoundError \/ exn_class e = HTTPStatusError.
Proof.
  destruct o as [e'|r]; cbn; [intros [= ->]; by left|].
  destruct (status_code r =? NOT_FOUND)%Z; cbn; [intros [= <-]; by right; left|].
  unfold raise_for_status. destruct (is_success _); cbn; [done|]. intros [= <-]. by right; right.
Qed.

Lemma events_upto_length call k i :
  (forall j, length (att_events (call j)) <= 1) -> length (events_upto call k i) <= S i.
Proof.
  intros Hc. revert k. induction i as [|i IH]; intros k.
  - unfold events_upto. cbn. rewrite app_nil_r. apply Hc.
  - rewrite events_upto_S, length_app. specialize (Hc k). specialize (IH (S k)). lia.
Qed.

(** [get_page] raises the client's exception, [NotFoundError] or
    [HTTPStatusError], and logs at most one line per attempt. *)
Lemma get_page_error net page e dbg k :
  get_page net page = (inl e, dbg, k) ->
  (exists i, net i = inl e) \/ exn_class e = NotFoundError \/ exn_class e = HTTPStatusError.
Proof.
  destruct (get_page_run net page) as (i & _ & _ & _ & ->). intros [= He _ _].
  destruct (get_page_attempt_error page (net i) e He) as [H|H]; [left; by exists i|by right].
Qed.

Lemma get_page_events net page r dbg k :
  get_page net page = (r, dbg, k) -> length dbg <= get_page_attempts.
Proof.
  destruct (get_page_run net page) as (i & Hi & _ & _ & ->). intros [= _ <- _].
  pose proof (events_upto_length (fun k => get_page_attempt page (net k)) 0 i
                (fun j => get_page_attempt_events page (net j))). lia.
Qed.

(** C18: [get_page] is the first attempt among three whose outcome is not
    transient, or the third one; the attempts before it were retried. *)
Theorem get_page_spec net page :
  exists i, i < get_page_attempts /\ (forall j, j < i -> transient (net j) = true) /\
    (transient (net i) = false \/ i = 2) /\
    get_page net page = (att_result (get_page_attempt page (net i)),
                         events_upto (fun k => get_page_attempt page (net k)) 0 i, S i).
Proof. exact (get_page_run net page). Qed.

(** [get_page] always ends, after one to three attempts. *)
Theorem get_page_attempts_bound net page r ev used :
  get_page net page = (r, ev, used) -> 1 <= used <= get_page_attempts.
Proof.
  destruct (get_page_run net page) as (i & Hi & _ & _ & ->). intros [= _ _ <-]. lia.
Qed.

(** C29: A 404 on the first attempt raises [NotFoundError] and is not retried. *)
Theorem get_page_not_found net page resp :
  net 0 = inr resp -> status_code resp = NOT_FOUND ->
  get_page net page = (raise (Exn NotFoundError not_found_msg), [HttpGet (page_url page) NOT_FOUND], 1).
Proof.
  intros Hn Hs. unfold get_page. cbn. rewrite Hn. cbn. rewrite Hs. done.
Qed.

(** What [get_page] returns is the body of a 2xx response, unmodified. *)
Theorem get_page_body net page t ev used :
  get_page net page = (inr t, ev, used) ->
  exists resp, net (used - 1) = inr resp /\ is_success (status_code resp) = true /\ t = resp_text resp.
Proof.
  destruct (get_page_run net page) as (i & _ & _ & _ & ->). intros [= Ht _ <-].
  replace (S i - 1) with i by lia. unfold get_page_attempt in Ht.
  destruct (net i) as [e|resp]; [done|]. exists resp. split; [done|].
  destruct (status_code resp =? NOT_FOUND)%Z; [by cbn in Ht|]. unfold raise_for_status in Ht.
  destruct (is_success (status_code resp)); cbn in Ht; by simplify_eq.
Qed.

(** C30: Three transient outcomes exhaust the budget: the third attempt's
    exception is raised. *)
Theorem get_page_exhausted net page :
  transient (net 0) = true -> transient (net 1) = true -> transient (net 2) = true ->
  exists e, get_page net page = (inl e, events_upto (fun k => get_page_attempt page (net k)) 0 2, 3) /\
            att_result (get_page_attempt page (net 2)) = inl e /\ isinstance e HTTPError = true.
Proof.
  intros H0 H1 H2. destruct (get_page_run net page) as (i & Hi & Hbefore & Hend & ->).
  unfold get_page_attempts in Hi.
  assert (i = 2) as ->.
  { destruct Hend as [He|]; [|done].
    destruct i as [|[|[|i]]]; [congruence|congruence|congruence|lia]. }
  pose proof (final_attempt page (net 2)) as Hf. rewrite H2 in Hf. unfold final in Hf.
  destruct (att_result (get_page_attempt page (net 2))) as [e|v]; [|done].
  exists e. split; [done|]. split; [done|]. by apply negb_false_iff.
Qed.

(** Every request of [get_page] is for the URL of its page. *)
Theorem get_page_urls net page r ev used :
  get_page net page = (r, ev, used) ->
  Forall (fun d => match d with HttpGet u _ => u = page_url page end) ev.
Proof.
  destruct (get_page_run net page) as (i & _ & _ & _ & ->). intros [= _ <- _].
  unfold events_upto. apply Forall_forall. intros d (j & _ & Hd)%list_elem_of_In%in_flat_map.
  unfold get_page_attempt in Hd. destruct (net j) as [e|resp]; [by cbn in Hd|].
  destruct (status_code resp =? NOT_FOUND)%Z; [|destruct (raise_for_status resp)];
    cbn in Hd; destruct Hd as [<-|[]]; done.
Qed.

(** Distinct pages are requested at distinct URLs: the page number can be
    read back from the URL. *)
Theorem page_url_inj p1 p2 : page_url p1 = page_url p2 -> p1 = p2.
Proof.
  unfold page_url. intros H. apply app_inv_head in H.
  apply app_inv_tail in H. by apply str_Z_inj.
Qed.

(** ** Witnesses *)

Definition ok_response : response := Response 200 (lit "<html></html>").
Definition busy_response : response := Response 503 [].
Definition missing_response : response := Response 404 [].

(** Two server errors, then a page. *)
Definition flaky_net (k : nat) : client_outcome :=
  match k with 0 | 1 => inr busy_response | _ => inr ok_response end.

Example get_page_flaky :
  get_page flaky_net 2 =
  (inr (lit "<html></html>"),
   [HttpGet (page_url 2) 503; HttpGet (page_url 2) 503; HttpGet (page_url 2) 200], 3).
Proof. vm_compute. reflexivity. Qed.

Definition down_net (k : nat) : client_outcome :=
  inl (Exn ConnectError (lit "[Errno 111] Connection refused")).

Lemma get_page_attempts_bound_witness :
  1 <= 3 <= get_page_attempts.
Proof.
  apply (get_page_attempts_bound down_net 5 (inl (Exn ConnectError (lit "[Errno 111] Connection refused"))) []).
  vm_compute. reflexivity.
Defined.

Lemma get_page_not_found_witness :
  get_page (fun _ => inr missing_response) 51 =
  (raise (Exn NotFoundError not_found_msg), [HttpGet (page_url 51) NOT_FOUND], 1).
Proof. apply (get_page_not_found _ _ missing_response); reflexivity. Defined.

Lemma get_page_body_witness :
  exists resp, flaky_net (3 - 1) = inr resp /\ is_success (status_code resp) = true /\
               lit "<html></html>" = resp_text resp.
Proof.
  apply (get_page_body flaky_net 2 _
    [HttpGet (page_url 2) 503; HttpGet (page_url 2) 503; HttpGet (page_url 2) 200]).
  vm_compute. reflexivity.
Defined.

Lemma get_page_exhausted_witness :
  exists e, get_page down_net 7 = (inl e, events_upto (fun k => get_page_attempt 7 (down_net k)) 0 2, 3) /\
            att_result (get_page_attempt 7 (down_net 2)) = inl e /\ isinstance e HTTPError = true.
Proof. apply get_page_exhausted; vm_compute; reflexivity. Defined.

Lemma get_page_urls_witness :
  Forall (fun d => match d with HttpGet u _ => u = page_url 2 end)
    [HttpGet (page_url 2) 503; HttpGet (page_url 2) 503; HttpGet (page_url 2) 200].
Proof.
  apply (get_page_urls flaky_net 2 (inr (lit "<html></html>")) _ 3). vm_compute. reflexivity.
Defined.

Lemma page_url_inj_witness : 12%Z = 12%Z.
Proof. apply page_url_inj. reflexivity. Defined.
