(* ===== verification/Stamina.v ===== *)
(** * Stamina: the timing of [@stamina.retry] around [get_page]

    [Transport] models the decorator [@stamina.retry(on=httpx.HTTPError,
    attempts=3)] of [src/transport.py] by its attempt budget. The decorator
    has two more parameters that the code leaves at stamina's defaults:
    [timeout=45.0] seconds for the whole call and an exponential back-off
    between attempts, [wait_initial=0.1], [wait_exp_base=2],
    [wait_jitter=1.0], [wait_max=5.0] seconds. After a failed attempt
    number [i] (counted from 1) it re-raises when the exception is not
    retried, when [i] attempts have been made, or when the time since the
    first attempt started is at least the timeout; otherwise it sleeps
    [min(wait_max, wait_initial * wait_exp_base ** (i - 1) + jitter)] with
    [jitter] drawn from [0, wait_jitter], and tries again.

    Time is in milliseconds; the duration of attempt [k] and the jitter
    drawn after it are oracles [dur] and [jit], like the network.
    [timed_retry] is the decorator with its clock. The theorems: when the
    attempts take at most 11.6 s the 45 s timeout never fires and
    [timed_retry] is [retry] ([timed_retry_fast], so every theorem of [Transport] and
    [Crawl] holds of the timed decorator on such a network); a call makes
    at most three attempts and ends within three attempt durations plus
    2.3 s of sleep ([get_page_timed_bounds]); a first attempt slower than
    the timeout is not retried ([get_page_timed_slow]). On such a quick
    network the timed decorator is an instance of [Transport]'s interface
    [RetryCombinator] ([stamina_combinator]), and [get_page_timed_run] is
    [Transport]'s client theorem applied to it. *)

From Stdlib Require Import ZArith Lia.
From S2P Require Import Prelude Exceptions Builtins Transport.

Open Scope Z_scope.

(** ** Stamina's defaults, in milliseconds *)

Definition wait_initial : Z := 100.
Definition wait_max : Z := 5000.
Definition wait_jitter : Z := 1000.
Definition wait_exp_base : Z := 2.
Definition timeout : Z := 45000.

(** The sleep after the failed attempt number [i] (from 1), with the
    jitter [j] drawn in [0, wait_jitter]. *)
Definition backoff (i : nat) (j : Z) : Z :=
  Z.max 0 (Z.min wait_max (wait_initial * wait_exp_base ^ (Z.of_nat i - 1) + j)).

(** ** The decorator with its clock *)

(** [n] retries are left, [k] numbers the attempt, [t] is the time since
    the first attempt started. The result, the events of the attempts,
    the number of attempts and the time at which the call ends. *)
Fixpoint timed_retry (on : exn -> bool) (n k : nat) (call : nat -> attempt)
  (dur jit : nat -> Z) (t : Z) : (exn + pystr) * list debug_event * nat * Z :=
  let a := call k in
  let t' := t + dur k in
  match att_result a with
  | inr v => (inr v, att_events a, 1%nat, t')
  | inl e =>
      match n with
      | O => (inl e, att_events a, 1%nat, t')
      | S n' =>
          if on e && (t' <? timeout) then
            let '(r, ev, used, tend) := timed_retry on n' (S k) call dur jit (t' + backoff (S k) (jit k)) in
            (r, att_events a ++ ev, S used, tend)
          else (inl e, att_events a, 1%nat, t')
      end
  end.

Definition get_page_timed (net : nat -> client_outcome) (dur jit : nat -> Z) (page : Z)
  : (exn + pystr) * list debug_event * nat * Z :=
  timed_retry is_http_error (get_page_attempts - 1) 0 (fun k => get_page_attempt page (net k)) dur jit 0.

(** The result without the clock. *)
Definition untimed (x : (exn + pystr) * list debug_event * nat * Z) : (exn + pystr) * list debug_event * nat :=
  let '(r, ev, used, _) := x in (r, ev, used).

(** ** Lemmas *)

Lemma backoff_bounds i j : 0 <= j <= wait_jitter ->
  0 <= backoff i j <= wait_max /\ backoff i j <= wait_initial * wait_exp_base ^ (Z.of_nat i - 1) + j.
Proof.
  intros Hj. unfold backoff.
  pose proof (Z.pow_nonneg wait_exp_base (Z.of_nat i - 1) ltac:(unfold wait_exp_base; lia)).
  unfold wait_max, wait_initial in *. lia.
Qed.

Lemma backoff_max i j : backoff i j <= wait_max.
Proof. unfold backoff, wait_max. lia. Qed.

(** Once the timeout cannot fire, the decorator is the untimed loop. *)
Lemma timed_retry_untimed on n k call dur jit t D :
  (forall j, 0 <= dur j <= D) ->
  t + Z.of_nat (S n) * D + Z.of_nat n * wait_max < timeout ->
  untimed (timed_retry on n k call dur jit t) = retry on n k call.
Proof.
  revert k t. induction n as [|n IH]; intros k t Hd Ht; cbn.
  - by destruct (att_result (call k)).
  - destruct (att_result (call k)) as [e|v]; [|done].
    destruct (on e); cbn; [|done].
    pose proof (Hd k). pose proof (backoff_max (S k) (jit k)).
    rewrite !Nat2Z.inj_succ in Ht. rewrite Nat2Z.inj_succ in IH.
    assert (0 <= Z.of_nat n * D) by (apply Z.mul_nonneg_nonneg; lia).
    unfold timeout, wait_max in *.
    rewrite (proj2 (Z.ltb_lt _ _)) by nia.
    specialize (IH (S k) (t + dur k + backoff (S k) (jit k)) Hd ltac:(nia)).
    destruct (timed_retry on n (S k) call dur jit _) as [[[r ev] used] tend].
    destruct (retry on n (S k) call) as [[r' ev'] used']. cbn in IH. by simplify_eq.
Qed.

(** ** The timed decorator as a retry combinator

    On a network whose attempts take at most [D] ms, with [3 D + 10 s]
    under the timeout, the timed decorator keeps the contract of
    [RetryCombinator] for [get_page]'s budget, so the theorems that
    [Transport] proves against the interface hold of it. *)

Section Timed.
Context (dur jit : nat -> Z) (D : Z).
Hypothesis Hdur : forall j, 0 <= dur j <= D.
Hypothesis HD : 3 * D + 2 * wait_max < timeout.

Definition stamina_run (on : exn -> bool) (n k : nat) (call : nat -> attempt)
  : (exn + pystr) * list debug_event * nat :=
  untimed (timed_retry on n k call dur jit 0).

Lemma stamina_contract on n k call :
  (n <= get_page_attempts - 1)%nat -> retry_spec on n k call (stamina_run on n k call).
Proof.
  intros Hn. unfold stamina_run. rewrite (timed_retry_untimed _ _ _ _ _ _ _ D Hdur).
  - apply retry_meets_spec.
  - pose proof (Hdur 0%nat). cbn in Hn. unfold wait_max, timeout in *.
    destruct n as [|[|[|n]]]; cbn; lia.
Qed.

Definition stamina_combinator : RetryCombinator (get_page_attempts - 1) :=
  {| rc_run := stamina_run; rc_contract := stamina_contract |}.

(** The client theorem of [Transport], over the timed decorator. *)
Lemma get_page_timed_run net page :
  exists i, (i < get_page_attempts)%nat /\ (forall j, (j < i)%nat -> transient (net j) = true) /\
    (transient (net i) = false \/ i = 2%nat) /\
    untimed (get_page_timed net dur jit page) =
      (att_result (get_page_attempt page (net i)),
       events_upto (fun k => get_page_attempt page (net k)) 0 i, S i).
Proof. exact (get_page_with_run (RC := stamina_combinator) net page). Qed.

End Timed.

(** ** Theorems *)

(** C19: When every attempt takes at most 11.6 s, stamina's 45 s timeout never
    fires (three attempts and two sleeps of at most 1.1 s and 1.2 s end
    before it), and the timed decorator returns what the untimed model
    [get_page] of [Transport] returns, with the same events and number of
    attempts. *)
Theorem timed_retry_fast net dur jit page :
  (forall j, 0 <= dur j <= 11600) ->
  untimed (get_page_timed net dur jit page) = get_page net page.
Proof.
  intros Hd. apply (timed_retry_untimed _ _ _ _ _ _ _ 11600 Hd). cbn. unfold wait_max, timeout. lia.
Qed.

(** C20: Bounds: with attempts of at most [D] ms and jitters in
    [0, 1 s], [get_page] makes one to three attempts and ends at most
    [3 D + 2.3 s] after it started (sleeps of at most 1.1 s and 1.2 s). *)
Theorem get_page_timed_bounds net dur jit page D r ev used tend :
  (forall j, 0 <= dur j <= D) -> (forall j, 0 <= jit j <= wait_jitter) ->
  get_page_timed net dur jit page = (r, ev, used, tend) ->
  (1 <= used <= 3)%nat /\ 0 <= tend <= 3 * D + 2300.
Proof.
  intros Hd Hj. unfold get_page_timed. cbn [get_page_attempts Nat.sub timed_retry].
  pose proof (Hd 0%nat). pose proof (Hd 1%nat). pose proof (Hd 2%nat).
  pose proof (backoff_bounds 1 (jit 0%nat) (Hj 0%nat)) as [B1 B1'].
  pose proof (backoff_bounds 2 (jit 1%nat) (Hj 1%nat)) as [B2 B2'].
  pose proof (Hj 0%nat). pose proof (Hj 1%nat).
  unfold wait_max, wait_jitter, wait_initial, wait_exp_base in *. cbn in B1', B2'.
  destruct (att_result _) as [e0|v0]; [|intros [= <- <- <- <-]; lia].
  destruct (is_http_error e0 && _); cbn; [|intros [= <- <- <- <-]; lia].
  destruct (att_result _) as [e1|v1]; [|intros [= <- <- <- <-]; lia].
  destruct (is_http_error e1 && _); cbn; [|intros [= <- <- <- <-]; lia].
  destruct (att_result _) as [e2|v2]; intros [= <- <- <- <-]; lia.
Qed.

(** C31: A first attempt that fails with a retried error after the 45 s
    timeout is not retried: the call raises after one attempt, although
    the attempt budget is three. *)
Theorem get_page_timed_slow net dur jit page e :
  att_result (get_page_attempt page (net 0%nat)) = inl e -> timeout <= dur 0%nat ->
  get_page_timed net dur jit page =
  (inl e, att_events (get_page_attempt page (net 0%nat)), 1%nat, dur 0%nat).
Proof.
  intros He Hd. unfold get_page_timed. cbn [get_page_attempts Nat.sub timed_retry]. rewrite He.
  rewrite (proj2 (Z.ltb_ge _ _)) by (unfold timeout in *; lia). rewrite andb_false_r. done.
Qed.

(** ** Witnesses *)

Definition quick (k : nat) : Z := 2000.
Definition half_jitter (k : nat) : Z := 500.

(** The flaky network of [Transport] with attempts of 2 s: page 2 after
    two retries, at 2 + 0.6 + 2 + 0.7 + 2 = 7.3 s. *)
Example get_page_timed_flaky :
  get_page_timed flaky_net quick half_jitter 2 =
  (inr (lit "<html></html>"),
   [HttpGet (page_url 2) 503; HttpGet (page_url 2) 503; HttpGet (page_url 2) 200], 3%nat, 7300).
Proof. vm_compute. reflexivity. Qed.

Lemma timed_retry_fast_witness :
  untimed (get_page_timed flaky_net quick half_jitter 2) = get_page flaky_net 2.
Proof. apply timed_retry_fast. intros j. unfold quick. lia. Defined.

Lemma get_page_timed_bounds_witness :
  (1 <= (get_page_timed flaky_net quick half_jitter 2).1.2 <= 3)%nat /\
  0 <= (get_page_timed flaky_net quick half_jitter 2).2 <= 3 * 2000 + 2300.
Proof.
  apply (get_page_timed_bounds flaky_net quick half_jitter 2 2000
           (get_page_timed flaky_net quick half_jitter 2).1.1.1
           (get_page_timed flaky_net quick half_jitter 2).1.1.2).
  - intros j. unfold quick. lia.
  - intros j. unfold half_jitter, wait_jitter. lia.
  - vm_compute. reflexivity.
Defined.

Definition slow (k : nat) : Z := 50000.

Lemma get_page_timed_slow_witness :
  get_page_timed flaky_net slow half_jitter 2 =
  (inl (Exn HTTPStatusError (str_Z 503)), [HttpGet (page_url 2) 503], 1%nat, 50000).
Proof. apply get_page_timed_slow; [vm_compute; reflexivity|unfold timeout, slow; lia]. Defined.
