(* ===== verification/Sink.v ===== *)
(** * Sink: [src/mongo.py], the persistence of books

    [book_to_model] turns a [Book] into a [BookModel] document stamped with
    the parse date; [insert_books] stamps every book of a batch with one
    [datetime.now()], calls [BookModel.insert_many(entities, ordered=False)]
    and logs the count.

    The collection is a list of documents in insertion order.
    [insert_many] is Beanie's, which hands the list to
    [pymongo]'s [Collection.insert_many]; pymongo refuses an empty list
    with [TypeError("documents must be a non-empty list")]. With no unique
    index on the collection, a non-empty batch is inserted whole. The
    connection itself ([init_beanie], [MONGODB_URI]) is not modelled. *)

From Stdlib Require Import ZArith.
From S2P Require Import Prelude Exceptions Builtins Book.

(** ** Documents *)

(** [BookModel]; [parse_date] is the [datetime] as a timestamp. *)
Record BookModel := mkBookModel {
  m_title : pystr; m_price : pystr; m_in_stock : bool; m_parse_date : Z }.

#[export] Instance BookModel_eq_dec : EqDecision BookModel.
Proof. solve_decision. Defined.

Definition book_to_model (book : Book) (date : Z) : BookModel :=
  mkBookModel (title book) (price book) (available book) date.

(** ** Inserting *)

Definition empty_documents_msg : pystr := lit "documents must be a non-empty list".

(** [Collection.insert_many(documents, ordered=False)] on the collection
    [db]. *)
Definition insert_many (entities : list BookModel) (db : list BookModel) : exn + list BookModel :=
  match entities with
  | [] => raise (Exn TypeError empty_documents_msg)
  | _ :: _ => inr (db ++ entities)
  end.

(** [log.info(f"Inserted {len(entities)} books")] *)
Definition inserted_msg (n : nat) : pystr :=
  lit "Inserted " ++ str_N (N.of_nat n) ++ lit " books".

(** [insert_books(books)] with [datetime.now()] = [now]: the new
    collection and the info message, or the exception. *)
Definition insert_books (now : Z) (books : list Book) (db : list BookModel)
  : exn + (list BookModel * pystr) :=
  let entities := map (fun b => book_to_model b now) books in
  db' <- insert_many entities db;;
  inr (db', inserted_msg (length entities)).

(** ** Theorems *)

Lemma insert_books_append now books db :
  books <> [] ->
  insert_books now books db =
  inr (db ++ map (fun b => book_to_model b now) books, inserted_msg (length books)).
Proof.
  intros Hb. unfold insert_books, insert_many.
  destruct books as [|b books]; [done|]. by rewrite length_map.
Qed.

(** A non-empty batch is appended whole, in order, every document stamped
    with the same date and carrying the book's fields. *)
Theorem insert_books_ok now books db :
  books <> [] ->
  insert_books now books db =
  inr (db ++ map (fun b => book_to_model b now) books, inserted_msg (length books)).
Proof. exact (insert_books_append now books db). Qed.

(** An empty batch makes [insert_many] raise [TypeError]. *)
Theorem insert_books_empty now db :
  insert_books now [] db = raise (Exn TypeError empty_documents_msg).
Proof. done. Qed.

(** The only exception of [insert_books] is pymongo's [TypeError]. *)
Lemma insert_books_error now books db e :
  insert_books now books db = inl e -> e = Exn TypeError empty_documents_msg.
Proof. unfold insert_books, insert_many. destruct books; cbn; [by intros [= <-]|done]. Qed.

(** The documents keep the book: [book_to_model] loses nothing but adds
    the date. *)
Lemma book_to_model_inj b1 b2 d : book_to_model b1 d = book_to_model b2 d -> b1 = b2.
Proof. destruct b1, b2. unfold book_to_model. cbn. intros [= -> -> ->]. done. Qed.

Lemma insert_books_ok_witness :
  insert_books 1700000000 [mkBook (lit "A") (lit "1.00") true] [] =
  inr ([mkBookModel (lit "A") (lit "1.00") true 1700000000], inserted_msg 1).
Proof. apply insert_books_ok. discriminate. Defined.
