(* ===== verification/Crawl.v ===== *)
(** * Crawl: [scrape_page] and [main] of [src/main.py], the orchestrator

    [main] fetches page 1, parses it, inserts its books, then (inside
    [try ... except MissingCriticalElementError]) reads the pager
    [.pager li.current], computes the page count [cunt] and runs
    [asyncio.gather] over the tasks [scrape_page(client, page)] for [page] in
    [range(1, cunt)];
    [scrape_page(client, page)] fetches page [page + 1], parses and inserts it.

    The collaborators of the crawl (the HTML parser, the network, the clock
    and the database connection) form the environment [crawl_env]. Phase 1
    is a function ([main_start]) of the environment: [main] connects to the
    database (which raises, or holds documents already), fetches, parses
    and appends page 1, and runs its [try] block ([main_try]). Phase 2 is a step relation ([step])
    over the gather: a running task completes (its body is atomic with
    respect to the shared collection, which it only touches by its final
    insert), or fails. A failure makes [gather] raise at once; [main] then
    leaves the [async with] block and [asyncio.run] cancels the tasks still
    pending, some of which may still complete while the client closes
    ([step_late_ok]). [Gather] proves the properties of this relation;
    [Interleave] refines it by a model in which the tasks interleave at
    every [await].

    This file also holds the theorems on phase 1 and a small shop of three
    pages ([shop]) on which the witnesses run the crawl. *)


From Stdlib Require Import ZArith Lia Permutation.
From S2P Require Import Prelude Exceptions Builtins Dom Pager Book Page Transport Sink.

(** ** Events and states *)

Inductive event :=
  | EvInfo (msg : pystr)
  | EvDebug (d : debug_event)
  | EvPage (l : log_event)
  | EvCritical (e : exn).

(** How [main] ends. *)
Inductive outcome :=
  | Returned
  | Raised (e : exn).

Inductive status :=
  | Running
  | Failed (e : exn)
  | Finished (o : outcome).

Record crawl_state := CS {
  cs_pending : list Z;
  cs_store : list BookModel;
  cs_log : list event;
  cs_status : status }.

(** [range(a, b)] *)
Definition py_range (a b : Z) : list Z :=
  map (fun k => a + Z.of_nat k)%Z (seq 0 (Z.to_nat (b - a))).

Definition missing_pager_msg : pystr := lit "can't find li.current".

(** The [log.debug("HTTP GET request called", ...)] lines of a log: one
    per response received. *)
Definition http_line (ev : event) : nat := match ev with EvDebug _ => 1 | _ => 0 end.

(** [client.db_name]: Motor's attribute access selects the database whose
    name is the attribute's, ["db_name"]. *)
Definition db_name : pystr := lit "db_name".

(** The collaborators of the crawl. *)
Record crawl_env := CrawlEnv {
  (** [BeautifulSoup(txt, "html.parser")] *)
  html_parser : pystr -> el;
  (** What [client.get] does on attempt [k] for page [p]. *)
  net : Z -> nat -> client_outcome;
  (** [datetime.now()] when the books of page [p] are inserted. *)
  clock : Z -> Z;
  (** [AsyncIOMotorClient(MONGODB_URI)] and [init_beanie(database=d,
      ...)] on the database named [d]: the exception the connection
      raises, or the documents the collection of [BookModel] already
      holds in that database. *)
  db_open : pystr -> exn + list BookModel }.

Section Crawl.

Context (E : crawl_env).

(** ** [scrape_page] *)

(** Fetch, parse and insert page [page + 1] into the collection [db]. *)
Definition scrape_page (page : Z) (db : list BookModel) : (exn + list BookModel) * list event :=
  let ev0 := [EvInfo (lit "Scraping page")] in
  let '(r, dbg, _) := get_page (net E (page + 1)) (page + 1) in
  let ev1 := ev0 ++ map EvDebug dbg in
  match r with
  | inl e => (inl e, ev1)
  | inr txt =>
      let '(pr, plog) := parse_page (html_parser E) (LayoutTag (html_parser E txt)) in
      let ev2 := ev1 ++ map EvPage plog in
      match pr with
      | inl e => (inl e, ev2)
      | inr books =>
          match insert_books (clock E (page + 1)) books db with
          | inl e => (inl e, ev2)
          | inr (db', msg) => (inr db', ev2 ++ [EvInfo msg])
          end
      end
  end.

(** ** The handler of [main]'s [try] *)

Definition handle_main (e : exn) (st : crawl_state) : crawl_state :=
  if isinstance e MissingCriticalElementError
  then CS [] (cs_store st) (cs_log st ++ [EvCritical e]) (Finished Returned)
  else CS [] (cs_store st) (cs_log st) (Finished (Raised e)).

(** ** Phase 1 *)

(** The [try] block of [main]: read the pager of page 1 and gather the
    tasks of [range(1, cunt)]; [st] is the state after page 1 is stored. *)
Definition main_try (soup : el) (st : crawl_state) : crawl_state :=
  match select_one sel_pager_current soup with
  | None => handle_main (Exn MissingCriticalElementError missing_pager_msg) st
  | Some cur =>
      match parse_pages_count (strip (text cur)) with
      | inl e => handle_main e st
      | inr cunt => CS (py_range 1 cunt) (cs_store st) (cs_log st) Running
      end
  end.

Definition main_start : crawl_state :=
  let ev_db := [EvInfo (lit "Connecting to database")] in
  match db_open E db_name with
  | inl e => CS [] [] ev_db (Finished (Raised e))
  | inr db0 =>
  let ev0 := ev_db ++ [EvInfo (lit "Starting the parsing process")] in
  let '(r, dbg, _) := get_page (net E 1) 1 in
  let ev1 := ev0 ++ map EvDebug dbg in
  match r with
  | inl e => CS [] db0 ev1 (Finished (Raised e))
  | inr txt =>
      let soup := html_parser E txt in
      let '(pr, plog) := parse_page (html_parser E) (LayoutTag soup) in
      let ev2 := ev1 ++ map EvPage plog in
      match pr with
      | inl e => CS [] db0 ev2 (Finished (Raised e))
      | inr books =>
          match insert_books (clock E 1) books db0 with
          | inl e => CS [] db0 ev2 (Finished (Raised e))
          | inr (db, msg) => main_try soup (CS [] db (ev2 ++ [EvInfo msg]) Running)
          end
      end
  end
  end.

(** ** Phase 2: the gather *)

Inductive step : crawl_state -> crawl_state -> Prop :=
  | step_ok pre p post store log db' ev :
      scrape_page p store = (inr db', ev) ->
      step (CS (pre ++ p :: post) store log Running) (CS (pre ++ post) db' (log ++ ev) Running)
  | step_fail pre p post store log e ev :
      scrape_page p store = (inl e, ev) ->
      step (CS (pre ++ p :: post) store log Running) (CS (pre ++ post) store (log ++ ev) (Failed e))
  | step_done store log :
      step (CS [] store log Running) (CS [] store log (Finished Returned))
  | step_late_ok pre p post store log db' ev e :
      scrape_page p store = (inr db', ev) ->
      step (CS (pre ++ p :: post) store log (Failed e)) (CS (pre ++ post) db' (log ++ ev) (Failed e))
  | step_cancel pending store log e :
      step (CS pending store log (Failed e)) (handle_main e (CS [] store log (Failed e))).

(** ** Facts on the tasks *)

(** What task [p] inserts, computed on an empty collection. *)
Definition task_result (p : Z) : exn + list BookModel := (scrape_page p []).1.

Definition batch (p : Z) : list BookModel :=
  match task_result p with inr b => b | inl _ => [] end.

Definition succeeds (p : Z) : bool :=
  match task_result p with inr _ => true | inl _ => false end.

(** A task only appends to the collection, whatever it holds. *)
Lemma scrape_page_frame p db :
  scrape_page p db =
  (match task_result p with inr b => inr (db ++ b) | inl e => inl e end, (scrape_page p []).2).
Proof.
  unfold task_result, scrape_page.
  destruct (get_page (net E (p + 1)) (p + 1)) as [[[e|txt] dbg] used]; [done|].
  destruct (parse_page (html_parser E) (LayoutTag (html_parser E txt))) as [[e|books] plog]; [done|].
  unfold insert_books, insert_many.
  destruct (map (fun b => book_to_model b (clock E (p + 1))) books); [done|]. done.
Qed.

Lemma scrape_ok p db db' ev :
  scrape_page p db = (inr db', ev) -> succeeds p = true /\ db' = db ++ batch p.
Proof.
  rewrite scrape_page_frame. unfold succeeds, batch.
  destruct (task_result p); [done|]. intros [= <- _]. done.
Qed.

Lemma scrape_fail p db e ev : scrape_page p db = (inl e, ev) -> task_result p = inl e.
Proof. rewrite scrape_page_frame. destruct (task_result p); [|done]. by intros [= ->]. Qed.

Lemma scrape_total p db : exists r ev, scrape_page p db = (r, ev).
Proof. destruct (scrape_page p db). eauto. Qed.

(** A page that downloads and parses to a non-empty list of books is a
    task that succeeds, and its batch is that list stamped with the
    page's date. *)
Lemma task_batch p txt dbg k books plog :
  get_page (net E (p + 1)) (p + 1) = (inr txt, dbg, k) ->
  parse_page (html_parser E) (LayoutTag (html_parser E txt)) = (inr books, plog) -> books <> [] ->
  succeeds p = true /\ batch p = map (fun b => book_to_model b (clock E (p + 1))) books.
Proof.
  intros H1 H2 Hb. unfold succeeds, batch, task_result, scrape_page.
  rewrite H1; cbn -[parse_page insert_books html_parser]; rewrite H2.
  by rewrite insert_books_append.
Qed.

(** The network raises no [MissingCriticalElementError]: [client.get]
    raises [httpx] exceptions. *)
Definition net_not_critical : Prop :=
  forall p k e, net E p k = inl e -> isinstance e MissingCriticalElementError = false.

Lemma class_not_critical c m :
  c ∈ [NotFoundError; HTTPStatusError; TypeError] ->
  isinstance (Exn c m) MissingCriticalElementError = false.
Proof. intros Hc. repeat (apply elem_of_cons in Hc as [->|Hc]; [by vm_compute|]). by apply elem_of_nil in Hc. Qed.

(** A page task never raises what [main] catches: its exceptions come from
    the network, [get_page], [parse_page] or [insert_books]. *)
Lemma task_result_not_critical p e :
  net_not_critical -> task_result p = inl e -> isinstance e MissingCriticalElementError = false.
Proof.
  intros Hnet Hr. unfold task_result, scrape_page in Hr.
  destruct (get_page (net E (p + 1)) (p + 1)) as [[[e'|txt] dbg] used] eqn:Hg; cbn -[parse_page insert_books] in Hr.
  { injection Hr as ->. destruct e as [c m].
    destruct (get_page_error _ _ _ _ _ Hg) as [[i Hi]|[Hc|Hc]]; [exact (Hnet _ _ _ Hi)| |];
      cbn in Hc; subst c; apply class_not_critical; set_solver. }
  destruct (parse_page (html_parser E) (LayoutTag (html_parser E txt))) as [[e'|books] plog] eqn:Hp;
    cbn -[parse_page insert_books] in Hr.
  { injection Hr as ->. exact (parse_page_not_critical _ _ _ _ Hp). }
  destruct (insert_books (clock E (p + 1)) books []) as [e'|[db' msg]] eqn:Hi; cbn -[insert_books] in Hr; [|done].
  injection Hr as ->. rewrite (insert_books_error _ _ _ _ Hi). apply class_not_critical. set_solver.
Qed.

Lemma http_debug dbg : sum_list_with http_line (map EvDebug dbg) = length dbg.
Proof. induction dbg as [|d dbg IH]; cbn; lia. Qed.

Lemma http_page plog : sum_list_with http_line (map EvPage plog) = 0.
Proof. induction plog as [|l plog IH]; cbn; lia. Qed.

(** Phase 1 logs at most one request line per attempt of page 1. *)
Lemma main_start_http : sum_list_with http_line (cs_log main_start) <= get_page_attempts.
Proof.
  unfold main_start. destruct (db_open E db_name) as [e|db0]; [cbn; lia|].
  destruct (get_page (net E 1) 1) as [[r dbg] k] eqn:Hg. apply get_page_events in Hg.
  unfold main_try, handle_main. repeat case_match; cbn [cs_log];
    rewrite ?sum_list_with_app, ?http_debug, ?http_page; cbn; lia.
Qed.

(** ** Theorems on phase 1 *)

(** C26: A database that cannot be reached ends [main] with the connection's
    exception before any page is requested: the only line logged is the
    connection attempt. *)
Theorem main_start_db_fails e :
  db_open E db_name = inl e ->
  main_start = CS [] [] [EvInfo (lit "Connecting to database")] (Finished (Raised e)).
Proof. intros Hdb. unfold main_start. by rewrite Hdb. Qed.

(** When page 1 cannot be fetched, [main] raises the fetch's exception and
    the collection is left as it was. *)
Theorem main_start_fetch_fails db0 e dbg k :
  db_open E db_name = inr db0 -> get_page (net E 1) 1 = (inl e, dbg, k) ->
  cs_status main_start = Finished (Raised e) /\ cs_store main_start = db0 /\ cs_pending main_start = [].
Proof. intros Hdb H. unfold main_start. by rewrite Hdb, H. Qed.

(** C25: A first page without books makes [insert_books] raise [TypeError],
    which leaves [main]: the crawl stops before the pager is read, the
    collection as it was. *)
Theorem main_start_empty_page db0 txt dbg k plog :
  db_open E db_name = inr db0 -> get_page (net E 1) 1 = (inr txt, dbg, k) ->
  parse_page (html_parser E) (LayoutTag (html_parser E txt)) = (inr [], plog) ->
  cs_status main_start = Finished (Raised (Exn TypeError empty_documents_msg)) /\
  cs_store main_start = db0 /\ cs_pending main_start = [].
Proof.
  intros Hdb H1 H2. unfold main_start. rewrite Hdb, H1.
  by cbn -[parse_page insert_books main_try html_parser]; rewrite H2.
Qed.

(** Page 1 fetched and parsed to books: [main] appends them to the
    collection and enters its [try] block. *)
Lemma main_start_page1 db0 txt dbg k books plog :
  db_open E db_name = inr db0 -> get_page (net E 1) 1 = (inr txt, dbg, k) ->
  parse_page (html_parser E) (LayoutTag (html_parser E txt)) = (inr books, plog) -> books <> [] ->
  exists log, main_start =
    main_try (html_parser E txt) (CS [] (db0 ++ map (fun b => book_to_model b (clock E 1)) books) log Running).
Proof.
  intros Hdb H1 H2 Hb. unfold main_start. rewrite Hdb, H1.
  cbn -[parse_page insert_books main_try html_parser]; rewrite H2.
  rewrite insert_books_append by done. by eexists.
Qed.

(** C24: Without a pager, [main] logs a critical event and returns normally with
    the books of page 1 stored. *)
Theorem main_start_missing_pager db0 txt dbg k books plog :
  db_open E db_name = inr db0 -> get_page (net E 1) 1 = (inr txt, dbg, k) ->
  parse_page (html_parser E) (LayoutTag (html_parser E txt)) = (inr books, plog) -> books <> [] ->
  select_one sel_pager_current (html_parser E txt) = None ->
  cs_status main_start = Finished Returned /\
  cs_store main_start = db0 ++ map (fun b => book_to_model b (clock E 1)) books /\
  last (cs_log main_start) = Some (EvCritical (Exn MissingCriticalElementError missing_pager_msg)).
Proof.
  intros Hdb H1 H2 Hb H3. destruct (main_start_page1 db0 txt dbg k books plog Hdb H1 H2 Hb) as [log ->].
  unfold main_try. rewrite H3. unfold handle_main. rewrite isinstance_own.
  cbn [cs_status cs_store cs_log]. split; [done|]. split; [done|]. by rewrite last_snoc.
Qed.

Lemma main_start_running db0 txt dbg k books plog cur cunt :
  db_open E db_name = inr db0 -> get_page (net E 1) 1 = (inr txt, dbg, k) ->
  parse_page (html_parser E) (LayoutTag (html_parser E txt)) = (inr books, plog) -> books <> [] ->
  select_one sel_pager_current (html_parser E txt) = Some cur ->
  parse_pages_count (strip (text cur)) = inr cunt ->
  exists log, main_start = CS (py_range 1 cunt) (db0 ++ map (fun b => book_to_model b (clock E 1)) books) log Running.
Proof.
  intros Hdb H1 H2 Hb H3 H4. destruct (main_start_page1 db0 txt dbg k books plog Hdb H1 H2 Hb) as [log ->].
  unfold main_try. rewrite H3, H4. by eexists.
Qed.

(** C23: With a pager, [main] appends page 1 to the collection and starts
    the gather on the tasks [range(1, cunt)]. *)
Theorem main_start_gather db0 txt dbg k books plog cur cunt :
  db_open E db_name = inr db0 -> get_page (net E 1) 1 = (inr txt, dbg, k) ->
  parse_page (html_parser E) (LayoutTag (html_parser E txt)) = (inr books, plog) -> books <> [] ->
  select_one sel_pager_current (html_parser E txt) = Some cur ->
  parse_pages_count (strip (text cur)) = inr cunt ->
  cs_status main_start = Running /\ cs_pending main_start = py_range 1 cunt /\
  cs_store main_start = db0 ++ map (fun b => book_to_model b (clock E 1)) books.
Proof.
  intros Hdb H1 H2 Hb H3 H4.
  destruct (main_start_running db0 txt dbg k books plog cur cunt Hdb H1 H2 Hb H3 H4) as [log ->].
  by repeat split.
Qed.

(** A pager whose text does not parse ends [main] with the parser's
    exception, page 1 stored. *)
Theorem main_start_bad_pager db0 txt dbg k books plog cur e :
  db_open E db_name = inr db0 -> get_page (net E 1) 1 = (inr txt, dbg, k) ->
  parse_page (html_parser E) (LayoutTag (html_parser E txt)) = (inr books, plog) -> books <> [] ->
  select_one sel_pager_current (html_parser E txt) = Some cur ->
  parse_pages_count (strip (text cur)) = inl e ->
  cs_status main_start = Finished (Raised e) /\
  cs_store main_start = db0 ++ map (fun b => book_to_model b (clock E 1)) books.
Proof.
  intros Hdb H1 H2 Hb H3 H4. destruct (main_start_page1 db0 txt dbg k books plog Hdb H1 H2 Hb) as [log ->].
  unfold main_try. rewrite H3, H4. unfold handle_main.
  apply parse_pages_count_error_class in H4. by rewrite H4.
Qed.

End Crawl.

(** ** The pages of the gather *)

Lemma py_range_length a b : length (py_range a b) = Z.to_nat (b - a).
Proof. unfold py_range. by rewrite length_map, length_seq. Qed.

Lemma py_range_elem a b q : q ∈ py_range a b <-> (a <= q < b)%Z.
Proof.
  unfold py_range. rewrite list_elem_of_fmap. split.
  - intros (k & -> & Hk). apply elem_of_seq in Hk. lia.
  - intros Hq. exists (Z.to_nat (q - a)). split; [lia|]. apply elem_of_seq. lia.
Qed.

Lemma py_range_NoDup a b : NoDup (py_range a b).
Proof.
  unfold py_range. apply NoDup_fmap_2_strong; [intros x y _ _ ?; lia|]. apply NoDup_seq.
Qed.

Lemma py_range_cons a b : (a < b)%Z -> py_range a b = a :: py_range (a + 1) b.
Proof.
  intros Hab. unfold py_range. replace (Z.to_nat (b - a)) with (S (Z.to_nat (b - (a + 1)))) by lia.
  cbn. f_equal; [lia|]. rewrite <- seq_shift, map_map. apply map_ext. intros k. lia.
Qed.

Lemma py_range_shift a b : map (fun p => p + 1)%Z (py_range a b) = py_range (a + 1) (b + 1).
Proof.
  unfold py_range. replace (b + 1 - (a + 1))%Z with (b - a)%Z by lia.
  rewrite map_map. apply map_ext. intros k. lia.
Qed.

(** [range(1, cunt)] makes [scrape_page] fetch the pages [2 .. cunt]: each
    exactly once, and page 1 (fetched by [main]) not again. *)
Theorem gather_pages (cunt q : Z) :
  (q ∈ map (fun p => p + 1)%Z (py_range 1 cunt) <-> (2 <= q <= cunt)%Z) /\
  NoDup (map (fun p => p + 1)%Z (py_range 1 cunt)).
Proof.
  split.
  - rewrite list_elem_of_fmap. split.
    + intros (p & -> & Hp). apply py_range_elem in Hp. lia.
    + intros Hq. exists (q - 1)%Z. split; [lia|]. apply py_range_elem. lia.
  - apply NoDup_fmap_2_strong; [intros x y _ _ ?; lia|]. apply py_range_NoDup.
Qed.

(** ** A shop to run the crawl on *)

Definition pager_node (t : String.string) : node :=
  elem "ul" [] (Some ["pager"]%string) [elem "li" [] (Some ["current"]%string) [txt t]].

Definition shop_doc (pods : list node) (pager : list node) : el :=
  document [elem "html" [] None [elem "body" [] None
    (elem "ol" [] None (map (fun n => elem "li" [] None [n]) pods) :: pager)]].

Definition shop_parser (d : el) : pystr -> el := fun _ => d.

Definition shop : el := shop_doc [pod "A" good_price] [pager_node "Page 1 of 3"].

(** Pages 1 to 3 exist; page 3 answers 503 on the broken network. *)
Definition shop_html : pystr -> el := shop_parser shop.

Definition shop_net (p : Z) (k : nat) : client_outcome :=
  if (p <=? 3)%Z then inr (Response 200 (lit "<html></html>")) else inr (Response 404 []).

Definition broken_net (p : Z) (k : nat) : client_outcome :=
  if (p =? 3)%Z then inr (Response 503 []) else shop_net p k.

Definition offline_net (p : Z) (k : nat) : client_outcome := inl (Exn ConnectError (lit "refused")).

Definition shop_clock (p : Z) : Z := 1700000000 + p.

(** The collection already holds a document of an earlier run. *)
Definition shop_db : list BookModel := [mkBookModel (lit "Old") (pound ++ lit "1.00") false 1600000000].

(** The shop with page document [d] on the network [n]. *)
Definition shop_with (d : el) (n : Z -> nat -> client_outcome) : crawl_env :=
  CrawlEnv (shop_parser d) n shop_clock (fun _ => inr shop_db).

Definition shop_env : crawl_env := shop_with shop shop_net.
Definition broken_env : crawl_env := shop_with shop broken_net.

(** No MongoDB server answers within the server selection timeout. *)
Definition db_timeout : exn := Exn ServerSelectionTimeoutError (lit "localhost:27017: [Errno 111] Connection refused").
Definition db_down_env : crawl_env := CrawlEnv shop_html shop_net shop_clock (fun _ => inl db_timeout).

Definition shop_start : crawl_state := CS [1; 2]%Z [] [] Running.

(** Phase 1 on the shop: page 1 appended to the collection, the tasks
    [1; 2] started. *)
Example main_start_shop :
  cs_pending (main_start shop_env) = [1; 2]%Z /\
  cs_status (main_start shop_env) = Running /\
  cs_store (main_start shop_env) =
    shop_db ++ [mkBookModel (lit "A") (pound ++ lit "37.34") true 1700000001].
Proof. vm_compute. auto. Qed.

Lemma main_start_db_fails_witness :
  main_start db_down_env = CS [] [] [EvInfo (lit "Connecting to database")] (Finished (Raised db_timeout)).
Proof. apply main_start_db_fails. reflexivity. Defined.

Lemma main_start_fetch_fails_witness :
  cs_status (main_start (shop_with shop offline_net)) = Finished (Raised (Exn ConnectError (lit "refused"))) /\
  cs_store (main_start (shop_with shop offline_net)) = shop_db /\
  cs_pending (main_start (shop_with shop offline_net)) = [].
Proof.
  apply (main_start_fetch_fails (shop_with shop offline_net) shop_db _ [] 3); vm_compute; reflexivity.
Defined.

Definition empty_shop : el := shop_doc [] [pager_node "Page 1 of 3"].

Lemma main_start_empty_page_witness :
  cs_status (main_start (shop_with empty_shop shop_net)) =
    Finished (Raised (Exn TypeError empty_documents_msg)) /\
  cs_store (main_start (shop_with empty_shop shop_net)) = shop_db /\
  cs_pending (main_start (shop_with empty_shop shop_net)) = [].
Proof.
  apply (main_start_empty_page (shop_with empty_shop shop_net) shop_db (lit "<html></html>")
           [HttpGet (page_url 1) 200] 1 []); vm_compute; reflexivity.
Defined.

Definition pagerless_shop : el := shop_doc [pod "A" good_price] [].

Definition book_A : Book := mkBook (lit "A") (pound ++ lit "37.34") true.

Lemma main_start_missing_pager_witness :
  cs_status (main_start (shop_with pagerless_shop shop_net)) = Finished Returned /\
  cs_store (main_start (shop_with pagerless_shop shop_net)) =
    shop_db ++ [mkBookModel (lit "A") (pound ++ lit "37.34") true 1700000001] /\
  last (cs_log (main_start (shop_with pagerless_shop shop_net))) =
    Some (EvCritical (Exn MissingCriticalElementError missing_pager_msg)).
Proof.
  apply (main_start_missing_pager (shop_with pagerless_shop shop_net) shop_db (lit "<html></html>")
           [HttpGet (page_url 1) 200] 1 [book_A] []);
    [vm_compute; reflexivity..|discriminate|vm_compute; reflexivity].
Defined.

(** The [li.current] element of a page. *)
Definition current_of (d : el) : el :=
  match select_one sel_pager_current d with Some c => c | None => d end.

Definition shop_current : el := Eval vm_compute in current_of shop.

Lemma main_start_gather_witness :
  cs_status (main_start shop_env) = Running /\
  cs_pending (main_start shop_env) = py_range 1 3 /\
  cs_store (main_start shop_env) = shop_db ++ map (fun b => book_to_model b (shop_clock 1)) [book_A].
Proof.
  apply (main_start_gather shop_env shop_db (lit "<html></html>")
           [HttpGet (page_url 1) 200] 1 [book_A] [] shop_current 3).
  all: first [discriminate | vm_compute; reflexivity].
Defined.

Definition worded_shop : el := shop_doc [pod "A" good_price] [pager_node "Page one of three"].

Definition worded_current : el := Eval vm_compute in current_of worded_shop.

Lemma main_start_bad_pager_witness :
  cs_status (main_start (shop_with worded_shop shop_net)) =
    Finished (Raised (Exn InvalidPagerTextError (no_match_msg (lit "Page one of three")))) /\
  cs_store (main_start (shop_with worded_shop shop_net)) =
    shop_db ++ map (fun b => book_to_model b (shop_clock 1)) [book_A].
Proof.
  apply (main_start_bad_pager (shop_with worded_shop shop_net) shop_db (lit "<html></html>")
           [HttpGet (page_url 1) 200] 1 [book_A] [] worded_current).
  all: first [discriminate | vm_compute; reflexivity].
Defined.
