(* ===== verification/Gather.v ===== *)
(** * Gather: the phase 2 of [main], [asyncio.gather] over the page tasks

    Properties of the step relation [step] of [Crawl] from the start of the
    gather [CS tasks0 store0 log0 Running], over every schedule:
    - [crawl_inv]: the collection is [store0] followed by the batches of
      the completed tasks, a sub-multiset of the tasks that succeeded, and
      no task is lost while the gather runs;
    - [outcome_inv]: a failure comes from a task, and a normal return
      means that all tasks succeeded (or one raised what [main] catches);
    - termination by the measure [crawl_measure];
    - the scheduler [sched], which runs the tasks in list order, produces
      runs of [step] ([sched_rtc]).
    Runs are stdpp's [rtc] of [step]; the proofs are by rule induction. *)

From Stdlib Require Import ZArith Lia Permutation.
From S2P Require Import Prelude Exceptions Builtins Dom Pager Book Page Transport Sink Crawl.

Section Gather.

Context (E : crawl_env).

(** ** The invariant of the gather

    Starting from the tasks [tasks0] and the collection [store0]: the
    tasks split into those that completed and inserted ([ok]) and the
    others ([rest]), which hold the pending ones; the collection is
    [store0] followed by the batches of the completed tasks in completion
    order; while the gather runs, no task has been lost. *)
Definition crawl_inv (tasks0 : list Z) (store0 : list BookModel) (s : crawl_state) : Prop :=
  exists ok rest : list Z, ok ++ rest ≡ₚ tasks0 /\ cs_pending s ⊆+ rest /\
    Forall (fun p => succeeds E p = true) ok /\
    cs_store s = store0 ++ concat (map (batch E) ok) /\
    (cs_status s = Running -> cs_pending s ≡ₚ rest).

Lemma crawl_inv_init tasks0 store0 log :
  crawl_inv tasks0 store0 (CS tasks0 store0 log Running).
Proof.
  exists [], tasks0. cbn. rewrite app_nil_r. split; [done|]. split; [done|].
  split; [constructor|]. split; done.
Qed.

(** Removing a pending task from [rest]. *)
Lemma pending_pick (pre post rest : list Z) (p : Z) :
  pre ++ p :: post ⊆+ rest -> exists rest', rest ≡ₚ p :: rest' /\ pre ++ post ⊆+ rest'.
Proof.
  intros H. rewrite <- Permutation_middle in H. by apply submseteq_cons_l in H.
Qed.

Lemma crawl_inv_complete tasks0 store0 pre p post store log st db' ev :
  crawl_inv tasks0 store0 (CS (pre ++ p :: post) store log st) ->
  scrape_page E p store = (inr db', ev) ->
  crawl_inv tasks0 store0 (CS (pre ++ post) db' (log ++ ev) st).
Proof.
  intros (ok & rest & Hperm & Hsub & Hok & Hstore & Hrun) Hs.
  apply (scrape_ok E) in Hs as [Hp ->]. cbn in *.
  destruct (pending_pick pre post rest p Hsub) as (rest' & Hrest & Hsub').
  exists (ok ++ [p]), rest'. split.
  { rewrite <- Hperm, Hrest, <- app_assoc. done. }
  split; [done|]. split; [apply Forall_app; by split; [|constructor]|].
  split; [by rewrite Hstore, map_app, concat_app, app_assoc; cbn; rewrite app_nil_r|].
  intros Hr. specialize (Hrun Hr). rewrite Hrest, <- Permutation_middle in Hrun.
  by apply Permutation_cons_inv in Hrun.
Qed.

(** Dropping pending tasks (a failure, the cancellation) keeps the
    invariant once the gather no longer runs. *)
Lemma crawl_inv_drop tasks0 store0 pending pending' store log log' st st' :
  crawl_inv tasks0 store0 (CS pending store log st) -> pending' ⊆+ pending ->
  st' <> Running ->
  crawl_inv tasks0 store0 (CS pending' store log' st').
Proof.
  intros (ok & rest & Hperm & Hsub & Hok & Hstore & _) Hp Hst.
  exists ok, rest. cbn in *. split; [done|]. split; [by etrans|].
  split; [done|]. split; [done|]. done.
Qed.

(** Every step of the gather keeps the invariant. *)
Lemma crawl_inv_step tasks0 store0 s s' :
  crawl_inv tasks0 store0 s -> step E s s' -> crawl_inv tasks0 store0 s'.
Proof.
  intros Hinv Hstep. destruct Hstep as [pre p post store log db' ev Hs|pre p post store log e ev Hs
    |store log|pre p post store log db' ev e Hs|pending store log e].
  - by eapply crawl_inv_complete.
  - eapply crawl_inv_drop; [exact Hinv| |done].
    rewrite <- Permutation_middle. by apply submseteq_cons.
  - destruct Hinv as (ok & rest & Hperm & Hsub & Hok & Hstore & _).
    exists ok, rest. by repeat split.
  - by eapply crawl_inv_complete.
  - unfold handle_main. cbn.
    destruct (isinstance e MissingCriticalElementError);
      (eapply crawl_inv_drop; [exact Hinv|apply submseteq_nil_l|done]).
Qed.

Lemma crawl_inv_rtc tasks0 store0 s s' :
  crawl_inv tasks0 store0 s -> rtc (step E) s s' -> crawl_inv tasks0 store0 s'.
Proof. intros Hinv Hs. induction Hs; eauto using crawl_inv_step. Qed.

(** ** Termination *)

(** A measure that every step decreases. *)
Definition crawl_measure (s : crawl_state) : nat :=
  match cs_status s with
  | Running => 2 + 2 * length (cs_pending s)
  | Failed _ => 1 + length (cs_pending s)
  | Finished _ => 0
  end.

Lemma step_measure s s' : step E s s' -> crawl_measure s' < crawl_measure s.
Proof.
  unfold crawl_measure. intros []; cbn; rewrite ?length_app; cbn; try lia.
  unfold handle_main. by destruct (isinstance _ _); cbn; lia.
Qed.

Definition finished (s : crawl_state) : bool :=
  match cs_status s with Finished _ => true | _ => false end.

(** A crawl that has not finished can always make a step. *)
Lemma crawl_progress s : finished s = false -> exists s', step E s s'.
Proof.
  destruct s as [pending store log [|e|o]]; cbn; [|intros _|done].
  - intros _. destruct pending as [|p post].
    + eexists. apply step_done.
    + destruct (scrape_total E p store) as ([e|db'] & ev & Hs).
      * eexists. apply (step_fail E [] p post _ _ e ev Hs).
      * eexists. apply (step_ok E [] p post _ _ db' ev Hs).
  - eexists. apply step_cancel.
Qed.

Lemma crawl_reaches_end_measure n s :
  crawl_measure s <= n -> exists s', rtc (step E) s s' /\ finished s' = true.
Proof.
  revert s. induction n as [|n IH]; intros s Hm.
  - exists s. split; [constructor|]. unfold crawl_measure, finished in *.
    destruct (cs_status s); [lia|lia|done].
  - destruct (finished s) eqn:Hf; [exists s; split; [constructor|done]|].
    destruct (crawl_progress s Hf) as [s' Hs].
    destruct (IH s') as (s'' & Hs'' & Hf''); [pose proof (step_measure _ _ Hs); lia|].
    exists s''. split; [by eapply rtc_l|done].
Qed.

(** ** Outcomes *)

Lemma concat_map_perm (l1 l2 : list Z) :
  l1 ≡ₚ l2 -> concat (map (batch E) l1) ≡ₚ concat (map (batch E) l2).
Proof.
  induction 1; cbn; [done|by f_equiv|by rewrite !app_assoc, (Permutation_app_comm (batch E y))|].
  by etrans.
Qed.

(** What the status of the gather tells: a failure comes from a task, and
    a normal return means that every task succeeded (or that a task raised
    what the [except] clause catches). *)
Definition outcome_inv (tasks0 : list Z) (store0 : list BookModel) (s : crawl_state) : Prop :=
  (forall e, cs_status s = Failed e \/ cs_status s = Finished (Raised e) ->
     exists q, q ∈ tasks0 /\ task_result E q = inl e) /\
  (cs_status s = Finished Returned ->
     (Forall (fun p => succeeds E p = true) tasks0 /\
      cs_store s ≡ₚ store0 ++ concat (map (batch E) tasks0)) \/
     exists q e, q ∈ tasks0 /\ task_result E q = inl e /\ isinstance e MissingCriticalElementError = true).

Lemma crawl_inv_pending tasks0 store0 s p :
  crawl_inv tasks0 store0 s -> p ∈ cs_pending s -> p ∈ tasks0.
Proof.
  intros (ok & rest & Hperm & Hsub & _) Hp. rewrite <- Hperm.
  apply elem_of_app. right. by eapply elem_of_submseteq.
Qed.

Lemma outcome_inv_step tasks0 store0 s s' :
  crawl_inv tasks0 store0 s -> outcome_inv tasks0 store0 s -> step E s s' ->
  outcome_inv tasks0 store0 s'.
Proof.
  intros Hinv [Hfail Hret] Hstep.
  destruct Hstep as [pre p post store log db' ev Hs|pre p post store log e ev Hs
    |store log|pre p post store log db' ev e Hs|pending store log e]; cbn in *.
  - split; [by intros e [?|?]|done].
  - split; [|done]. intros e' [[= <-]|?]; [|done]. exists p.
    split; [|by eapply (scrape_fail E)]. eapply crawl_inv_pending; [exact Hinv|].
    cbn. apply elem_of_app. right. apply elem_of_cons. by left.
  - split; [by intros e [?|?]|]. intros _. left.
    destruct Hinv as (ok & rest & Hperm & _ & Hok & Hstore & Hrun). cbn in *.
    specialize (Hrun eq_refl). apply Permutation_nil in Hrun as ->.
    rewrite app_nil_r in Hperm. split; [by rewrite <- Hperm|].
    rewrite Hstore. f_equiv. by apply concat_map_perm.
  - split; [|done]. intros e' He'. apply Hfail. naive_solver.
  - unfold handle_main. destruct (isinstance e MissingCriticalElementError) eqn:Hc; cbn.
    + split; [by intros e' [?|?]|]. intros _. right.
      destruct (Hfail e (or_introl eq_refl)) as (q & Hq & He). by exists q, e.
    + split; [|done]. intros e' [?|[= <-]]; [done|]. apply Hfail. by left.
Qed.

Lemma outcome_inv_rtc tasks0 store0 s s' :
  crawl_inv tasks0 store0 s -> outcome_inv tasks0 store0 s -> rtc (step E) s s' ->
  outcome_inv tasks0 store0 s'.
Proof.
  intros Hinv Hout Hs. induction Hs as [|s1 s2 s3 Hstep Hs IH]; [done|].
  apply IH; [by eapply crawl_inv_step|by eapply outcome_inv_step].
Qed.

Lemma outcome_inv_init tasks0 store0 log0 :
  outcome_inv tasks0 store0 (CS tasks0 store0 log0 Running).
Proof. split; [by intros e [?|?]|done]. Qed.

(** ** A scheduler

    Running the tasks one after the other, in list order, is one of the
    schedules of the gather. *)
Fixpoint sched (n : nat) (s : crawl_state) : crawl_state :=
  match n with
  | O => s
  | S n' =>
      match s with
      | CS (p :: post) store log Running =>
          match scrape_page E p store with
          | (inr db', ev) => sched n' (CS post db' (log ++ ev) Running)
          | (inl e, ev) => sched n' (CS post store (log ++ ev) (Failed e))
          end
      | CS [] store log Running => CS [] store log (Finished Returned)
      | CS _ store log (Failed e) => handle_main e (CS [] store log (Failed e))
      | _ => s
      end
  end.

Lemma sched_rtc n s : rtc (step E) s (sched n s).
Proof.
  induction n as [|n IH] in s |- *; [constructor|].
  destruct s as [[|p post] store log [|e|o]]; cbn; try constructor.
  - eapply rtc_l; [apply step_done|constructor].
  - eapply rtc_l; [apply step_cancel|constructor].
  - destruct (scrape_page E p store) as [[e|db'] ev] eqn:Hs.
    + eapply rtc_l; [apply (step_fail E []), Hs|apply IH].
    + eapply rtc_l; [apply (step_ok E []), Hs|apply IH].
  - eapply rtc_l; [apply step_cancel|constructor].
Qed.

(** ** Theorems on the gather *)

Lemma store_safe tasks0 store0 log0 s :
  rtc (step E) (CS tasks0 store0 log0 Running) s ->
  exists ok, ok ⊆+ tasks0 /\ Forall (fun p => succeeds E p = true) ok /\
             cs_store s = store0 ++ concat (map (batch E) ok).
Proof.
  intros Hs.
  destruct (crawl_inv_rtc tasks0 store0 _ s
              (crawl_inv_init tasks0 store0 log0) Hs)
    as (ok & rest & Hperm & _ & Hok & Hstore & _).
  exists ok. split; [|done]. rewrite <- Hperm. apply submseteq_inserts_r. done.
Qed.

Lemma returned_complete tasks0 store0 log0 s :
  (forall q e, q ∈ tasks0 -> task_result E q = inl e -> isinstance e MissingCriticalElementError = false) ->
  rtc (step E) (CS tasks0 store0 log0 Running) s -> cs_status s = Finished Returned ->
  Forall (fun p => succeeds E p = true) tasks0 /\ cs_store s ≡ₚ store0 ++ concat (map (batch E) tasks0).
Proof.
  intros Hnc Hs Hret.
  destruct (outcome_inv_rtc tasks0 store0 _ s
              (crawl_inv_init tasks0 store0 log0)
              (outcome_inv_init tasks0 store0 log0) Hs) as [_ Hr].
  destruct (Hr Hret) as [?|(q & e & Hq & He & Hc)]; [done|].
  by rewrite (Hnc q e Hq He) in Hc.
Qed.

Lemma all_succeed_finished tasks0 store0 log0 s :
  Forall (fun p => succeeds E p = true) tasks0 ->
  rtc (step E) (CS tasks0 store0 log0 Running) s -> finished s = true ->
  cs_status s = Finished Returned /\ cs_store s ≡ₚ store0 ++ concat (map (batch E) tasks0).
Proof.
  intros Hall Hs Hfin.
  assert (Hnf : forall q e, q ∈ tasks0 -> task_result E q = inl e -> False).
  { intros q e Hq He. eapply Forall_forall in Hall; [|exact Hq].
    unfold succeeds in Hall. by rewrite He in Hall. }
  destruct (outcome_inv_rtc tasks0 store0 _ s
              (crawl_inv_init tasks0 store0 log0)
              (outcome_inv_init tasks0 store0 log0) Hs) as [Hf _].
  assert (Hret : cs_status s = Finished Returned).
  { unfold finished in Hfin. destruct (cs_status s) as [|e|[|e]] eqn:Hst; try done.
    destruct (Hf e (or_intror eq_refl)) as (q & Hq & He). by destruct (Hnf q e Hq He). }
  split; [done|]. eapply returned_complete; [|exact Hs|done].
  intros q e Hq He. by destruct (Hnf q e Hq He).
Qed.

(** C8: Safety: whatever the scheduling, the collection is the initial one
    followed by the batches of distinct tasks that succeeded, each
    inserted once. *)
Theorem gather_store_safe tasks0 store0 log0 s :
  rtc (step E) (CS tasks0 store0 log0 Running) s ->
  exists ok, ok ⊆+ tasks0 /\ Forall (fun p => succeeds E p = true) ok /\
             cs_store s = store0 ++ concat (map (batch E) ok).
Proof. exact (store_safe tasks0 store0 log0 s). Qed.

(** C10: A gather that ends normally inserted the batch of every task (in some
    order), unless a task raised [MissingCriticalElementError]. *)
Theorem gather_returned_complete tasks0 store0 log0 s :
  (forall q e, q ∈ tasks0 -> task_result E q = inl e -> isinstance e MissingCriticalElementError = false) ->
  rtc (step E) (CS tasks0 store0 log0 Running) s -> cs_status s = Finished Returned ->
  Forall (fun p => succeeds E p = true) tasks0 /\ cs_store s ≡ₚ store0 ++ concat (map (batch E) tasks0).
Proof. exact (returned_complete tasks0 store0 log0 s). Qed.

(** C9: When every task succeeds, every run of the gather ends normally with
    the batches of all pages inserted. *)
Theorem gather_all_succeed tasks0 store0 log0 s :
  Forall (fun p => succeeds E p = true) tasks0 ->
  rtc (step E) (CS tasks0 store0 log0 Running) s -> finished s = true ->
  cs_status s = Finished Returned /\ cs_store s ≡ₚ store0 ++ concat (map (batch E) tasks0).
Proof. exact (all_succeed_finished tasks0 store0 log0 s). Qed.

(** C11: Against the specification's best-effort policy, one failing page makes
    [gather] raise and the pending pages are cancelled: there is a run in
    which the crawl ends with the failure and none of the other pages is
    stored. *)
Theorem gather_failure_loses_pages tasks0 store0 log0 pre p post e :
  tasks0 = pre ++ p :: post -> task_result E p = inl e ->
  isinstance e MissingCriticalElementError = false ->
  exists s, rtc (step E) (CS tasks0 store0 log0 Running) s /\
            cs_status s = Finished (Raised e) /\ cs_store s = store0.
Proof.
  intros -> He Hc.
  assert (Hs : scrape_page E p store0 =
               (inl e, (scrape_page E p []).2)).
  { rewrite (scrape_page_frame E). by rewrite He. }
  eexists. split.
  - eapply rtc_l; [by apply step_fail|].
    eapply rtc_l; [apply step_cancel|]. apply rtc_refl.
  - unfold handle_main. rewrite Hc. done.
Qed.

(** Termination: from every state of the gather a final state is reached. *)
Theorem gather_terminates s : exists s', rtc (step E) s s' /\ finished s' = true.
Proof. by apply (crawl_reaches_end_measure (crawl_measure s)). Qed.

End Gather.

(** ** Witnesses on the shop of [Crawl] *)

Lemma gather_store_safe_witness :
  rtc (step shop_env) shop_start (sched shop_env 3 shop_start) /\
  exists ok, ok ⊆+ [1; 2]%Z /\
    Forall (fun p => succeeds shop_env p = true) ok /\
    cs_store (sched shop_env 3 shop_start) =
      [] ++ concat (map (batch shop_env) ok).
Proof.
  split; [apply sched_rtc|].
  apply (gather_store_safe shop_env [1; 2]%Z [] []).
  apply sched_rtc.
Defined.

Lemma gather_returned_complete_witness :
  Forall (fun p => succeeds shop_env p = true) [1; 2]%Z /\
  cs_store (sched shop_env 3 shop_start) ≡ₚ
    [] ++ concat (map (batch shop_env) [1; 2]%Z).
Proof.
  apply (gather_returned_complete shop_env [1; 2]%Z [] []).
  - intros q e Hq. repeat (apply elem_of_cons in Hq as [->|Hq]; [vm_compute; discriminate|]).
    by apply elem_of_nil in Hq.
  - apply sched_rtc.
  - vm_compute. reflexivity.
Defined.

Lemma gather_all_succeed_witness :
  cs_status (sched shop_env 3 shop_start) = Finished Returned /\
  cs_store (sched shop_env 3 shop_start) ≡ₚ
    [] ++ concat (map (batch shop_env) [1; 2]%Z).
Proof.
  apply (gather_all_succeed shop_env [1; 2]%Z [] []).
  - repeat constructor.
  - apply sched_rtc.
  - vm_compute. reflexivity.
Defined.

(** On the broken network page 3 (task 2) fails after three attempts with
    an [HTTPStatusError]: the crawl raises it and stores nothing. *)
Lemma gather_failure_loses_pages_witness :
  exists s, rtc (step broken_env) shop_start s /\
    cs_status s = Finished (Raised (Exn HTTPStatusError (str_Z 503))) /\ cs_store s = [].
Proof.
  apply (gather_failure_loses_pages broken_env [1; 2]%Z [] [] [1]%Z 2 []).
  - reflexivity.
  - vm_compute. reflexivity.
  - vm_compute. reflexivity.
Defined.

