(* ===== verification/Interleave.v ===== *)
(** * Interleave: the page tasks of the gather, interleaved at every [await]

    In [Crawl] a page task is one atomic step. Under [asyncio] a task runs
    until its next [await] and the event loop then resumes another task,
    so the tasks of [asyncio.gather] interleave. [scrape_page] has these
    suspension points:
    - after [log.info("Scraping page")], each attempt of [get_page] awaits
      [client.get] (and, before a retry, stamina's sleep, which does
      nothing observable and is merged with the next attempt);
    - after [parse_page] (an [async def] without [await], so it runs
      without suspending) and [datetime.now()], [insert_books] awaits
      [BookModel.insert_many], whose effect on the collection and whose
      [TypeError] on an empty list (raised in the driver) are observed
      when the task resumes.
    A task is in one of the phases [Start], [Fetch n k] (awaiting attempt
    [k], [n] retries left) and [Inserting]; [task_step] is what it does
    when resumed, up to its next [await]. [fstep] lets any live task make
    its next segment, in any order; the log tags each line with the task
    that wrote it.

    Running a task's segments one after the other is [scrape_page]
    ([task_equiv], the lemma the simulation starts from). The theorems:
    every interleaved run is
    matched by a run of the atomic gather with the same collection and
    status ([interleave_refines]), so the safety and completeness theorems
    of [Gather] hold of the interleaved gather; the interleaved gather
    terminates; the lines a task logs are a prefix of the lines of its
    sequential run ([log_inv]); and when every
    task succeeds, a finished gather has logged all of them
    ([interleave_log_complete], by the invariant [done_inv]). The request
    lines logged plus the attempts the suspended tasks may still make
    ([budget]) never grow ([rtc_fstep_http]).

    Not modelled: an insert that a cancelled task has handed to the
    driver's thread pool and that still reaches the database after the
    cancellation. *)

From Stdlib Require Import ZArith Lia Permutation.
From S2P Require Import Prelude Exceptions Builtins Dom Pager Book Page Transport Sink Crawl Gather.

#[local] Arguments parse_page : simpl never.
#[local] Arguments insert_books : simpl never.
#[local] Arguments insert_many : simpl never.
#[local] Arguments lit : simpl never.

(** ** Tasks and their segments *)

Inductive phase :=
  | Start
  | Fetch (n k : nat)
  | Inserting (entities : list BookModel) (msg : pystr).

(** How a resumed task stops: at an [await], by raising, or by returning
    (with the collection after its insert). *)
Inductive task_effect :=
  | Await (ph : phase) (ev : list event)
  | Raise (e : exn) (ev : list event)
  | Return (db : list BookModel) (ev : list event).

(** A line of the log: written by the task of page [p], or by [main]. *)
Inductive fevent :=
  | TaskEv (p : Z) (ev : event)
  | MainEv (ev : event).

Record fstate := FS {
  fs_tasks : list (Z * phase);
  fs_store : list BookModel;
  fs_log : list fevent;
  fs_status : status }.

Definition tag (p : Z) (ev : list event) : list fevent := map (TaskEv p) ev.

(** The lines of the log written by task [p], in log order. *)
Definition task_log (p : Z) (l : list fevent) : list event :=
  omap (fun x => match x with TaskEv q ev => if (q =? p)%Z then Some ev else None | MainEv _ => None end) l.

(** A task raising makes the gather fail, the first time only. *)
Definition fail_status (st : status) (e : exn) : status :=
  match st with Running => Failed e | _ => st end.

(** Tasks run until [asyncio.run] has cancelled them. *)
Definition live (st : status) : Prop :=
  match st with Finished _ => False | _ => True end.

Definition ffinished (f : fstate) : bool :=
  match fs_status f with Finished _ => true | _ => false end.

(** [except MissingCriticalElementError as e: log.critical(e)] of [main]. *)
Definition fhandle (e : exn) (store : list BookModel) (log : list fevent) : fstate :=
  if isinstance e MissingCriticalElementError
  then FS [] store (log ++ [MainEv (EvCritical e)]) (Finished Returned)
  else FS [] store log (Finished (Raised e)).

Section Interleave.

Context (E : crawl_env).

(** Attempt [k] of [get_page(client, p + 1)]. *)
Definition page_attempt (p : Z) (k : nat) : attempt := get_page_attempt (p + 1) (net E (p + 1) k).

(** Task [p] resumed in phase [ph] with the collection [db]. *)
Definition task_step (p : Z) (ph : phase) (db : list BookModel) : task_effect :=
  match ph with
  | Start => Await (Fetch (get_page_attempts - 1) 0) [EvInfo (lit "Scraping page")]
  | Fetch n k =>
      let a := page_attempt p k in
      let ev1 := map EvDebug (att_events a) in
      match att_result a with
      | inl e =>
          match n with
          | S n' => if is_http_error e then Await (Fetch n' (S k)) ev1 else Raise e ev1
          | O => Raise e ev1
          end
      | inr txt =>
          let '(pr, plog) := parse_page (html_parser E) (LayoutTag (html_parser E txt)) in
          let ev2 := ev1 ++ map EvPage plog in
          match pr with
          | inl e => Raise e ev2
          | inr books =>
              let entities := map (fun b => book_to_model b (clock E (p + 1))) books in
              Await (Inserting entities (inserted_msg (length entities))) ev2
          end
      end
  | Inserting entities msg =>
      match insert_many entities db with
      | inl e => Raise e []
      | inr db' => Return db' [EvInfo msg]
      end
  end.

(** The interleaved gather. *)
Inductive fstep : fstate -> fstate -> Prop :=
  | fstep_await pre p ph post store log st ph' ev :
      live st -> task_step p ph store = Await ph' ev ->
      fstep (FS (pre ++ (p, ph) :: post) store log st)
            (FS (pre ++ (p, ph') :: post) store (log ++ tag p ev) st)
  | fstep_return pre p ph post store log st db' ev :
      live st -> task_step p ph store = Return db' ev ->
      fstep (FS (pre ++ (p, ph) :: post) store log st) (FS (pre ++ post) db' (log ++ tag p ev) st)
  | fstep_raise pre p ph post store log st e ev :
      live st -> task_step p ph store = Raise e ev ->
      fstep (FS (pre ++ (p, ph) :: post) store log st)
            (FS (pre ++ post) store (log ++ tag p ev) (fail_status st e))
  | fstep_done store log :
      fstep (FS [] store log Running) (FS [] store log (Finished Returned))
  | fstep_cancel tasks store log e :
      fstep (FS tasks store log (Failed e)) (fhandle e store log).

(** The gather starts every task in phase [Start]. *)
Definition finit (tasks0 : list Z) (store0 : list BookModel) : fstate :=
  FS (map (fun p => (p, Start)) tasks0) store0 [] Running.

(** ** Running a task alone *)

(** The segments of task [p] one after the other, from phase [ph]; [None]
    when the fuel runs out. *)
Fixpoint run_task (fuel : nat) (p : Z) (ph : phase) (db : list BookModel)
  : option ((exn + list BookModel) * list event) :=
  match fuel with
  | O => None
  | S f =>
      match task_step p ph db with
      | Await ph' ev => '(r, ev') ← run_task f p ph' db; Some (r, ev ++ ev')
      | Raise e ev => Some (inl e, ev)
      | Return db' ev => Some (inr db', ev)
      end
  end.

(** What [scrape_page] does after [get_page] has returned [r]. *)
Definition after_get (p : Z) (r : exn + pystr) (db : list BookModel) : (exn + list BookModel) * list event :=
  match r with
  | inl e => (inl e, [])
  | inr txt =>
      let '(pr, plog) := parse_page (html_parser E) (LayoutTag (html_parser E txt)) in
      match pr with
      | inl e => (inl e, map EvPage plog)
      | inr books =>
          match insert_books (clock E (p + 1)) books db with
          | inl e => (inl e, map EvPage plog)
          | inr (db', msg) => (inr db', map EvPage plog ++ [EvInfo msg])
          end
      end
  end.

Lemma scrape_page_after_get p db :
  scrape_page E p db =
  let '(r, dbg, _) := retry is_http_error (get_page_attempts - 1) 0 (page_attempt p) in
  ((after_get p r db).1, [EvInfo (lit "Scraping page")] ++ map EvDebug dbg ++ (after_get p r db).2).
Proof.
  unfold scrape_page, get_page, page_attempt.
  destruct (retry _ _ _ _) as [[[e|txt] dbg] u]; cbn; [by rewrite app_nil_r|].
  destruct (parse_page (html_parser E) (LayoutTag (html_parser E txt))) as [[e|books] plog];
    cbn; [by rewrite <- ?app_assoc|].
  destruct (insert_books _ _ _) as [e|[db' msg]]; cbn; by rewrite <- ?app_assoc.
Qed.

(** The fetch phase runs the rest of the retry loop. *)
Lemma run_task_fetch p n k f db :
  n + 2 <= f ->
  run_task f p (Fetch n k) db =
  Some (let '(r, dbg, _) := retry is_http_error n k (page_attempt p) in
        ((after_get p r db).1, map EvDebug dbg ++ (after_get p r db).2)).
Proof.
  revert k f. induction n as [|n IH]; intros k [|f] Hf; try lia; cbn [run_task task_step retry].
  all: destruct (att_result (page_attempt p k)) as [e|txt]; cbn [after_get].
  2,4: destruct (parse_page (html_parser E) (LayoutTag (html_parser E txt))) as [[e|books] plog];
    cbn; [done|]; destruct f as [|f]; [lia|]; cbn [run_task task_step];
    unfold insert_books; destruct (insert_many _ db) as [e|db']; cbn; by rewrite ?app_nil_r, <- ?app_assoc.
  - cbn. by rewrite app_nil_r.
  - destruct (is_http_error e); cbn [fst snd]; [|by rewrite app_nil_r].
    rewrite (IH (S k) f) by lia.
    destruct (retry _ n (S k) _) as [[r dbg] u]. cbn. by rewrite map_app, app_assoc.
Qed.

Lemma run_task_S f p ph db :
  run_task (S f) p ph db =
  match task_step p ph db with
  | Await ph' ev => '(r, ev') ← run_task f p ph' db; Some (r, ev ++ ev')
  | Raise e ev => Some (inl e, ev)
  | Return db' ev => Some (inr db', ev)
  end.
Proof. done. Qed.

Lemma run_task_mono f p ph db x :
  run_task f p ph db = Some x -> run_task (S f) p ph db = Some x.
Proof.
  revert ph x. induction f as [|f IH]; intros ph x; [done|].
  rewrite (run_task_S (S f)), run_task_S.
  destruct (task_step p ph db) as [ph' ev|e ev|db' ev]; [|done|done].
  destruct (run_task f p ph' db) as [[r ev']|] eqn:Hr; [|done].
  by rewrite (IH ph' (r, ev') Hr).
Qed.

(** A segment that ends at an [await] does not read the collection. *)
Lemma task_step_await p ph db db' ph' ev :
  task_step p ph db = Await ph' ev -> task_step p ph db' = Await ph' ev.
Proof. destruct ph as [| |entities msg]; [done|done|]. cbn. by destruct (insert_many _ _). Qed.

(** ** A task on track

    Task [p] in phase [ph], having logged [evs], is on track when the rest
    of its segments completes [scrape_page]: same result, and [evs]
    followed by the rest of its lines. *)
Definition on_track (p : Z) (ph : phase) (evs : list event) : Prop :=
  forall db, exists r rest, run_task 5 p ph db = Some (r, rest) /\
                            scrape_page E p db = (r, evs ++ rest).

Lemma task_equiv p db : run_task 5 p Start db = Some (scrape_page E p db).
Proof.
  rewrite run_task_S. cbn [task_step]. rewrite run_task_fetch by (cbn; lia).
  rewrite scrape_page_after_get. by destruct (retry _ _ _ _) as [[r dbg] u].
Qed.

Lemma on_track_start p : on_track p Start [].
Proof. intros db. exists (scrape_page E p db).1, (scrape_page E p db).2. rewrite task_equiv. by destruct (scrape_page E p db). Qed.

Lemma on_track_await p ph evs db ph' ev :
  on_track p ph evs -> task_step p ph db = Await ph' ev -> on_track p ph' (evs ++ ev).
Proof.
  intros Ht Hs db0. destruct (Ht db0) as (r & rest & Hr & Hsc).
  rewrite run_task_S, (task_step_await _ _ db db0 _ _ Hs) in Hr.
  destruct (run_task 4 p ph' db0) as [[r' rest']|] eqn:H4; [|done]. cbn in Hr.
  injection Hr as <- <-. exists r', rest'. split; [by apply run_task_mono|].
  by rewrite Hsc, app_assoc.
Qed.

Lemma on_track_return p ph evs db db' ev :
  on_track p ph evs -> task_step p ph db = Return db' ev -> scrape_page E p db = (inr db', evs ++ ev).
Proof.
  intros Ht Hs. destruct (Ht db) as (r & rest & Hr & Hsc).
  rewrite run_task_S, Hs in Hr. by injection Hr as <- <-.
Qed.

Lemma on_track_raise p ph evs db e ev :
  on_track p ph evs -> task_step p ph db = Raise e ev -> scrape_page E p db = (inl e, evs ++ ev).
Proof.
  intros Ht Hs. destruct (Ht db) as (r & rest & Hr & Hsc).
  rewrite run_task_S, Hs in Hr. by injection Hr as <- <-.
Qed.

(** ** Refinement by the atomic gather *)

Definition pages (ts : list (Z * phase)) : list Z := map fst ts.

(** The interleaved state [f] and the atomic state [c] agree on the
    collection and the status; the tasks of [f] are pending in [c] (all of
    them while the gather runs), and each is on track. *)
Definition matches (f : fstate) (c : crawl_state) : Prop :=
  Forall (fun t => exists evs, on_track t.1 t.2 evs) (fs_tasks f) /\
  fs_store f = cs_store c /\ fs_status f = cs_status c /\
  pages (fs_tasks f) ⊆+ cs_pending c /\
  (fs_status f = Running -> pages (fs_tasks f) ≡ₚ cs_pending c).

Lemma pages_pick pre p ph post l :
  pages (pre ++ (p, ph) :: post) ⊆+ l ->
  exists pre' post', l = pre' ++ p :: post' /\ pages (pre ++ post) ⊆+ pre' ++ post'.
Proof.
  unfold pages. rewrite !map_app. cbn. intros H.
  assert (Hp : p ∈ l).
  { eapply elem_of_submseteq; [|exact H]. apply elem_of_app. right. apply elem_of_cons. by left. }
  apply list_elem_of_split in Hp as (pre' & post' & ->). exists pre', post'. split; [done|].
  rewrite <- !Permutation_middle in H. by apply (submseteq_app_inv_l _ _ [p]).
Qed.

Lemma pages_pick_perm pre p ph post pre' post' :
  pages (pre ++ (p, ph) :: post) ≡ₚ pre' ++ p :: post' -> pages (pre ++ post) ≡ₚ pre' ++ post'.
Proof.
  unfold pages. rewrite !map_app. cbn. rewrite <- !Permutation_middle. apply Permutation_cons_inv.
Qed.

Lemma pages_drop pre p ph post : pages (pre ++ post) ⊆+ pages (pre ++ (p, ph) :: post).
Proof. unfold pages. rewrite !map_app. cbn. apply submseteq_app; [done|]. by apply submseteq_cons. Qed.

Lemma pages_update pre p ph ph' post : pages (pre ++ (p, ph') :: post) = pages (pre ++ (p, ph) :: post).
Proof. unfold pages. by rewrite !map_app. Qed.

Lemma tracks_pick pre t post :
  Forall (fun t => exists evs, on_track t.1 t.2 evs) (pre ++ t :: post) ->
  (exists evs, on_track t.1 t.2 evs) /\ Forall (fun t => exists evs, on_track t.1 t.2 evs) (pre ++ post).
Proof. rewrite !Forall_app, Forall_cons. intros (? & ? & ?). by repeat split. Qed.

Lemma tracks_pick' (P : Z * phase -> Prop) pre t post :
  Forall P (pre ++ t :: post) -> P t /\ Forall P (pre ++ post).
Proof. rewrite !Forall_app, Forall_cons. intros (? & ? & ?). by repeat split. Qed.

Lemma tracks_update pre t t' post :
  Forall (fun t => exists evs, on_track t.1 t.2 evs) (pre ++ t :: post) ->
  (exists evs, on_track t'.1 t'.2 evs) ->
  Forall (fun t => exists evs, on_track t.1 t.2 evs) (pre ++ t' :: post).
Proof. rewrite !Forall_app, !Forall_cons. intros (? & ? & ?) ?. by repeat split. Qed.

(** Each interleaved step is matched by at most one atomic step. *)
Lemma fstep_matches f f' c :
  fstep f f' -> matches f c -> exists c', rtc (step E) c c' /\ matches f' c'.
Proof.
  destruct c as [cp cstore clog cst].
  intros Hstep (Htr & Hstore & Hst & Hsub & Hperm); cbn in *.
  destruct Hstep as [pre p ph post store log st ph' ev Hlive Hs
                    |pre p ph post store log st db' ev Hlive Hs
                    |pre p ph post store log st e ev Hlive Hs
                    |store log|tasks store log e]; cbn in *; subst cstore cst.
  - (* a segment up to an await: no atomic step *)
    exists (CS cp store clog st). split; [done|].
    destruct (tracks_pick _ _ _ Htr) as [[evs Ht] _].
    split; [apply (tracks_update _ (p, ph)); [done|by eexists; eapply on_track_await]|].
    cbn [fs_store fs_status fs_tasks cs_store cs_status cs_pending].
    rewrite (pages_update pre p ph ph' post). by repeat split.
  - (* the task returns: it completes in the atomic gather *)
    destruct (tracks_pick _ _ _ Htr) as [[evs Ht] Htr'].
    pose proof (on_track_return _ _ _ _ _ _ Ht Hs) as Hsc.
    destruct (pages_pick _ _ _ _ _ Hsub) as (pre' & post' & -> & Hsub').
    destruct st as [|e0|o]; [| |done].
    + exists (CS (pre' ++ post') db' (clog ++ evs ++ ev) Running).
      split; [by apply rtc_once, step_ok|].
      split; [done|]. split; [done|]. split; [done|]. split; [done|].
      intros _. by eapply pages_pick_perm, Hperm.
    + exists (CS (pre' ++ post') db' (clog ++ evs ++ ev) (Failed e0)).
      split; [by apply rtc_once, step_late_ok|]. by repeat split.
  - (* the task raises *)
    destruct (tracks_pick _ _ _ Htr) as [[evs Ht] Htr'].
    pose proof (on_track_raise _ _ _ _ _ _ Ht Hs) as Hsc.
    destruct st as [|e0|o]; [| |done]; cbn.
    + destruct (pages_pick _ _ _ _ _ Hsub) as (pre' & post' & -> & Hsub').
      exists (CS (pre' ++ post') store (clog ++ evs ++ ev) (Failed e)).
      split; [by apply rtc_once, step_fail|]. by repeat split.
    + exists (CS cp store clog (Failed e0)). split; [done|].
      split; [done|]. split; [done|]. split; [done|]. split; [|done].
      etrans; [apply pages_drop|exact Hsub].
  - (* the gather returns *)
    specialize (Hperm eq_refl). symmetry in Hperm. apply Permutation_nil_r in Hperm as ->.
    exists (CS [] store clog (Finished Returned)). split; [by apply rtc_once, step_done|].
    by repeat split.
  - (* main leaves the gather and the pending tasks are cancelled *)
    exists (handle_main e (CS [] store clog (Failed e))). split; [by apply rtc_once, step_cancel|].
    unfold fhandle, handle_main. by destruct (isinstance e MissingCriticalElementError).
Qed.

Lemma matches_init tasks0 store0 flog log0 :
  matches (FS (map (fun p => (p, Start)) tasks0) store0 flog Running) (CS tasks0 store0 log0 Running).
Proof.
  unfold matches, pages. cbn. rewrite map_map, map_id. split; [|by repeat split].
  apply Forall_forall. intros t (p & -> & _)%list_elem_of_fmap. exists []. apply on_track_start.
Qed.

Lemma fine_coarse tasks0 store0 flog log0 f :
  rtc fstep (FS (map (fun p => (p, Start)) tasks0) store0 flog Running) f ->
  exists c, rtc (step E) (CS tasks0 store0 log0 Running) c /\ matches f c.
Proof.
  intros Hf. eapply (simulation_rtc fstep (step E) matches); [|exact Hf|apply matches_init].
  intros a a' b. apply fstep_matches.
Qed.

#[local] Arguments task_log : simpl never.
#[local] Arguments pages : simpl never.

(** ** Termination *)

(** The segments a task has left, at most. *)
Definition phase_measure (ph : phase) : nat :=
  match ph with Start => 5 | Fetch n _ => n + 2 | Inserting _ _ => 1 end.

Definition fmeasure (f : fstate) : nat :=
  let w := sum_list_with (fun t => phase_measure t.2) (fs_tasks f) in
  match fs_status f with Running => 2 + w | Failed _ => 1 + w | Finished _ => 0 end.

Lemma task_step_measure p ph db ph' ev :
  task_step p ph db = Await ph' ev -> phase_measure ph' < phase_measure ph.
Proof.
  destruct ph as [|n k|entities msg]; cbn.
  - intros [= <- _]. cbn. lia.
  - destruct (att_result (page_attempt p k)) as [e|txt].
    + destruct n as [|n]; [done|]. destruct (is_http_error e); [|done]. intros [= <- _]. cbn. lia.
    + destruct (parse_page (html_parser E) (LayoutTag (html_parser E txt))) as [[e|books] plog]; [done|].
      intros [= <- _]. cbn. lia.
  - by destruct (insert_many entities db).
Qed.

Lemma fstep_measure f f' : fstep f f' -> fmeasure f' < fmeasure f.
Proof.
  unfold fmeasure. intros [pre p ph post store log st ph' ev Hl Hs|pre p ph post store log st db' ev Hl Hs
    |pre p ph post store log st e ev Hl Hs|store log|tasks store log e]; cbn;
    rewrite ?sum_list_with_app; cbn.
  - apply task_step_measure in Hs. destruct st; [lia|lia|done].
  - destruct ph; destruct st; cbn in *; try done; lia.
  - destruct ph; destruct st; cbn in *; try done; lia.
  - lia.
  - unfold fhandle. destruct (isinstance _ _); cbn; lia.
Qed.

Lemma fstep_progress f : ffinished f = false -> exists f', fstep f f'.
Proof.
  destruct f as [tasks store log [|e|o]]; cbn; [|intros _|done].
  - intros _. destruct tasks as [|[p ph] post].
    + eexists. apply fstep_done.
    + destruct (task_step p ph store) as [ph' ev|e ev|db' ev] eqn:Hs.
      * eexists. by apply (fstep_await [] p ph post).
      * eexists. by apply (fstep_raise [] p ph post).
      * eexists. by apply (fstep_return [] p ph post).
  - eexists. apply fstep_cancel.
Qed.

Lemma freaches_end n f : fmeasure f <= n -> exists f', rtc fstep f f' /\ ffinished f' = true.
Proof.
  revert f. induction n as [|n IH]; intros f Hm.
  - exists f. split; [done|]. unfold fmeasure, ffinished in *. destruct (fs_status f); [lia|lia|done].
  - destruct (ffinished f) eqn:Hf; [by exists f|].
    destruct (fstep_progress f Hf) as [f' Hs].
    destruct (IH f') as (f'' & Hs' & Hf''); [pose proof (fstep_measure _ _ Hs); lia|].
    exists f''. split; [by eapply rtc_l|done].
Qed.

(** ** The order of the log *)

Definition task_events (p : Z) : list event := (scrape_page E p []).2.

Lemma scrape_page_events p db : (scrape_page E p db).2 = task_events p.
Proof. unfold task_events. by rewrite (scrape_page_frame E p db). Qed.

Lemma task_log_app p l1 l2 : task_log p (l1 ++ l2) = task_log p l1 ++ task_log p l2.
Proof. apply omap_app. Qed.

Lemma task_log_tag p q ev : task_log p (tag q ev) = if (q =? p)%Z then ev else [].
Proof.
  induction ev as [|x ev IH]; [by destruct (q =? p)%Z|].
  change (tag q (x :: ev)) with ([TaskEv q x] ++ tag q ev). rewrite task_log_app, IH.
  unfold task_log at 1. cbn. by destruct (q =? p)%Z.
Qed.

Lemma task_log_main p ev : task_log p [MainEv ev] = [].
Proof. done. Qed.

Lemma task_log_own p l ev : task_log p (l ++ tag p ev) = task_log p l ++ ev.
Proof. by rewrite task_log_app, task_log_tag, Z.eqb_refl. Qed.

Lemma task_log_other p q l ev : q <> p -> task_log p (l ++ tag q ev) = task_log p l.
Proof. intros Hq. rewrite task_log_app, task_log_tag. apply Z.eqb_neq in Hq. by rewrite Hq, app_nil_r. Qed.

(** What a task logged is the beginning of its sequential log. *)
Lemma on_track_prefix p ph evs : on_track p ph evs -> evs `prefix_of` task_events p.
Proof.
  intros Ht. destruct (Ht []) as (r & rest & _ & Hsc). unfold task_events. rewrite Hsc. by exists rest.
Qed.

(** The tasks are distinct, each is on track with the lines it logged,
    and every task's lines begin its sequential log. *)
Definition log_inv (f : fstate) : Prop :=
  NoDup (pages (fs_tasks f)) /\
  Forall (fun t => on_track t.1 t.2 (task_log t.1 (fs_log f))) (fs_tasks f) /\
  forall p, task_log p (fs_log f) `prefix_of` task_events p.

(** Lines of task [p] leave the lines of the other tasks in place. *)
Lemma tracks_other pre post p ev log :
  p ∉ pages (pre ++ post) ->
  Forall (fun t => on_track t.1 t.2 (task_log t.1 log)) (pre ++ post) ->
  Forall (fun t => on_track t.1 t.2 (task_log t.1 (log ++ tag p ev))) (pre ++ post).
Proof.
  intros Hp Hf. apply Forall_forall. intros [q ph] Hq. eapply Forall_forall in Hf; [|exact Hq].
  cbn in *. rewrite task_log_other; [done|]. intros ->. apply Hp.
  apply list_elem_of_fmap. by exists (q, ph).
Qed.

Lemma pages_nodup_pick pre p ph post :
  NoDup (pages (pre ++ (p, ph) :: post)) -> (p ∉ pages (pre ++ post)) /\ NoDup (pages (pre ++ post)).
Proof.
  unfold pages. rewrite !map_app. cbn. rewrite <- Permutation_middle. intros H.
  by apply NoDup_cons in H.
Qed.

Lemma log_inv_step f f' : fstep f f' -> log_inv f -> log_inv f'.
Proof.
  intros Hstep (Hnd & Htr & Hpre). unfold log_inv.
  destruct Hstep as [pre p ph post store log st ph' ev Hl Hs|pre p ph post store log st db' ev Hl Hs
    |pre p ph post store log st e ev Hl Hs|store log|tasks store log e]; cbn in *.
  - destruct (pages_nodup_pick _ _ _ _ Hnd) as [Hp _].
    apply Forall_app in Htr as [Hpre_t Htr]. apply Forall_cons in Htr as [Ht Hpost_t]. cbn in Ht.
    pose proof (on_track_await _ _ _ _ _ _ Ht Hs) as Ht'. rewrite <- task_log_own in Ht'.
    split; [by rewrite (pages_update pre p ph ph' post)|]. split.
    + assert (Ho : Forall (fun t => on_track t.1 t.2 (task_log t.1 (log ++ tag p ev))) (pre ++ post)).
      { apply tracks_other; [done|]. by apply Forall_app. }
      apply Forall_app in Ho as [Ho1 Ho2]. apply Forall_app. by split; [|constructor].
    + intros q. destruct (Z.eq_dec q p) as [->|Hq]; [by apply on_track_prefix with ph'|].
      rewrite task_log_other; [apply Hpre|done].
  - destruct (pages_nodup_pick _ _ _ _ Hnd) as [Hp Hnd'].
    destruct (tracks_pick' _ _ _ _ Htr) as [Ht Hrest]. cbn in Ht.
    pose proof (on_track_return _ _ _ _ _ _ Ht Hs) as Hsc.
    split; [done|]. split; [by apply tracks_other|].
    intros q. destruct (Z.eq_dec q p) as [->|Hq].
    + rewrite task_log_own. rewrite <- (scrape_page_events p store), Hsc. done.
    + rewrite task_log_other; [apply Hpre|done].
  - destruct (pages_nodup_pick _ _ _ _ Hnd) as [Hp Hnd'].
    destruct (tracks_pick' _ _ _ _ Htr) as [Ht Hrest]. cbn in Ht.
    pose proof (on_track_raise _ _ _ _ _ _ Ht Hs) as Hsc.
    split; [done|]. split; [by apply tracks_other|].
    intros q. destruct (Z.eq_dec q p) as [->|Hq].
    + rewrite task_log_own. rewrite <- (scrape_page_events p store), Hsc. done.
    + rewrite task_log_other; [apply Hpre|done].
  - by repeat split.
  - unfold fhandle. destruct (isinstance _ _); cbn.
    + split; [constructor|]. split; [constructor|]. intros q. rewrite task_log_app, task_log_main, app_nil_r. apply Hpre.
    + split; [constructor|]. split; [constructor|done].
Qed.

Lemma task_log_mains p l : task_log p (map MainEv l) = [].
Proof. induction l as [|ev l IH]; [done|]. exact IH. Qed.

(** The gather starts with the lines [main] has logged. *)
Lemma log_inv_start tasks0 store0 l :
  NoDup tasks0 -> log_inv (FS (map (fun p => (p, Start)) tasks0) store0 (map MainEv l) Running).
Proof.
  intros Hnd. unfold log_inv, pages. cbn. rewrite map_map, map_id. split; [done|].
  split; [|intros p; rewrite task_log_mains; apply prefix_nil].
  apply Forall_forall. intros t (p & -> & _)%list_elem_of_fmap. cbn.
  rewrite task_log_mains. apply on_track_start.
Qed.

Lemma log_inv_init tasks0 store0 : NoDup tasks0 -> log_inv (finit tasks0 store0).
Proof. exact (log_inv_start tasks0 store0 []). Qed.

(** The log only grows. *)
Lemma fstep_log f f' : fstep f f' -> fs_log f `prefix_of` fs_log f'.
Proof.
  intros Hs. destruct Hs as [| | | |tasks store log e]; cbn; try by apply prefix_app_r.
  - reflexivity.
  - unfold fhandle. destruct (isinstance e MissingCriticalElementError); cbn; [by apply prefix_app_r|done].
Qed.

Lemma rtc_fstep_log f f' : rtc fstep f f' -> fs_log f `prefix_of` fs_log f'.
Proof. induction 1 as [|f1 f2 f3 H12 _ IH]; [done|]. by etrans; [apply fstep_log|]. Qed.

Lemma log_inv_rtc f f' : log_inv f -> rtc fstep f f' -> log_inv f'.
Proof. intros Hi Hs. induction Hs; eauto using log_inv_step. Qed.

(** ** Completeness of the log *)

Lemma pages_elem pre p ph post q :
  q ∈ pages (pre ++ (p, ph) :: post) <-> q = p \/ q ∈ pages (pre ++ post).
Proof. unfold pages. rewrite !map_app. cbn. rewrite !elem_of_app, elem_of_cons. tauto. Qed.

Lemma live_running st (X : Prop) :
  st = Running \/ st = Finished Returned /\ X -> live st -> st = Running.
Proof. intros [->|[-> _]] Hl; [done|destruct Hl]. Qed.

(** While every task succeeds: the gather runs, or has returned with no
    task left; the tasks are among [tasks0]; and a task of [tasks0] that
    has left the event loop has logged every line of its sequential run. *)
Definition done_inv (tasks0 : list Z) (f : fstate) : Prop :=
  (fs_status f = Running \/ fs_status f = Finished Returned /\ fs_tasks f = []) /\
  (forall q, q ∈ pages (fs_tasks f) -> q ∈ tasks0) /\
  (forall p, p ∈ tasks0 -> p ∉ pages (fs_tasks f) -> task_log p (fs_log f) = task_events p).

Section AllSucceed.
Context (tasks0 : list Z).
Hypothesis Hall : Forall (fun p => succeeds E p = true) tasks0.

Lemma done_inv_step f f' : fstep f f' -> log_inv f -> done_inv tasks0 f -> done_inv tasks0 f'.
Proof.
  intros Hstep (Hnd & Htr & _) (Hst & Hin & Hdone). unfold done_inv.
  destruct Hstep as [pre p ph post store log st ph' ev Hl Hs|pre p ph post store log st db' ev Hl Hs
    |pre p ph post store log st e ev Hl Hs|store log|tasks store log e]; cbn in *.
  - rewrite (pages_update pre p ph ph' post). split; [left; exact (live_running _ _ Hst Hl)|].
    split; [done|]. intros q Hq Hnq. rewrite task_log_other; [by apply Hdone|].
    intros ->. apply Hnq, pages_elem. by left.
  - split; [left; exact (live_running _ _ Hst Hl)|]. split.
    { intros q Hq. apply Hin, pages_elem. by right. }
    intros q Hq Hnq. destruct (Z.eq_dec q p) as [->|Hqp].
    + destruct (tracks_pick' _ _ _ _ Htr) as [Ht _]. cbn in Ht.
      rewrite task_log_own, <- (scrape_page_events p store), (on_track_return _ _ _ _ _ _ Ht Hs). done.
    + rewrite task_log_other by done. apply Hdone; [done|]. intros [->|]%pages_elem; done.
  - exfalso. destruct (tracks_pick' _ _ _ _ Htr) as [Ht _]. cbn in Ht.
    pose proof (scrape_fail E _ _ _ _ (on_track_raise _ _ _ _ _ _ Ht Hs)) as He.
    assert (Hp : p ∈ tasks0) by (apply Hin, pages_elem; by left).
    eapply Forall_forall in Hall; [|exact Hp]. unfold succeeds in Hall. by rewrite He in Hall.
  - split; [by right|done].
  - exfalso. by destruct Hst as [|[? _]].
Qed.

Lemma done_inv_rtc f f' : rtc fstep f f' -> log_inv f -> done_inv tasks0 f -> done_inv tasks0 f'.
Proof.
  intros Hs. induction Hs as [|f1 f2 f3 H12 _ IH]; intros Hl Hd; [done|].
  apply IH; [by apply log_inv_step with f1|by apply done_inv_step with f1].
Qed.

Lemma done_inv_start store0 flog : done_inv tasks0 (FS (map (fun p => (p, Start)) tasks0) store0 flog Running).
Proof.
  unfold done_inv, pages. cbn. rewrite map_map, map_id. split; [by left|]. done.
Qed.

(** A finished run in which every task succeeds has logged every line of
    every task. *)
Lemma fine_log_complete store0 l f p :
  NoDup tasks0 -> rtc fstep (FS (map (fun p => (p, Start)) tasks0) store0 (map MainEv l) Running) f ->
  ffinished f = true -> p ∈ tasks0 ->
  task_log p (fs_log f) = task_events p.
Proof.
  intros Hnd Hf Hfin Hp.
  destruct (done_inv_rtc _ _ Hf (log_inv_start tasks0 store0 l Hnd) (done_inv_start store0 _)) as (Hst & _ & Hdone).
  unfold ffinished in Hfin. destruct Hst as [Hr|[_ Ht]]; [by rewrite Hr in Hfin|].
  apply Hdone; [done|]. rewrite Ht. apply not_elem_of_nil.
Qed.

End AllSucceed.

Lemma fine_all_succeed tasks0 store0 flog f :
  Forall (fun p => succeeds E p = true) tasks0 ->
  rtc fstep (FS (map (fun p => (p, Start)) tasks0) store0 flog Running) f -> ffinished f = true ->
  fs_status f = Finished Returned /\ fs_store f ≡ₚ store0 ++ concat (map (batch E) tasks0).
Proof.
  intros Hall Hf Hfin. destruct (fine_coarse tasks0 store0 flog [] f Hf) as (c & Hc & _ & Hs & Hst & _).
  rewrite Hs, Hst. apply (all_succeed_finished E tasks0 store0 [] c Hall Hc).
  unfold ffinished, finished in *. by rewrite <- Hst.
Qed.

(** ** The number of requests

    Each suspended task may still log at most [phase_budget] request lines:
    three before it starts, one per attempt left while it fetches, none
    once it inserts. Request lines logged plus budgets left never grow. *)
Definition phase_budget (ph : phase) : nat :=
  match ph with
  | Start => get_page_attempts
  | Fetch n _ => S n
  | Inserting _ _ => 0
  end.

Definition budget (ts : list (Z * phase)) : nat := sum_list_with (fun t => phase_budget t.2) ts.

Definition fhttp_line (x : fevent) : nat := match x with TaskEv _ ev | MainEv ev => http_line ev end.

Definition http_lines (l : list fevent) : nat := sum_list_with fhttp_line l.

Lemma http_tag p ev : http_lines (tag p ev) = sum_list_with http_line ev.
Proof.
  unfold http_lines, tag. induction ev as [|x ev IH]; [done|].
  cbn [map sum_list_with fhttp_line]. by rewrite IH.
Qed.

Lemma http_mains l : http_lines (map MainEv l) = sum_list_with http_line l.
Proof.
  unfold http_lines. induction l as [|x l IH]; [done|].
  cbn [map sum_list_with fhttp_line]. by rewrite IH.
Qed.

Lemma budget_start l : budget (map (fun p => (p, Start)) l) = get_page_attempts * length l.
Proof.
  unfold budget. induction l as [|p l IH]; [done|].
  cbn [map sum_list_with length]. rewrite IH. cbn [snd phase_budget]. lia.
Qed.

Lemma budget_pick pre t post : budget (pre ++ t :: post) = budget (pre ++ post) + phase_budget t.2.
Proof. unfold budget. rewrite !sum_list_with_app. cbn. lia. Qed.

Lemma task_step_http p ph db :
  match task_step p ph db with
  | Await ph' ev => sum_list_with http_line ev + phase_budget ph' <= phase_budget ph
  | Raise _ ev | Return _ ev => sum_list_with http_line ev <= phase_budget ph
  end.
Proof.
  destruct ph as [|n k|entities msg]; cbn [task_step].
  - cbn. unfold get_page_attempts. lia.
  - unfold page_attempt. pose proof (get_page_attempt_events (p + 1) (net E (p + 1) k)).
    destruct (att_result _) as [e|txt].
    + destruct n as [|n]; [|destruct (is_http_error e)]; cbn [phase_budget]; rewrite http_debug; lia.
    + destruct (parse_page _ _) as [[e|books] plog]; cbn [phase_budget];
        rewrite ?sum_list_with_app, http_debug, ?http_page; lia.
  - destruct (insert_many entities db); cbn; lia.
Qed.

Lemma fstep_http f f' :
  fstep f f' -> http_lines (fs_log f') + budget (fs_tasks f') <= http_lines (fs_log f) + budget (fs_tasks f).
Proof.
  intros Hs. pose proof Hs as Hs'.
  destruct Hs as [pre p ph post store log st ph' ev Hl Hs|pre p ph post store log st db' ev Hl Hs
    |pre p ph post store log st e ev Hl Hs|store log|tasks store log e]; cbn [fs_log fs_tasks].
  all: try (pose proof (task_step_http p ph store) as Ht; rewrite Hs in Ht;
            unfold http_lines in *; rewrite sum_list_with_app, ?budget_pick, http_tag; cbn in *; lia).
  - lia.
  - unfold fhandle. destruct (isinstance e MissingCriticalElementError); cbn [fs_log fs_tasks];
      unfold http_lines; rewrite ?sum_list_with_app; cbn; lia.
Qed.

Lemma rtc_fstep_http f f' :
  rtc fstep f f' -> http_lines (fs_log f') + budget (fs_tasks f') <= http_lines (fs_log f) + budget (fs_tasks f).
Proof. induction 1 as [|f1 f2 f3 H12 _ IH]; [done|]. pose proof (fstep_http _ _ H12). lia. Qed.

(** ** A round-robin scheduler

    The event loop resumes the tasks in turn: [fsched] runs one segment of
    the task at the cursor [i] and moves the cursor on. *)
Fixpoint fsched (n i : nat) (f : fstate) : fstate :=
  match n with
  | O => f
  | S n' =>
      match f with
      | FS tasks store log Running =>
          match tasks with
          | [] => FS [] store log (Finished Returned)
          | _ :: _ =>
              let k := i mod length tasks in
              match drop k tasks with
              | [] => f
              | (p, ph) :: post =>
                  match task_step p ph store with
                  | Await ph' ev => fsched n' (S k) (FS (take k tasks ++ (p, ph') :: post) store (log ++ tag p ev) Running)
                  | Return db' ev => fsched n' k (FS (take k tasks ++ post) db' (log ++ tag p ev) Running)
                  | Raise e ev => fsched n' k (FS (take k tasks ++ post) store (log ++ tag p ev) (Failed e))
                  end
              end
          end
      | FS _ store log (Failed e) => fhandle e store log
      | FS _ _ _ (Finished _) => f
      end
  end.

Lemma fsched_rtc n i f : rtc fstep f (fsched n i f).
Proof.
  revert i f. induction n as [|n IH]; intros i [tasks store log st]; [done|]. cbn [fsched].
  destruct st as [|e|o]; [|by apply rtc_once, fstep_cancel|done].
  destruct tasks as [|t ts]; [by apply rtc_once, fstep_done|].
  set (k := i mod length (t :: ts)).
  pose proof (take_drop k (t :: ts)) as Hsplit.
  destruct (drop k (t :: ts)) as [|[p ph] post]; [done|].
  rewrite <- Hsplit at 1.
  destruct (task_step p ph store) as [ph' ev|e ev|db' ev] eqn:Hs.
  - eapply rtc_l; [by apply fstep_await|apply IH].
  - eapply rtc_l; [|apply IH]. by apply (fstep_raise _ _ _ _ _ _ Running).
  - eapply rtc_l; [by apply fstep_return|apply IH].
Qed.

(** ** Theorems on the interleaved gather *)

(** C5: Refinement: every run of the interleaved gather is matched by a run
    of the atomic gather of [Crawl] that ends with the same collection and
    the same status. *)
Theorem interleave_refines tasks0 store0 log0 f :
  rtc fstep (finit tasks0 store0) f ->
  exists c, rtc (step E) (CS tasks0 store0 log0 Running) c /\
            cs_store c = fs_store f /\ cs_status c = fs_status f.
Proof.
  intros Hf. destruct (fine_coarse tasks0 store0 [] log0 f Hf) as (c & Hc & _ & Hst & Hstat & _).
  by exists c.
Qed.

(** C6: Safety under interleaving: whatever the order in which the event
    loop resumes the tasks, the collection is the initial one followed by
    the batches of distinct tasks that succeeded. *)
Theorem interleave_store_safe tasks0 store0 f :
  rtc fstep (finit tasks0 store0) f ->
  exists ok, ok ⊆+ tasks0 /\ Forall (fun p => succeeds E p = true) ok /\
             fs_store f = store0 ++ concat (map (batch E) ok).
Proof.
  intros Hf. destruct (fine_coarse tasks0 store0 [] [] f Hf) as (c & Hc & _ & -> & _).
  exact (store_safe E tasks0 store0 [] c Hc).
Qed.

(** C7: When every task succeeds, every finished interleaved run returns
    normally with the batches of all tasks inserted. *)
Theorem interleave_all_succeed tasks0 store0 f :
  Forall (fun p => succeeds E p = true) tasks0 ->
  rtc fstep (finit tasks0 store0) f -> ffinished f = true ->
  fs_status f = Finished Returned /\ fs_store f ≡ₚ store0 ++ concat (map (batch E) tasks0).
Proof. exact (fine_all_succeed tasks0 store0 [] f). Qed.

(** C12: Termination: from every state of the interleaved gather a
    finished state is reached. *)
Theorem interleave_terminates f : exists f', rtc fstep f f' /\ ffinished f' = true.
Proof. by apply (freaches_end (fmeasure f)). Qed.

(** C13: Completeness of the log: when every task succeeds, every
    finished interleaved run has written every line of every task's
    sequential run to the shared log, in the order of that run. *)
Theorem interleave_log_complete tasks0 store0 f p :
  NoDup tasks0 -> Forall (fun p => succeeds E p = true) tasks0 ->
  rtc fstep (finit tasks0 store0) f -> ffinished f = true -> p ∈ tasks0 ->
  task_log p (fs_log f) = task_events p.
Proof. intros Hnd Hall. exact (fine_log_complete tasks0 Hall store0 [] f p Hnd). Qed.

End Interleave.

(** ** Witnesses on the shop of [Crawl] *)

(** The round-robin run of the two tasks of the shop. *)
Definition shop_run : fstate := fsched shop_env 20 0 (finit [1; 2]%Z []).

(** The tasks interleave: the log alternates between the two pages, and
    the gather returns with both pages stored. *)
Example shop_run_interleaves :
  map (fun x => match x with TaskEv p _ => p | MainEv _ => 0%Z end) (fs_log shop_run) =
    [1; 2; 1; 2; 1; 2]%Z /\
  fs_status shop_run = Finished Returned /\ length (fs_store shop_run) = 2.
Proof. vm_compute. auto. Qed.

(** On the broken network task 2 fails after page 2 (task 1) is stored:
    the interleaved gather keeps it, and [main] raises. *)
Example broken_run_keeps_first :
  fs_status (fsched broken_env 20 0 (finit [1; 2]%Z [])) =
    Finished (Raised (Exn HTTPStatusError (str_Z 503))) /\
  length (fs_store (fsched broken_env 20 0 (finit [1; 2]%Z []))) = 1.
Proof. vm_compute. auto. Qed.

Lemma interleave_refines_witness :
  exists c, rtc (step shop_env) (CS [1; 2]%Z [] [] Running) c /\
            cs_store c = fs_store shop_run /\ cs_status c = fs_status shop_run.
Proof. apply interleave_refines, fsched_rtc. Defined.

Lemma interleave_store_safe_witness :
  exists ok, ok ⊆+ [1; 2]%Z /\ Forall (fun p => succeeds shop_env p = true) ok /\
             fs_store shop_run = [] ++ concat (map (batch shop_env) ok).
Proof. apply interleave_store_safe, fsched_rtc. Defined.

Lemma interleave_all_succeed_witness :
  fs_status shop_run = Finished Returned /\
  fs_store shop_run ≡ₚ [] ++ concat (map (batch shop_env) [1; 2]%Z).
Proof.
  apply interleave_all_succeed.
  - repeat constructor.
  - apply fsched_rtc.
  - vm_compute. reflexivity.
Defined.

Lemma interleave_log_complete_witness :
  task_log 2 (fs_log shop_run) = task_events shop_env 2.
Proof.
  apply (interleave_log_complete shop_env [1; 2]%Z []).
  - repeat constructor; vm_compute; intros H; repeat (apply elem_of_cons in H as [H|H]); try discriminate.
    all: by apply elem_of_nil in H.
  - repeat constructor.
  - apply fsched_rtc.
  - vm_compute. reflexivity.
  - apply elem_of_cons. right. apply elem_of_cons. by left.
Defined.
