(* ===== verification/Main.v ===== *)
(** * Main: the whole crawl, phase 1 of [main] followed by the interleaved gather

    [fstart] turns the state in which phase 1 ([main_start]) leaves [main]
    into the start of the interleaved gather of [Interleave]: one task in
    phase [Start] per page of [range(1, cunt)], the collection holding page
    1, and the lines [main] logged. The theorems of this file compose the
    two phases: when the database answers, every page of the catalogue
    downloads and parses to a non-empty list of books and page 1 carries a
    pager, every run of the crawl, under every interleaving, ends normally
    with the books of all pages appended to what the collection held, each
    page stamped with its own date ([crawl_stores_all_books]); and its log
    is main's lines followed by an interleaving of every task's complete
    sequential log ([crawl_log_complete]). When the network raises no
    [MissingCriticalElementError], a crawl that reached its gather returns
    normally only if every page succeeded ([crawl_returns_only_complete]);
    and under every interleaving it logs at most three request lines per
    page ([crawl_http_bound], by the budget invariant of [Interleave]). *)

From Stdlib Require Import ZArith Lia Permutation.
From S2P Require Import Prelude Exceptions Builtins Dom Pager Book Page Transport Sink Crawl Gather Interleave.

Definition fstart (c : crawl_state) : fstate :=
  FS (map (fun p => (p, Start)) (cs_pending c)) (cs_store c) (map MainEv (cs_log c)) (cs_status c).

Section Main.

Context (E : crawl_env).

(** Page [q] downloads and parses to the non-empty list [books]. *)
Definition page_ok (q : Z) (books : list Book) : Prop :=
  exists txt dbg k plog, get_page (net E q) q = (inr txt, dbg, k) /\
    parse_page (html_parser E) (LayoutTag (html_parser E txt)) = (inr books, plog) /\ books <> [].

(** Page 1 carries a pager whose text gives the count [cunt]. *)
Definition pager_ok (cunt : Z) : Prop :=
  exists txt dbg k cur, get_page (net E 1) 1 = (inr txt, dbg, k) /\
    select_one sel_pager_current (html_parser E txt) = Some cur /\
    parse_pages_count (strip (text cur)) = inr cunt.

(** The documents of page [q]. *)
Definition page_models (books : Z -> list Book) (q : Z) : list BookModel :=
  map (fun b => book_to_model b (clock E q)) (books q).

Lemma tasks_of_pages books cunt :
  (forall q, (1 <= q <= cunt)%Z -> page_ok q (books q)) ->
  Forall (fun p => succeeds E p = true) (py_range 1 cunt) /\
  map (batch E) (py_range 1 cunt) = map (page_models books) (map (fun p => p + 1)%Z (py_range 1 cunt)).
Proof.
  intros Hpages. rewrite map_map. split.
  - apply Forall_forall. intros p Hp%py_range_elem.
    destruct (Hpages (p + 1)%Z ltac:(lia)) as (txt & dbg & k & plog & Hg & Hparse & Hne).
    exact (proj1 (task_batch E p txt dbg k (books (p + 1)%Z) plog Hg Hparse Hne)).
  - apply map_ext_in. intros p Hp%list_elem_of_In%py_range_elem.
    destruct (Hpages (p + 1)%Z ltac:(lia)) as (txt & dbg & k & plog & Hg & Hparse & Hne).
    exact (proj2 (task_batch E p txt dbg k (books (p + 1)%Z) plog Hg Hparse Hne)).
Qed.

(** Phase 1 on such a shop: page 1 appended to the collection, the gather
    started on [range(1, cunt)]. *)
Lemma main_start_pages db0 books cunt :
  db_open E db_name = inr db0 -> (1 <= cunt)%Z -> (forall q, (1 <= q <= cunt)%Z -> page_ok q (books q)) ->
  pager_ok cunt ->
  exists log, main_start E = CS (py_range 1 cunt) (db0 ++ page_models books 1) log Running.
Proof.
  intros Hdb Hc Hpages (txt & dbg & k & cur & Hg & Hsel & Hcnt).
  destruct (Hpages 1%Z ltac:(lia)) as (txt' & dbg' & k' & plog & Hg' & Hp & Hne).
  rewrite Hg in Hg'. injection Hg' as <- <- <-.
  exact (main_start_running E db0 txt dbg k (books 1%Z) plog cur cunt Hdb Hg Hp Hne Hsel Hcnt).
Qed.

(** C1: End to end: when the database answers, every page [1 .. cunt]
    downloads and parses to a non-empty list of books and page 1's pager
    gives [cunt], every finished run of [main] (phase 1, then the gather
    under any interleaving) returns normally, and the collection holds
    the documents it held before followed, in some order, by exactly the
    books of every page, page [q] stamped with the date of its insert. *)
Theorem crawl_stores_all_books db0 books cunt f :
  db_open E db_name = inr db0 ->
  (1 <= cunt)%Z -> (forall q, (1 <= q <= cunt)%Z -> page_ok q (books q)) -> pager_ok cunt ->
  rtc (fstep E) (fstart (main_start E)) f -> ffinished f = true ->
  fs_status f = Finished Returned /\
  fs_store f ≡ₚ db0 ++ concat (map (page_models books) (py_range 1 (cunt + 1))).
Proof.
  intros Hdb Hc Hpages Hpager Hf Hfin.
  destruct (main_start_pages db0 books cunt Hdb Hc Hpages Hpager) as [log Hm].
  rewrite Hm in Hf. unfold fstart in Hf. cbn in Hf.
  destruct (tasks_of_pages books cunt Hpages) as [Hall Hmap].
  destruct (fine_all_succeed E _ _ _ f Hall Hf Hfin) as [Hst Hstore].
  split; [done|]. rewrite Hstore, Hmap, py_range_shift, (py_range_cons 1 (cunt + 1)) by lia.
  by rewrite <- app_assoc.
Qed.

(** C2: End to end, the log: under the same conditions, the log of every
    finished run of [main] begins with the lines [main] wrote in phase 1,
    and holds every line of every page task: the lines of the task of
    page [p + 1], in log order, are exactly those of its sequential run. *)
Theorem crawl_log_complete db0 books cunt f :
  db_open E db_name = inr db0 ->
  (1 <= cunt)%Z -> (forall q, (1 <= q <= cunt)%Z -> page_ok q (books q)) -> pager_ok cunt ->
  rtc (fstep E) (fstart (main_start E)) f -> ffinished f = true ->
  map MainEv (cs_log (main_start E)) `prefix_of` fs_log f /\
  forall p, (1 <= p < cunt)%Z -> task_log p (fs_log f) = task_events E p.
Proof.
  intros Hdb Hc Hpages Hpager Hf Hfin. split; [exact (rtc_fstep_log E _ _ Hf)|].
  intros p Hp. destruct (main_start_pages db0 books cunt Hdb Hc Hpages Hpager) as [log Hm].
  rewrite Hm in Hf. unfold fstart in Hf. cbn in Hf.
  destruct (tasks_of_pages books cunt Hpages) as [Hall _].
  apply (fine_log_complete E _ Hall _ _ f p (py_range_NoDup 1 cunt) Hf Hfin).
  by apply py_range_elem.
Qed.

(** C3: A crawl that has started its gather returns normally only when every
    page task succeeded and stored its batch: one failing page makes
    [main] raise, whatever the interleaving. *)
Theorem crawl_returns_only_complete f :
  net_not_critical E -> cs_status (main_start E) = Running ->
  rtc (fstep E) (fstart (main_start E)) f -> fs_status f = Finished Returned ->
  Forall (fun p => succeeds E p = true) (cs_pending (main_start E)) /\
  fs_store f ≡ₚ cs_store (main_start E) ++ concat (map (batch E) (cs_pending (main_start E))).
Proof.
  intros Hnet Hrun Hf Hret. unfold fstart in Hf. rewrite Hrun in Hf.
  destruct (fine_coarse E _ _ _ [] f Hf) as (c & Hc & _ & Hs & Hst & _).
  rewrite Hs. apply (returned_complete E _ _ [] c); [|done|by rewrite <- Hst].
  intros q e _. by apply task_result_not_critical.
Qed.

(** C4: Bounds: whatever the interleaving, the crawl logs at most three
    request lines per page it fetches, page 1 and the pages of the gather:
    no page is retried beyond stamina's budget of three attempts. *)
Theorem crawl_http_bound f :
  rtc (fstep E) (fstart (main_start E)) f ->
  http_lines (fs_log f) <= get_page_attempts * (1 + length (cs_pending (main_start E))).
Proof.
  intros Hf. pose proof (rtc_fstep_http E _ _ Hf) as H. unfold fstart in H. cbn [fs_log fs_tasks] in H.
  rewrite http_mains, budget_start in H. pose proof (main_start_http E). lia.
Qed.

End Main.

(** ** Witness: the shop of three pages *)

Definition shop_books (q : Z) : list Book := [mkBook (lit "A") (pound ++ lit "37.34") true].

Lemma shop_pages_ok q : (1 <= q <= 3)%Z -> page_ok shop_env q (shop_books q).
Proof.
  intros Hq. assert (Hq' : q = 1%Z \/ q = 2%Z \/ q = 3%Z) by lia.
  destruct Hq' as [-> | [-> | ->]].
  all: do 4 eexists; repeat split.
  all: first [discriminate | vm_compute; reflexivity].
Qed.

Lemma shop_pager_ok : pager_ok shop_env 3.
Proof.
  exists (lit "<html></html>"), [HttpGet (page_url 1) 200], 1%nat, shop_current.
  split; [vm_compute; reflexivity|]. split; vm_compute; reflexivity.
Qed.

Lemma crawl_stores_all_books_witness :
  fs_status (fsched shop_env 40 0 (fstart (main_start shop_env))) = Finished Returned /\
  fs_store (fsched shop_env 40 0 (fstart (main_start shop_env))) ≡ₚ
    shop_db ++ concat (map (page_models shop_env shop_books) (py_range 1 (3 + 1))).
Proof.
  apply crawl_stores_all_books.
  - reflexivity.
  - lia.
  - exact shop_pages_ok.
  - exact shop_pager_ok.
  - apply fsched_rtc.
  - vm_compute. reflexivity.
Defined.

Lemma crawl_log_complete_witness :
  map MainEv (cs_log (main_start shop_env)) `prefix_of` fs_log (fsched shop_env 40 0 (fstart (main_start shop_env))) /\
  forall p, (1 <= p < 3)%Z ->
    task_log p (fs_log (fsched shop_env 40 0 (fstart (main_start shop_env)))) = task_events shop_env p.
Proof.
  apply (crawl_log_complete shop_env shop_db shop_books).
  - reflexivity.
  - lia.
  - exact shop_pages_ok.
  - exact shop_pager_ok.
  - apply fsched_rtc.
  - vm_compute. reflexivity.
Defined.

Lemma shop_net_not_critical : net_not_critical shop_env.
Proof. intros p k e. cbn. unfold shop_net. by destruct (p <=? 3)%Z. Qed.

Lemma crawl_returns_only_complete_witness :
  Forall (fun p => succeeds shop_env p = true) (cs_pending (main_start shop_env)) /\
  fs_store (fsched shop_env 40 0 (fstart (main_start shop_env))) ≡ₚ
    cs_store (main_start shop_env) ++ concat (map (batch shop_env) (cs_pending (main_start shop_env))).
Proof.
  apply crawl_returns_only_complete.
  - exact shop_net_not_critical.
  - vm_compute. reflexivity.
  - apply fsched_rtc.
  - vm_compute. reflexivity.
Defined.

Lemma crawl_http_bound_witness :
  http_lines (fs_log (fsched broken_env 40 0 (fstart (main_start broken_env)))) <=
    get_page_attempts * (1 + length (cs_pending (main_start broken_env))).
Proof. apply crawl_http_bound, fsched_rtc. Defined.

(** On the broken shop, page 3 is requested three times before the crawl
    raises: five request lines for three pages, within the bound of nine. *)
Example broken_shop_http :
  http_lines (fs_log (fsched broken_env 40 0 (fstart (main_start broken_env)))) = 5 /\
  fs_status (fsched broken_env 40 0 (fstart (main_start broken_env))) =
    Finished (Raised (Exn HTTPStatusError (str_Z 503))).
Proof. vm_compute. auto. Qed.
